(** * Residual inflammatory risk cohort: the two cohort pipelines

    A shallow embedding of the parts of [scripts/02_build_cohort.py] and
    [scripts/02_process_data.py] that decide how survey files are
    resolved, merged, harmonised and classified.

    Conventions of the embedding.
    - A pandas float64 value is an exact rational ([Q]); the missing
      value is the constructor [NaN].  Arithmetic with a missing operand
      is missing and every comparison with a missing operand is false,
      as in pandas.  Rounding of float64 arithmetic is not modelled.
    - Integer and boolean columns are numeric cells; a flag holds 0 or
      1.  Column types are not stored: a numeric column counts as
      float64 exactly when it holds a missing value ([is_float]).
    - A table is a list of column labels and a list of rows; a row is a
      list of labelled cells, read by label (first occurrence).
    - Text is Latin-1, the encoding the files are read with; letter case
      is changed on the ASCII and Latin-1 letters that stay in Latin-1.
    - A directory is the list of its entries in scan order; how names
      are compared is the platform's ([flavour]).
    - Python exceptions are the [Raise] results of [result]. *)

From Stdlib Require Import QArith Qround Lia Lqa Ascii.
From stdpp Require Import base list strings pretty.

(** ** Cells, comparisons and arithmetic *)

Inductive cell : Type :=
| NaN : cell
| Num : Q -> cell
| Str : string -> cell.

Inductive exn : Type :=
| KeyError : string -> exn
| AttributeError : string -> exn
| TypeError : string -> exn.

Inductive result (A : Type) : Type :=
| Ok : A -> result A
| Raise : exn -> result A.
Arguments Ok {A} _.
Arguments Raise {A} _.

#[global] Instance result_ret : MRet result := fun A a => Ok a.

#[global] Instance result_bind : MBind result := fun A B k m =>
  match m with
  | Ok a => k a
  | Raise e => Raise e
  end.

Definition isna (c : cell) : bool :=
  match c with NaN => true | _ => false end.

Definition notna (c : cell) : bool := negb (isna c).

Definition fillna (c d : cell) : cell :=
  if isna c then d else c.

Definition of_bool (b : bool) : cell :=
  Num (if b then 1 else 0)%Q.

(** [series >= q], [series < q], [series <= q], [series == q] on one element. *)
Definition cell_ge (c : cell) (q : Q) : bool :=
  match c with Num x => Qle_bool q x | _ => false end.

Definition cell_lt (c : cell) (q : Q) : bool :=
  match c with Num x => negb (Qle_bool q x) | _ => false end.

Definition cell_le (c : cell) (q : Q) : bool :=
  match c with Num x => Qle_bool x q | _ => false end.

Definition cell_eq_num (c : cell) (q : Q) : bool :=
  match c with Num x => Qeq_bool x q | _ => false end.

Definition cell_sub (a b : cell) : cell :=
  match a, b with Num x, Num y => Num (x - y)%Q | _, _ => NaN end.

Definition cell_div (a : cell) (q : Q) : cell :=
  match a with Num x => Num (x / q)%Q | _ => NaN end.

Definition cell_mul (a : cell) (q : Q) : cell :=
  match a with Num x => Num (x * q)%Q | _ => NaN end.

(** Equality of two cells as join keys and set members: numbers by
    value, strings by content, and the missing value equal to itself
    (pandas joins and [isin] pair missing keys with each other). *)
Definition cell_eqb (a b : cell) : bool :=
  match a, b with
  | NaN, NaN => true
  | Num x, Num y => Qeq_bool x y
  | Str s, Str t => String.eqb s t
  | _, _ => false
  end.

(** [astype(bool)] of a number: true unless zero. *)
Definition truthy (c : cell) : bool :=
  match c with Num x => negb (Qeq_bool x 0) | _ => false end.

(** The value of a cell as an operand of [&]: the integer of an int64
    cell, and 0 for a missing value. *)
Definition int_of (c : cell) : Z :=
  match c with Num x => Qfloor x | _ => 0%Z end.

(** [a & b] on two int64 values: the conjunction bit by bit (1 & 2 is
    0). *)
Definition cell_and (a b : cell) : cell :=
  Num (inject_Z (Z.land (int_of a) (int_of b))).

(** ** Strings *)

Definition lower_ascii (a : ascii) : ascii :=
  let n := N_of_ascii a in
  if ((65 <=? n) && (n <=? 90))%N then ascii_of_N (n + 32)
  else if ((192 <=? n) && (n <=? 222) && negb (n =? 215))%N then ascii_of_N (n + 32)
  else a.

Definition upper_ascii (a : ascii) : ascii :=
  let n := N_of_ascii a in
  if ((97 <=? n) && (n <=? 122))%N then ascii_of_N (n - 32)
  else if ((224 <=? n) && (n <=? 254) && negb (n =? 247))%N then ascii_of_N (n - 32)
  else a.

Fixpoint lower (s : string) : string :=
  match s with
  | EmptyString => EmptyString
  | String a s' => String (lower_ascii a) (lower s')
  end.

Fixpoint upper (s : string) : string :=
  match s with
  | EmptyString => EmptyString
  | String a s' => String (upper_ascii a) (upper s')
  end.

(** Python's [pat in s]. *)
Fixpoint contains (pat s : string) : bool :=
  String.prefix pat s ||
  match s with
  | EmptyString => false
  | String _ s' => contains pat s'
  end.

(** [s.endswith(suf)]. *)
Definition ends_with (suf s : string) : bool :=
  (String.length suf <=? String.length s)%nat &&
  String.eqb (String.substring (String.length s - String.length suf) (String.length suf) s) suf.

Definition in_strings (s : string) (l : list string) : bool :=
  existsb (String.eqb s) l.

(** Decimal rendering of a numeric cell by [str]: a sign, the integer
    part, a point and the fractional digits ("358.0" for 358).  The
    exponent form of very large and very small floats is not modelled. *)
Fixpoint frac_digits (fuel : nat) (num den : Z) : string :=
  match fuel with
  | O => ""
  | S f =>
      if (num =? 0)%Z then ""
      else pretty ((num * 10) / den)%Z +:+ frac_digits f ((num * 10) mod den)%Z den
  end.

Definition float_str (q : Q) : string :=
  let n := Z.abs (Qnum q) in
  let d := Zpos (Qden q) in
  (if (Qnum q <? 0)%Z then "-" else "") +:+
  pretty (n / d)%Z +:+ "." +:+
  (if (n mod d =? 0)%Z then "0" else frac_digits 17 (n mod d)%Z d).

(** [str(x)] for a cell. *)
Definition py_str (c : cell) : string :=
  match c with
  | NaN => "nan"
  | Num q => float_str q
  | Str s => s
  end.

(** ** Tables *)

Definition row : Type := list (string * cell).

Record DataFrame : Type := mkDF {
  columns : list string;
  rows : list row
}.

(** [pd.DataFrame()] *)
Definition empty_frame : DataFrame := mkDF [] [].

Definition len (df : DataFrame) : nat := length (rows df).

Definition has_col (c : string) (df : DataFrame) : bool :=
  in_strings c (columns df).

(** [DataFrame.empty]: some axis has length zero. *)
Definition df_empty (df : DataFrame) : bool :=
  match columns df, rows df with
  | [], _ => true
  | _, [] => true
  | _, _ => false
  end.

Fixpoint row_get (r : row) (c : string) : cell :=
  match r with
  | [] => NaN
  | (k, v) :: r' => if String.eqb c k then v else row_get r' c
  end.

Fixpoint row_set (r : row) (c : string) (v : cell) : row :=
  match r with
  | [] => [(c, v)]
  | (k, x) :: r' =>
      if String.eqb c k then (k, v) :: r' else (k, x) :: row_set r' c v
  end.

(** [df[c] = f(row)], computed row by row. *)
Definition set_col (c : string) (f : row -> cell) (df : DataFrame) : DataFrame :=
  mkDF (if has_col c df then columns df else columns df ++ [c])
       (map (fun r => row_set r c (f r)) (rows df)).

(** [df.get(c, default)] read at one row: the column when the table has
    it, the default otherwise. *)
Definition get_or (df : DataFrame) (c : string) (default : cell) (r : row) : cell :=
  if has_col c df then row_get r c else default.

(** [df[c]] on an absent column raises [KeyError]. *)
Definition require (c : string) (df : DataFrame) : result DataFrame :=
  if has_col c df then Ok df else Raise (KeyError c).

(** [df[keep]] for labels [keep] that the table has. *)
Definition select (keep : list string) (df : DataFrame) : DataFrame :=
  mkDF keep (map (fun r => map (fun c => (c, row_get r c)) keep) (rows df)).

(** [df.columns = [c.upper() for c in df.columns]] *)
Definition upper_columns (df : DataFrame) : DataFrame :=
  mkDF (map upper (columns df))
       (map (fun r => map (fun kv => (upper (fst kv), snd kv)) r) (rows df)).

(** Labels of [l] in order of first appearance. *)
Fixpoint dedup_labels (l : list string) : list string :=
  match l with
  | [] => []
  | c :: l' => c :: List.filter (fun x => negb (String.eqb x c)) (dedup_labels l')
  end.

(** [pd.concat(frames, ignore_index=True)]: the union of the schemas,
    every row re-laid on it, absent columns missing. *)
Definition concat (frames : list DataFrame) : DataFrame :=
  let cols := dedup_labels (flat_map columns frames) in
  mkDF cols
       (flat_map (fun df =>
          map (fun r => map (fun c => (c, get_or df c NaN r)) cols) (rows df))
          frames).

(** [left.merge(right, on='SEQN', how='left', suffixes=(ls, rs))] *)
Definition SEQN : string := "SEQN".

Definition drop_key (r : row) : row :=
  List.filter (fun kv => negb (String.eqb (fst kv) SEQN)) r.

Definition rename_row (f : string -> string) (r : row) : row :=
  map (fun kv => (f (fst kv), snd kv)) r.

(** A non-key label carried by both sides takes the side's suffix. *)
Definition overlap (left right : DataFrame) (c : string) : bool :=
  negb (String.eqb c SEQN) && in_strings c (columns left)
  && in_strings c (columns right).

Definition suffixed (left right : DataFrame) (sfx c : string) : string :=
  if overlap left right c then c +:+ sfx else c.

Definition value_cols (right : DataFrame) : list string :=
  List.filter (fun c => negb (String.eqb c SEQN)) (columns right).

Definition matches (l : row) (right : DataFrame) : list row :=
  List.filter (fun r => cell_eqb (row_get l SEQN) (row_get r SEQN)) (rows right).

(** The rows a left row [l] contributes: one per matching right row, or
    one padded with missing values when none matches. *)
Definition join_row (suffixes : string * string) (left right : DataFrame)
    (l : row) : list row :=
  let lhs := rename_row (suffixed left right (fst suffixes)) l in
  match matches l right with
  | [] =>
      [lhs ++ map (fun c => (suffixed left right (snd suffixes) c, NaN))
                  (value_cols right)]
  | ms =>
      map (fun r => lhs ++ rename_row (suffixed left right (snd suffixes)) (drop_key r))
          ms
  end.

Definition merge_left (suffixes : string * string) (left right : DataFrame)
  : result DataFrame :=
  if negb (has_col SEQN left && has_col SEQN right) then Raise (KeyError SEQN)
  else
    Ok (mkDF
          (map (suffixed left right (fst suffixes)) (columns left)
           ++ map (suffixed left right (snd suffixes)) (value_cols right))
          (flat_map (join_row suffixes left right) (rows left))).

(** A Series indexed by participant: label and value pairs. *)
Definition Series : Type := list (cell * cell).

(** [keys.map(series)] at one key: missing when the key has no entry. *)
Fixpoint series_lookup (s : Series) (k : cell) : cell :=
  match s with
  | [] => NaN
  | (k', v) :: s' => if cell_eqb k k' then v else series_lookup s' k
  end.

(** Values of a column in order of first appearance ([unique]). *)
Fixpoint unique (l : list cell) : list cell :=
  match l with
  | [] => []
  | c :: l' => c :: List.filter (fun x => negb (cell_eqb x c)) (unique l')
  end.

Definition isin (c : cell) (l : list cell) : bool :=
  existsb (cell_eqb c) l.

(** A numeric column that holds a missing value is float64; int64
    cannot hold one.  The flag columns of the two scripts are int64 in
    every cycle table that has them, and become float64 exactly when a
    concatenation fills them for a cycle table that lacks them. *)
Definition is_float (c : string) (df : DataFrame) : bool :=
  existsb (fun r => isna (row_get r c)) (rows df).

(** The column [c] as the right operand of [&] with an int64 column:
    pandas counts the missing values of a float64 operand as 0 and
    refuses, with [TypeError], the first value it meets in one. *)
Definition int_operand (c : string) (df : DataFrame) : result DataFrame :=
  if is_float c df && existsb (fun r => notna (row_get r c)) (rows df)
  then Raise (TypeError "unsupported operand type(s) for &: 'int' and 'float'")
  else Ok df.

(** ** The raw-data directory *)

(** A directory lists its entries in scan order; an entry is a file name
    with the table its bytes decode to, or [None] when the reader fails. *)
Definition file : Type := (string * option DataFrame)%type.
Definition directory : Type := list file.

(** pathlib matches glob patterns case-sensitively on POSIX and
    case-insensitively on Windows. *)
Inductive flavour : Type := Posix | Windows.

Definition normcase (fl : flavour) (s : string) : string :=
  match fl with Posix => s | Windows => lower s end.

(** A token is matched literally when it is not empty and holds no glob
    metacharacter and no path separator: the pattern built around it is
    then one path segment in which only the two stars are wildcards.
    (Around the empty token the stars join into the recursive wildcard
    "**".)  The scripts pass such tokens only. *)
Definition is_meta (a : ascii) : bool :=
  (Ascii.eqb a "*" || Ascii.eqb a "?" || Ascii.eqb a "[")%char.

Definition is_sep (a : ascii) : bool :=
  Ascii.eqb a "/" || Ascii.eqb a (ascii_of_nat 92).

Fixpoint plain (s : string) : bool :=
  match s with
  | EmptyString => true
  | String a s' => negb (is_meta a) && negb (is_sep a) && plain s'
  end.

Definition literal (s : string) : bool :=
  negb (String.eqb s "") && plain s.

(** [fnmatch(name, "*tok*")] for a literal token. *)
Definition glob_contains (fl : flavour) (tok name : string) : bool :=
  contains (normcase fl tok) (normcase fl name).

(** [fnmatch(name, "*tok*ext")] for a literal token and extension. *)
Definition glob_contains_ext (fl : flavour) (tok ext name : string) : bool :=
  let n := normcase fl name in
  let e := normcase fl ext in
  ends_with e n &&
  contains (normcase fl tok) (String.substring 0 (String.length n - String.length e) n).

(** [pd.read_sas] wrapped in [try]: an unreadable file is an empty table. *)
Definition load_xpt (f : file) : DataFrame :=
  match snd f with
  | Some df => df
  | None => empty_frame
  end.

(** ** Derived variables shared in shape by both scripts *)

Definition any_true (l : list bool) : bool := existsb (fun b => b) l.
Definition all_true (l : list bool) : bool := forallb (fun b => b) l.

(** [df[cols].mean(axis=1)] at one row: the mean of the readings that are
    present, missing when none is. *)
Definition row_mean (cols : list string) (r : row) : cell :=
  match flat_map (fun c => match row_get r c with Num x => [x] | _ => [] end) cols with
  | [] => NaN
  | vals => Num (fold_right Qplus 0 vals / inject_Z (Z.of_nat (length vals)))%Q
  end.

(** The order of group keys: numbers by value, text in string order
    (the keys of a table are of one kind). *)
Definition key_leb (a b : cell) : bool :=
  match a, b with
  | Num x, Num y => Qle_bool x y
  | Str s, Str t => String.leb s t
  | Num _, _ => true
  | _, _ => false
  end.

Fixpoint insert_key (k : cell) (l : list cell) : list cell :=
  match l with
  | [] => [k]
  | x :: l' => if key_leb k x then k :: l else x :: insert_key k l'
  end.

Definition sort_keys (l : list cell) : list cell :=
  fold_right insert_key [] l.

(** [df.groupby(key)[flag].any().astype(int)]: one entry per distinct
    non-missing key, in the order of the keys, 1 when some row of the
    group is flagged. *)
Definition groupby_any (key : string) (flag : row -> bool) (df : DataFrame) : Series :=
  let keys :=
    sort_keys (unique (List.filter notna (map (fun r => row_get r key) (rows df)))) in
  map (fun k =>
         (k, of_bool (existsb (fun r => cell_eqb (row_get r key) k && flag r) (rows df))))
      keys.

(** * scripts/02_build_cohort.py *)

Module BuildCohort.

Definition STATIN_PATTERNS : list string :=
  [ "atorvastatin"; "fluvastatin"; "lovastatin"; "pitavastatin";
    "pravastatin"; "rosuvastatin"; "simvastatin";
    "vytorin"; "advicor"; "caduet"; "liptruzet" ].

Definition STATIN_CLASS_CODES : list string :=
  [ "CV350"; "CV351"; "CV352"; "CV359" ].

(** [list(cycle_dir.glob(f"*{pattern}*"))], first match or [None]. *)
Definition find_file (fl : flavour) (cycle_dir : directory) (pattern : string)
  : option file :=
  head (List.filter (fun f => glob_contains fl pattern (fst f)) cycle_dir).

(** The first of the three candidate name columns that the table has. *)
Definition drug_col (rx_df : DataFrame) : option string :=
  head (List.filter (fun c => has_col c rx_df) ["RXDDRUG"; "RXD240B"; "RXDDRGID"]).

(** [drug_lower.str.contains('|'.join(STATIN_PATTERNS), regex=True, na=False)]:
    the patterns are plain words, so the alternation matches exactly
    when one of them occurs in the lower-cased name. *)
Definition is_statin (dc : string) (r : row) : bool :=
  let drug_lower := lower (py_str (row_get r dc)) in
  existsb (fun p => contains p drug_lower) STATIN_PATTERNS.

Definition identify_statin_users (rx_df : DataFrame) : result Series :=
  if df_empty rx_df then Ok []
  else
    match drug_col rx_df with
    | None => Ok []
    | Some dc =>
        if has_col SEQN rx_df then Ok (groupby_any SEQN (is_statin dc) rx_df)
        else Raise (KeyError SEQN)
    end.

(** One element of the three aligned Series. *)
Definition compute_ldl_friedewald (tchol hdl trigly : cell) : cell :=
  let ldl := cell_sub (cell_sub tchol hdl) (cell_div trigly 5) in
  let ldl := if cell_ge trigly 400 then NaN else ldl in
  let ldl := if cell_lt ldl 0 then NaN else ldl in
  ldl.

Definition define_diabetes (df : DataFrame) (r : row) : cell :=
  let hba1c := get_or df "LBXGH" NaN r in
  let glucose := get_or df "LBXGLU" NaN r in
  let told := get_or df "DIQ010" NaN r in
  of_bool (cell_ge hba1c 6.5 || cell_ge glucose 126 || cell_eq_num told 1).

Definition define_cvd_history (df : DataFrame) (r : row) : cell :=
  let chd := get_or df "MCQ160C" (Num 2) r in
  let mi := get_or df "MCQ160E" (Num 2) r in
  let stroke := get_or df "MCQ160F" (Num 2) r in
  let angina := get_or df "MCQ160D" (Num 2) r in
  let chf := get_or df "MCQ160B" (Num 2) r in
  of_bool (cell_eq_num chd 1 || cell_eq_num mi 1 || cell_eq_num stroke 1
           || cell_eq_num angina 1 || cell_eq_num chf 1).

Definition components : list string :=
  [ "CRP"; "HSCRP"; "TCHOL"; "HDL"; "TRIGLY"; "FASTQX"; "BMX"; "BPX";
    "BPXO"; "BPQ"; "DIQ"; "GHB"; "GLU"; "SMQ"; "MCQ" ].

(** One turn of the component loop. *)
Definition merge_component (fl : flavour) (cycle_dir : directory)
    (df : DataFrame) (pattern : string) : result DataFrame :=
  match find_file fl cycle_dir pattern with
  | Some file_path =>
      let comp_df := load_xpt file_path in
      if has_col SEQN comp_df && (0 <? len comp_df)%nat
      then merge_left ("", "_" +:+ pattern) df comp_df
      else Ok df
  | None => Ok df
  end.

Definition merge_components (fl : flavour) (cycle_dir : directory)
    (df : DataFrame) : result DataFrame :=
  foldl (fun acc pattern => df' ← acc; merge_component fl cycle_dir df' pattern)
        (Ok df) components.

(** The prescription block: [df['SEQN'].map(statin_users).fillna(0).astype(int)],
    or the constant 0 when the cycle has no prescription file. *)
Definition attach_statin_use (fl : flavour) (cycle_dir : directory)
    (df : DataFrame) : result DataFrame :=
  match find_file fl cycle_dir "RXQ_RX" with
  | Some rx_file =>
      statin_users ← identify_statin_users (load_xpt rx_file);
      if has_col SEQN df
      then Ok (set_col "statin_use"
                 (fun r => fillna (series_lookup statin_users (row_get r SEQN)) (Num 0))
                 df)
      else Raise (KeyError SEQN)
  | None => Ok (set_col "statin_use" (fun _ => Num 0) df)
  end.

(** The renaming block that closes [process_cycle]. *)
Definition alias_col (new old : string) (f : cell -> cell) (df : DataFrame) : DataFrame :=
  if has_col old df && negb (has_col new df)
  then set_col new (fun r => f (row_get r old)) df
  else df.

Definition harmonize_names (df : DataFrame) : DataFrame :=
  let df := alias_col "LBXHSCRP" "LBXCRP" (fun c => cell_mul c 10) df in
  let df := alias_col "WTSAF2YR" "WTSAFPRP" (fun c => c) df in
  let df := alias_col "WTMEC2YR" "WTMECPRP" (fun c => c) df in
  let df := alias_col "LBDHDD" "LBXHDD" (fun c => c) df in
  df.

(** [cycle_dir] is [None] when the directory does not exist. *)
Definition process_cycle (fl : flavour) (cycle : string)
    (cycle_dir : option directory) : result DataFrame :=
  match cycle_dir with
  | None => Ok empty_frame
  | Some d =>
      let is_prepandemic := contains "2017" cycle in
      match find_file fl d "DEMO" with
      | None => Ok empty_frame
      | Some demo_file =>
          let df := load_xpt demo_file in
          df ← merge_components fl d df;
          df ← attach_statin_use fl d df;
          let df := set_col "cycle" (fun _ => Str cycle) df in
          let df := set_col "is_prepandemic" (fun _ => of_bool is_prepandemic) df in
          Ok (harmonize_names df)
      end
  end.

Definition define_hypertension (df : DataFrame) (r : row) : cell :=
  let sbp_cols :=
    List.filter (fun c => contains "BPXSY" c || contains "BPXOSY" c) (columns df) in
  let dbp_cols :=
    List.filter (fun c => contains "BPXDI" c || contains "BPXODI" c) (columns df) in
  let mean_sbp := row_mean sbp_cols r in
  let mean_dbp := row_mean dbp_cols r in
  let bp_med := get_or df "BPQ040A" NaN r in
  of_bool (cell_ge mean_sbp 130 || cell_ge mean_dbp 80 || cell_eq_num bp_med 1).

Definition define_smoking_status (df : DataFrame) (r : row) : cell :=
  let smoke_100 := get_or df "SMQ020" NaN r in
  let smoke_now := get_or df "SMQ040" NaN r in
  let status := NaN in
  let status := if cell_eq_num smoke_100 2 then Num 0 else status in
  let status :=
    if cell_eq_num smoke_100 1 && (cell_eq_num smoke_now 1 || cell_eq_num smoke_now 2)
    then Num 2 else status in
  let status :=
    if cell_eq_num smoke_100 1 && cell_eq_num smoke_now 3 then Num 1 else status in
  status.

(** [pd.cut(bmi, bins=[0, 18.5, 25, 30, 100], labels=...)], intervals
    open on the left and closed on the right. *)
Definition bmi_cat (bmi : cell) : cell :=
  if cell_le bmi 0 then NaN
  else if cell_le bmi 18.5 then Str "Underweight"
  else if cell_le bmi 25 then Str "Normal"
  else if cell_le bmi 30 then Str "Overweight"
  else if cell_le bmi 100 then Str "Obese"
  else NaN.

Definition derive_race_eth (df : DataFrame) : DataFrame :=
  if has_col "RIDRETH3" df
  then set_col "race_eth" (fun r => row_get r "RIDRETH3") df
  else set_col "race_eth" (fun r => get_or df "RIDRETH1" NaN r) df.

Definition derive_hscrp (df : DataFrame) : DataFrame :=
  set_col "hscrp" (fun r => get_or df "LBXHSCRP" NaN r) df.

Definition derive_lipids (df : DataFrame) : DataFrame :=
  let df := set_col "tchol" (fun r => get_or df "LBXTC" NaN r) df in
  let df := set_col "hdl" (fun r => get_or df "LBDHDD" NaN r) df in
  let df := set_col "trigly" (fun r => get_or df "LBXTR" NaN r) df in
  set_col "ldl"
    (fun r => compute_ldl_friedewald (row_get r "tchol") (row_get r "hdl")
                (row_get r "trigly"))
    df.

Definition derive_design (df : DataFrame) : result DataFrame :=
  let df := set_col "fasting_weight" (fun r => get_or df "WTSAF2YR" NaN r) df in
  let df := set_col "in_fasting_subsample"
              (fun r => of_bool (notna (row_get r "fasting_weight"))) df in
  let df := set_col "mec_weight"
              (fun r => if has_col "WTMEC2YR" df then row_get r "WTMEC2YR"
                        else get_or df "WTMECPRP" NaN r) df in
  df ← require "SDMVPSU" df;
  let df := set_col "psu" (fun r => row_get r "SDMVPSU") df in
  df ← require "SDMVSTRA" df;
  Ok (set_col "strata" (fun r => row_get r "SDMVSTRA") df).

Definition derive_clinical (df : DataFrame) : DataFrame :=
  let df := set_col "bmi" (fun r => get_or df "BMXBMI" NaN r) df in
  let df := set_col "bmi_cat" (fun r => bmi_cat (row_get r "bmi")) df in
  let df := set_col "obesity" (fun r => of_bool (cell_ge (row_get r "bmi") 30)) df in
  let df := set_col "hypertension" (define_hypertension df) df in
  let df := set_col "diabetes" (define_diabetes df) df in
  let df := set_col "hba1c" (fun r => get_or df "LBXGH" NaN r) df in
  let df := set_col "fasting_glucose" (fun r => get_or df "LBXGLU" NaN r) df in
  let df := set_col "smoking_status" (define_smoking_status df) df in
  let df := set_col "current_smoker"
              (fun r => of_bool (cell_eq_num (row_get r "smoking_status") 2)) df in
  set_col "cvd_history" (define_cvd_history df) df.

(** [(a & b & ...).astype(int)] over int64 columns of one row. *)
Definition flags_and (cols : list string) (r : row) : cell :=
  match map (row_get r) cols with
  | [] => Num 0
  | c :: cs => fold_left cell_and cs c
  end.

Definition derive_eligibility (df : DataFrame) : result DataFrame :=
  let df := set_col "age_eligible" (fun r => of_bool (cell_ge (row_get r "age") 20)) df in
  let df := set_col "fasting_eligible" (fun r => row_get r "in_fasting_subsample") df in
  let df := set_col "crp_available" (fun r => of_bool (notna (row_get r "hscrp"))) df in
  let df := set_col "ldl_available" (fun r => of_bool (notna (row_get r "ldl"))) df in
  let df := set_col "crp_valid" (fun r => of_bool (cell_le (row_get r "hscrp") 10)) df in
  let df := set_col "eligible"
              (flags_and ["age_eligible"; "fasting_eligible"; "crp_available";
                          "ldl_available"; "crp_valid"]) df in
  df ← require "statin_use" df;
  df ← int_operand "statin_use" df;
  Ok (set_col "statin_eligible" (flags_and ["eligible"; "statin_use"]) df).

Definition derive_rir (df : DataFrame) : DataFrame :=
  let df := set_col "ldl_lt70" (fun r => of_bool (cell_lt (row_get r "ldl") 70)) df in
  let df := set_col "primary_cohort" (flags_and ["statin_eligible"; "ldl_lt70"]) df in
  let df := set_col "crp_elevated" (fun r => of_bool (cell_ge (row_get r "hscrp") 2)) df in
  let df := set_col "rir" (flags_and ["primary_cohort"; "crp_elevated"]) df in
  let df := set_col "rir_crp3"
              (fun r => of_bool (truthy (cell_and (row_get r "primary_cohort")
                                           (of_bool (cell_ge (row_get r "hscrp") 3)))))
              df in
  let df := set_col "ldl_lt55" (fun r => of_bool (cell_lt (row_get r "ldl") 55)) df in
  let df := set_col "cohort_ldl55" (flags_and ["statin_eligible"; "ldl_lt55"]) df in
  set_col "rir_ldl55" (flags_and ["cohort_ldl55"; "crp_elevated"]) df.

Definition build_analytic_cohort (df : DataFrame) : result DataFrame :=
  df ← require "RIDAGEYR" df;
  let df := set_col "age" (fun r => row_get r "RIDAGEYR") df in
  df ← require "RIAGENDR" df;
  let df := set_col "sex" (fun r => row_get r "RIAGENDR") df in
  let df := set_col "female" (fun r => of_bool (cell_eq_num (row_get r "sex") 2)) df in
  let df := derive_race_eth df in
  let df := derive_hscrp df in
  let df := derive_lipids df in
  df ← derive_design df;
  let df := derive_clinical df in
  df ← derive_eligibility df;
  Ok (derive_rir df).

Definition cycles : list string :=
  [ "2005-2006"; "2007-2008"; "2009-2010"; "2015-2016"; "2017-2020" ].

(** [main] up to the combined, derived table: [None] when no cycle
    produced rows.  [raw] gives the directory of a cycle label. *)
Definition main (fl : flavour) (raw : string -> option directory)
  : result (option DataFrame) :=
  all_data ← mapM (fun c => process_cycle fl c (raw c)) cycles;
  match List.filter (fun df => (0 <? len df)%nat) all_data with
  | [] => Ok None
  | kept => df ← build_analytic_cohort (concat kept); Ok (Some df)
  end.

End BuildCohort.

(** * scripts/02_process_data.py *)

Module ProcessData.

Definition CYCLES : list string :=
  [ "2005-2006"; "2007-2008"; "2009-2010"; "2015-2016"; "2017-2020" ].

Definition STATIN_NAMES : list string :=
  [ "atorvastatin"; "simvastatin"; "rosuvastatin"; "pravastatin";
    "lovastatin"; "fluvastatin"; "pitavastatin";
    "atorvastatin/amlodipine"; "simvastatin/ezetimibe"; "simvastatin/niacin";
    "atorvastatin/ezetimibe"; "rosuvastatin/ezetimibe"; "lovastatin/niacin";
    "lipitor"; "zocor"; "crestor"; "pravachol"; "mevacor"; "lescol";
    "livalo"; "vytorin"; "caduet"; "advicor" ].

Definition STATIN_THERAPEUTIC_CLASSES : list string := [ "358" ].

(** [glob(f"*{pattern}*{ext}")] for [".XPT"], then for [".xpt"]. *)
Definition glob_ext (fl : flavour) (cycle_dir : directory) (pattern ext : string)
  : list file :=
  List.filter (fun f => glob_contains_ext fl pattern ext (fst f)) cycle_dir.

Definition find_file (fl : flavour) (cycle_dir : directory) (pattern : string)
  : option file :=
  match glob_ext fl cycle_dir pattern ".XPT" with
  | f :: _ => Some f
  | [] =>
      match glob_ext fl cycle_dir pattern ".xpt" with
      | f :: _ => Some f
      | [] => None
      end
  end.

Definition drug_name_cols : list string := [ "RXDDRUG"; "RXDRUG" ].

Definition class_cols : list string :=
  [ "RXDDCI1A"; "RXDDCI1B"; "RXDDCI1C"; "RXDDCI2A"; "RXDDCI2B"; "RXDDCI2C" ].

Definition name_match (col : string) (r : row) : bool :=
  let drug_name := lower (py_str (row_get r col)) in
  existsb (fun statin => contains statin drug_name) STATIN_NAMES.

Definition class_match (col : string) (r : row) : bool :=
  let class_code := py_str (row_get r col) in
  in_strings class_code STATIN_THERAPEUTIC_CLASSES.

(** The participants added to the set [statin_users] by one method. *)
Definition scan (cols : list string) (hit : string -> row -> bool)
    (df : DataFrame) : list cell :=
  flat_map (fun col =>
              if has_col col df
              then map (fun r => row_get r SEQN) (List.filter (hit col) (rows df))
              else [])
           cols.

Definition identify_statin_users (rxq_df : DataFrame) : DataFrame :=
  if df_empty rxq_df || negb (has_col SEQN rxq_df)
  then mkDF [SEQN; "statin_user"] []
  else
    let rxq_df := upper_columns rxq_df in
    let statin_users :=
      (scan drug_name_cols name_match rxq_df ++ scan class_cols class_match rxq_df)%list in
    let all_seqn := unique (map (fun r => row_get r SEQN) (rows rxq_df)) in
    mkDF [SEQN; "statin_user"]
         (map (fun k => [(SEQN, k); ("statin_user", of_bool (isin k statin_users))])
              all_seqn).

(** One element of the aligned Series; [direct_ldl] is [None] when the
    argument is left at its default. *)
Definition calculate_ldl (tc hdl tg : cell) (direct_ldl : option cell) : cell :=
  let ldl_calc := cell_sub (cell_sub tc hdl) (cell_div tg 5) in
  let ldl_calc := if cell_lt tg 400 then ldl_calc else NaN in
  match direct_ldl with
  | Some d => fillna ldl_calc d
  | None => ldl_calc
  end.

(** [df[keep]], raising on the first label the table lacks. *)
Definition select_cols (keep : list string) (df : DataFrame) : result DataFrame :=
  match List.filter (fun c => negb (has_col c df)) keep with
  | [] => Ok (select keep df)
  | c :: _ => Raise (KeyError c)
  end.

Definition present (cols : list string) (df : DataFrame) : list string :=
  List.filter (fun c => has_col c df) cols.

Definition demo_cols : list string :=
  [ "SEQN"; "RIDAGEYR"; "RIAGENDR"; "RIDRETH1"; "RIDRETH3"; "DMDEDUC2";
    "INDFMPIR"; "WTMEC2YR"; "WTINT2YR"; "SDMVPSU"; "SDMVSTRA" ].

Definition lab_files : list (string * list string) :=
  [ ("TCHOL", ["LBXTC"]);
    ("HDL", ["LBDHDD"; "LBXHDD"]);
    ("TRIGLY", ["LBXTR"; "WTSAF2YR"; "WTSAFPRP"]);
    ("GHB", ["LBXGH"]);
    ("GLU", ["LBXGLU"]) ].

Definition default_suffixes : string * string := ("_x", "_y").

(** One turn of the laboratory loop. *)
Definition merge_lab (fl : flavour) (cycle_dir : directory) (df : DataFrame)
    (entry : string * list string) : result DataFrame :=
  match find_file fl cycle_dir (fst entry) with
  | Some lab_file =>
      let lab_df := load_xpt lab_file in
      if negb (df_empty lab_df) then
        let lab_df := upper_columns lab_df in
        let keep_cols := SEQN :: present (snd entry) lab_df in
        if (1 <? length keep_cols)%nat
        then sub ← select_cols keep_cols lab_df; merge_left default_suffixes df sub
        else Ok df
      else Ok df
  | None => Ok df
  end.

(** One turn of the inflammation-marker loop; the flag is [crp_loaded]. *)
Definition merge_crp (fl : flavour) (cycle_dir : directory)
    (st : DataFrame * bool) (pattern : string) : result (DataFrame * bool) :=
  match find_file fl cycle_dir pattern with
  | Some crp_file =>
      if negb (snd st) then
        let crp_df := load_xpt crp_file in
        if negb (df_empty crp_df) then
          let crp_df := upper_columns crp_df in
          match present ["LBXHSCRP"; "LBXCRP"] crp_df with
          | [] => Ok st
          | crp_vars =>
              sub ← select_cols (SEQN :: crp_vars) crp_df;
              df ← merge_left default_suffixes (fst st) sub;
              Ok (df, true)
          end
        else Ok st
      else Ok st
  | None => Ok st
  end.

(** The examination and questionnaire blocks: load, upper-case, keep the
    listed columns, left-join. *)
Definition merge_file (cols : list string) (df : DataFrame) (f : option file)
  : result DataFrame :=
  match f with
  | Some file_path =>
      let x_df := load_xpt file_path in
      if negb (df_empty x_df) then
        let x_df := upper_columns x_df in
        merge_left default_suffixes df (select (present cols x_df) x_df)
      else Ok df
  | None => Ok df
  end.

Definition bp_cols : list string :=
  [ "SEQN"; "BPXSY1"; "BPXSY2"; "BPXSY3"; "BPXDI1"; "BPXDI2"; "BPXDI3";
    "BPXOSY1"; "BPXOSY2"; "BPXOSY3"; "BPXODI1"; "BPXODI2"; "BPXODI3" ].

Definition attach_statin_user (fl : flavour) (cycle_dir : directory)
    (df : DataFrame) : result DataFrame :=
  match find_file fl cycle_dir "RXQ_RX" with
  | Some rxq_file =>
      let rxq_df := load_xpt rxq_file in
      if negb (df_empty rxq_df) then
        let statin_df := identify_statin_users rxq_df in
        if negb (df_empty statin_df) then
          df ← merge_left default_suffixes df statin_df;
          df ← require "statin_user" df;
          Ok (set_col "statin_user"
                (fun r => fillna (row_get r "statin_user") (Num 0)) df)
        else Ok df
      else Ok df
  | None => Ok (set_col "statin_user" (fun _ => Num 0) df)
  end.

Definition process_cycle (fl : flavour) (cycle : string)
    (cycle_dir : option directory) : result DataFrame :=
  match cycle_dir with
  | None => Ok empty_frame
  | Some d =>
      match find_file fl d "DEMO" with
      | None => Ok empty_frame
      | Some demo_file =>
          let df := load_xpt demo_file in
          if df_empty df then Ok empty_frame
          else
            let df := upper_columns df in
            let df := if has_col "WTMECPRP" df
                      then set_col "WTMEC2YR" (fun r => row_get r "WTMECPRP") df
                      else df in
            let df := if has_col "WTINTPRP" df
                      then set_col "WTINT2YR" (fun r => row_get r "WTINTPRP") df
                      else df in
            let df := select (present demo_cols df) df in
            df ← foldl (fun acc e => df' ← acc; merge_lab fl d df' e) (Ok df) lab_files;
            st ← foldl (fun acc p => st' ← acc; merge_crp fl d st' p)
                       (Ok (df, false)) ["HSCRP"; "CRP"];
            let df := fst st in
            df ← merge_file ["SEQN"; "BMXBMI"; "BMXWT"; "BMXHT"] df (find_file fl d "BMX");
            df ← merge_file bp_cols df
                   (match find_file fl d "BPX" with
                    | Some f => Some f
                    | None => find_file fl d "BPXO"
                    end);
            df ← merge_file ["SEQN"; "DIQ010"; "DIQ050"; "DIQ070"] df (find_file fl d "DIQ");
            df ← merge_file ["SEQN"; "BPQ020"; "BPQ040A"] df (find_file fl d "BPQ");
            df ← merge_file ["SEQN"; "SMQ020"; "SMQ040"] df (find_file fl d "SMQ");
            df ← attach_statin_user fl d df;
            Ok (set_col "cycle" (fun _ => Str cycle) df)
      end
  end.

(** The blocks of [harmonize_variables], in source order. *)
Definition harmonize_hscrp (df : DataFrame) : DataFrame :=
  set_col "hscrp"
    (fun r =>
       let hscrp_col := get_or df "LBXHSCRP" NaN r in
       let crp_col := get_or df "LBXCRP" NaN r in
       fillna hscrp_col crp_col)
    df.

Definition harmonize_lipids (df : DataFrame) : DataFrame :=
  let df := set_col "total_chol" (fun r => get_or df "LBXTC" NaN r) df in
  let df :=
    if has_col "LBDHDD" df then set_col "hdl" (fun r => row_get r "LBDHDD") df
    else if has_col "LBXHDD" df then set_col "hdl" (fun r => row_get r "LBXHDD") df
    else set_col "hdl" (fun _ => NaN) df in
  let df := set_col "trigly" (fun r => get_or df "LBXTR" NaN r) df in
  set_col "ldl_calc"
    (fun r => calculate_ldl (row_get r "total_chol") (row_get r "hdl")
                (row_get r "trigly") None)
    df.

Definition harmonize_weight (df : DataFrame) : DataFrame :=
  set_col "fasting_weight"
    (fun r => fillna (get_or df "WTSAF2YR" NaN r) (get_or df "WTSAFPRP" NaN r))
    df.

Definition harmonize_demographics (df : DataFrame) : DataFrame :=
  let df := set_col "age" (fun r => get_or df "RIDAGEYR" NaN r) df in
  let df := set_col "sex" (fun r => get_or df "RIAGENDR" NaN r) df in
  let df := set_col "race_eth" (fun r => get_or df "RIDRETH1" NaN r) df in
  let df := set_col "education" (fun r => get_or df "DMDEDUC2" NaN r) df in
  set_col "pir" (fun r => get_or df "INDFMPIR" NaN r) df.

Definition harmonize_bp (df : DataFrame) : DataFrame :=
  let sbp_cols :=
    List.filter (fun c => String.prefix "BPXSY" c || String.prefix "BPXOSY" c)
                (columns df) in
  let dbp_cols :=
    List.filter (fun c => String.prefix "BPXDI" c || String.prefix "BPXODI" c)
                (columns df) in
  let df := set_col "sbp_mean" (row_mean sbp_cols) df in
  set_col "dbp_mean" (row_mean dbp_cols) df.

Definition harmonize_other (df : DataFrame) : DataFrame :=
  let df := set_col "bmi" (fun r => get_or df "BMXBMI" NaN r) df in
  let df := set_col "hba1c" (fun r => get_or df "LBXGH" NaN r) df in
  let df := set_col "fasting_glucose" (fun r => get_or df "LBXGLU" NaN r) df in
  let df := set_col "psu" (fun r => get_or df "SDMVPSU" NaN r) df in
  let df := set_col "strata" (fun r => get_or df "SDMVSTRA" NaN r) df in
  set_col "mec_weight" (fun r => get_or df "WTMEC2YR" NaN r) df.

(** The value of the diabetes column at one row, after the masking
    assignment that follows the boolean expression. *)
Definition diabetes_flag (df : DataFrame) (r : row) : cell :=
  let flag :=
    of_bool (cell_ge (row_get r "hba1c") 6.5
             || cell_ge (row_get r "fasting_glucose") 126
             || cell_eq_num (get_or df "DIQ010" (Num 2) r) 1
             || cell_eq_num (get_or df "DIQ050" (Num 2) r) 1
             || cell_eq_num (get_or df "DIQ070" (Num 2) r) 1) in
  if forallb (fun c => isna (row_get r c)) ["hba1c"; "fasting_glucose"; "DIQ010"]
  then NaN else flag.

Definition harmonize_diabetes (df : DataFrame) : result DataFrame :=
  if has_col "DIQ010" df then Ok (set_col "diabetes" (diabetes_flag df) df)
  else Raise (KeyError "DIQ010").

Definition prediabetes_flag (r : row) : cell :=
  let hba1c := row_get r "hba1c" in
  let glucose := row_get r "fasting_glucose" in
  let flag :=
    of_bool ((cell_ge hba1c 5.7 && cell_lt hba1c 6.5)
             || (cell_ge glucose 100 && cell_lt glucose 126)) in
  let flag := if cell_eq_num (row_get r "diabetes") 1 then Num 0 else flag in
  if isna hba1c && isna glucose then NaN else flag.

Definition glycemic_status (r : row) : cell :=
  let status := Num 0 in
  let status := if cell_eq_num (row_get r "prediabetes") 1 then Num 1 else status in
  let status := if cell_eq_num (row_get r "diabetes") 1 then Num 2 else status in
  if isna (row_get r "diabetes") && isna (row_get r "prediabetes") then NaN
  else status.

Definition harmonize_glycemia (df : DataFrame) : DataFrame :=
  let df := set_col "prediabetes" prediabetes_flag df in
  set_col "glycemic_status" glycemic_status df.

Definition hypertension_flag (df : DataFrame) (r : row) : cell :=
  let flag :=
    of_bool (cell_ge (row_get r "sbp_mean") 130
             || cell_ge (row_get r "dbp_mean") 80
             || cell_eq_num (get_or df "BPQ040A" (Num 2) r) 1) in
  if forallb (fun c => isna (row_get r c)) ["sbp_mean"; "dbp_mean"; "BPQ040A"]
  then NaN else flag.

Definition harmonize_hypertension (df : DataFrame) : result DataFrame :=
  if has_col "BPQ040A" df then Ok (set_col "hypertension" (hypertension_flag df) df)
  else Raise (KeyError "BPQ040A").

Definition smoking_status (r : row) : cell :=
  let smoke_100 := row_get r "SMQ020" in
  let smoke_now := row_get r "SMQ040" in
  let status := NaN in
  let status := if cell_eq_num smoke_100 2 then Num 3 else status in
  let status :=
    if cell_eq_num smoke_100 1 && (cell_eq_num smoke_now 1 || cell_eq_num smoke_now 2)
    then Num 1 else status in
  let status :=
    if cell_eq_num smoke_100 1 && cell_eq_num smoke_now 3 then Num 2 else status in
  status.

(** Without the column [SMQ020], [smoke_100] is the float [np.nan],
    the first masked assignment gets the bare boolean [False] as its row
    label, and [loc] refuses it with a [KeyError].  With [SMQ020] but
    without [SMQ040], [smoke_now] is the float [np.nan] and
    [smoke_now.isin] in the second assignment raises. *)
Definition harmonize_smoking (df : DataFrame) : result DataFrame :=
  if negb (has_col "SMQ020" df)
  then Raise (KeyError "cannot use a single bool to index into setitem")
  else if negb (has_col "SMQ040" df) then Raise (AttributeError "isin")
  else
    let df := set_col "smoking_status" smoking_status df in
    Ok (set_col "current_smoker"
          (fun r => if isna (row_get r "smoking_status") then NaN
                    else of_bool (cell_eq_num (row_get r "smoking_status") 1))
          df).

Definition harmonize_obesity (df : DataFrame) : DataFrame :=
  set_col "obese"
    (fun r => if isna (row_get r "bmi") then NaN
              else of_bool (cell_ge (row_get r "bmi") 30))
    df.

Definition harmonize_variables (df : DataFrame) : result DataFrame :=
  let df := harmonize_hscrp df in
  let df := harmonize_lipids df in
  let df := harmonize_weight df in
  let df := harmonize_demographics df in
  let df := harmonize_bp df in
  let df := harmonize_other df in
  df ← harmonize_diabetes df;
  let df := harmonize_glycemia df in
  df ← harmonize_hypertension df;
  df ← harmonize_smoking df;
  Ok (harmonize_obesity df).

(** [df[mask].copy()] *)
Definition filter_rows (keep : row -> bool) (df : DataFrame) : DataFrame :=
  mkDF (columns df) (List.filter keep (rows df)).

(** The inclusion and exclusion sequence of [create_rir_cohort]. *)
Definition step_age (df : DataFrame) : DataFrame :=
  filter_rows (fun r => cell_ge (row_get r "age") 20) df.
Definition step_crp_present (df : DataFrame) : DataFrame :=
  filter_rows (fun r => notna (row_get r "hscrp")) df.
Definition step_crp_le10 (df : DataFrame) : DataFrame :=
  filter_rows (fun r => cell_le (row_get r "hscrp") 10) df.
Definition step_statin_info (df : DataFrame) : result DataFrame :=
  df ← require "statin_user" df;
  Ok (filter_rows (fun r => notna (row_get r "statin_user")) df).
Definition step_ldl (df : DataFrame) : DataFrame :=
  filter_rows (fun r => notna (row_get r "ldl_calc")) df.
Definition step_fasting_weight (df : DataFrame) : DataFrame :=
  filter_rows (fun r => notna (row_get r "fasting_weight")) df.
Definition step_design (df : DataFrame) : DataFrame :=
  filter_rows (fun r => notna (row_get r "psu") && notna (row_get r "strata")) df.

Definition ldl_category (ldl : cell) : cell :=
  if isna ldl then NaN
  else if cell_le ldl 70 then Num 1
  else if cell_le ldl 130 then Num 2
  else Num 3.

Definition ldl_statin_group (r : row) : cell :=
  if isna (row_get r "ldl_cat") || isna (row_get r "statin_user") then NaN
  else
    let statin := cell_eq_num (row_get r "statin_user") 1 in
    if cell_eq_num (row_get r "ldl_cat") 1 then (if statin then Num 1 else Num 2)
    else if cell_eq_num (row_get r "ldl_cat") 2 then (if statin then Num 3 else Num 4)
    else (if statin then Num 5 else Num 6).

Definition rir_flags (df : DataFrame) : DataFrame :=
  let df := set_col "ldl_under_70" (fun r => of_bool (cell_lt (row_get r "ldl_calc") 70)) df in
  let df := set_col "ldl_under_55" (fun r => of_bool (cell_lt (row_get r "ldl_calc") 55)) df in
  let df := set_col "hscrp_high" (fun r => of_bool (cell_ge (row_get r "hscrp") 2)) df in
  let df := set_col "hscrp_very_high" (fun r => of_bool (cell_ge (row_get r "hscrp") 3)) df in
  let df := set_col "rir"
              (fun r => of_bool (cell_eq_num (row_get r "statin_user") 1
                                 && cell_eq_num (row_get r "ldl_under_70") 1
                                 && cell_eq_num (row_get r "hscrp_high") 1)) df in
  let df := set_col "rir_strict"
              (fun r => of_bool (cell_eq_num (row_get r "statin_user") 1
                                 && cell_eq_num (row_get r "ldl_under_70") 1
                                 && cell_eq_num (row_get r "hscrp_very_high") 1)) df in
  let df := set_col "rir_ldl55"
              (fun r => of_bool (cell_eq_num (row_get r "statin_user") 1
                                 && cell_eq_num (row_get r "ldl_under_55") 1
                                 && cell_eq_num (row_get r "hscrp_high") 1)) df in
  let df := set_col "ldl_cat" (fun r => ldl_category (row_get r "ldl_calc")) df in
  set_col "ldl_statin_group" ldl_statin_group df.

(** The summary printed before the cohort is returned.  Of its lines
    only [(df['statin_user'] & df['ldl_under_70']).sum()] can fail: [&]
    refuses a float64 operand, with [TypeError], when the cohort has a
    row.  Filtering does not change the type of a column. *)
Definition summary (float_statin : bool) (df : DataFrame) : result DataFrame :=
  if float_statin && (0 <? len df)%nat
  then Raise (TypeError "unsupported operand type(s) for &: 'float' and 'int'")
  else Ok df.

Definition create_rir_cohort (df : DataFrame) : result DataFrame :=
  let float_statin := is_float "statin_user" df in
  df ← require "age" df;
  let df := step_age df in
  df ← require "hscrp" df;
  let df := step_crp_present df in
  let df := step_crp_le10 df in
  df ← step_statin_info df;
  df ← require "ldl_calc" df;
  let df := step_ldl df in
  df ← require "fasting_weight" df;
  let df := step_fasting_weight df in
  df ← require "psu" df;
  df ← require "strata" df;
  let df := step_design df in
  summary float_statin (rir_flags df).

(** [main] up to the cohort table: [None] when no cycle produced data. *)
Definition main (fl : flavour) (raw : string -> option directory)
  : result (option DataFrame) :=
  all_data ← mapM (fun c => process_cycle fl c (raw c)) CYCLES;
  match List.filter (fun df => negb (df_empty df)) all_data with
  | [] => Ok None
  | kept =>
      df ← harmonize_variables (concat kept);
      df ← create_rir_cohort df;
      Ok (Some df)
  end.

End ProcessData.

(** * Vocabulary of the statements *)

#[global] Instance result_fmap : FMap result := fun A B f m =>
  match m with
  | Ok a => Ok (f a)
  | Raise e => Raise e
  end.

(** The values of one column, top to bottom. *)
Definition column (c : string) (df : DataFrame) : list cell :=
  map (fun r => row_get r c) (rows df).

(** A table whose rows carry exactly its labels, in order. *)
Definition aligned (df : DataFrame) : Prop :=
  Forall (fun r => map fst r = columns df) (rows df).

(** No label other than the key is shared by the two sides, or the left
    suffix is empty: the left labels survive the join unchanged. *)
Definition left_labels_kept (suffixes : string * string)
    (left right : DataFrame) : Prop :=
  fst suffixes = "" \/ forall c, overlap left right c = false.

(** [js] is what a left join owes the left row [l]: at least one row,
    each carrying the values of [l]; exactly one, with the new variables
    missing, when no row of [right] has the participant of [l]. *)
Definition group_ok (left right : DataFrame) (l : row) (js : list row) : Prop :=
  js <> []
  /\ (forall j c, In j js -> in_strings c (columns left) = true ->
                  row_get j c = row_get l c)
  /\ ((forall r, In r (rows right) ->
                 cell_eqb (row_get l SEQN) (row_get r SEQN) = false) ->
      exists j, js = [j]
                /\ forall c, in_strings c (columns left) = false -> row_get j c = NaN).

(** The labels under which a join stores the right table's variables
    are new: different from each other and from every left label. *)
Fixpoint distinct (l : list string) : bool :=
  match l with
  | [] => true
  | c :: l' => negb (in_strings c l') && distinct l'
  end.

Definition labels_fresh (suffixes : string * string) (left right : DataFrame)
  : bool :=
  distinct (map (suffixed left right (snd suffixes)) (value_cols right))
  && forallb (fun c => negb (in_strings (suffixed left right (snd suffixes) c)
                                        (columns left)))
             (value_cols right).

(** The rows of [right] that have the participant of the left row [l],
    in the order of [right]. *)
Definition records_of (l : row) (right : DataFrame) : list row :=
  List.filter (fun r => cell_eqb (row_get l SEQN) (row_get r SEQN)) (rows right).

(** [js] brings the left row [l] together with its records in [right]:
    when there are any, [js] has one row per record, in their order, and
    the row holds every variable of the record under its label. *)
Definition group_joined (suffixes : string * string) (left right : DataFrame)
    (l : row) (js : list row) : Prop :=
  records_of l right <> [] ->
  Forall2 (fun r j => forall c, In c (value_cols right) ->
                        row_get j (suffixed left right (snd suffixes) c) = row_get r c)
          (records_of l right) js.

(** [df'] still holds every row of [df] with its values. *)
Definition carries (df df' : DataFrame) : Prop :=
  has_col SEQN df' = true
  /\ aligned df'
  /\ (forall c, in_strings c (columns df) = true -> in_strings c (columns df') = true)
  /\ (forall l, In l (rows df) ->
                exists j, In j (rows df')
                          /\ forall c, in_strings c (columns df) = true ->
                                       row_get j c = row_get l c)
  /\ length (rows df) <= length (rows df').

(** A column of the table [main] returns; empty when it returns none. *)
Definition final_column (c : string) (m : result (option DataFrame))
  : result (list cell) :=
  (fun o => match o with Some df => column c df | None => [] end) <$> m.

(** The combined table of the processing script before harmonisation. *)
Definition combined (fl : flavour) (raw : string -> option directory)
  : result DataFrame :=
  all_data ← mapM (fun c => ProcessData.process_cycle fl c (raw c)) ProcessData.CYCLES;
  Ok (concat (List.filter (fun df => negb (df_empty df)) all_data)).

(** The participant of row [l] has no row in the table [rx]. *)
Definition no_record (l : row) (rx : DataFrame) : Prop :=
  forall m, In m (rows rx) -> cell_eqb (row_get l SEQN) (row_get m SEQN) = false.

(** The name of entry [f] contains the token, as the platform compares
    names. *)
Definition name_has (fl : flavour) (tok : string) (f : file) : Prop :=
  exists a b, normcase fl (fst f) = a +:+ (normcase fl tok +:+ b).

(** The name of entry [f] contains the token and ends with the
    extension, as the platform compares names. *)
Definition name_has_ext (fl : flavour) (tok ext : string) (f : file) : Prop :=
  exists a b,
    normcase fl (fst f) = (a +:+ (normcase fl tok +:+ b)) +:+ normcase fl ext.

(** [o] is the first entry of [d], in scan order, that satisfies [P];
    [None] when no entry does. *)
Definition first_match (P : file -> Prop) (d : directory) (o : option file) : Prop :=
  match o with
  | Some f => exists pre post, d = (pre ++ f :: post)%list /\ P f
                               /\ forall g, In g pre -> ~ P g
  | None => forall g, In g d -> ~ P g
  end.

(** A medication row matches a statin for the processing script: by
    name in one of its name columns, or by class code in one of its
    class columns. *)
Definition statin_row (df : DataFrame) (m : row) : bool :=
  existsb (fun col => has_col col df && ProcessData.name_match col m)
          ProcessData.drug_name_cols
  || existsb (fun col => has_col col df && ProcessData.class_match col m)
             ProcessData.class_cols.

(** The five self-reported conditions read by the history flag. *)
Definition cvd_sources : list string :=
  [ "MCQ160C"; "MCQ160E"; "MCQ160F"; "MCQ160D"; "MCQ160B" ].

(** The smoking codes of the cohort builder (0 never, 1 former, 2
    current) in the codes of the processing script (3 never, 2 former,
    1 current). *)
Definition smoking_recode (c : cell) : cell :=
  if cell_eq_num c 0 then Num 3
  else if cell_eq_num c 2 then Num 1
  else if cell_eq_num c 1 then Num 2
  else NaN.

(** The seven inclusion criteria of the processing script's cohort, as
    one test on a row. *)
Definition meets_criteria (r : row) : bool :=
  cell_ge (row_get r "age") 20
  && notna (row_get r "hscrp")
  && cell_le (row_get r "hscrp") 10
  && notna (row_get r "statin_user")
  && notna (row_get r "ldl_calc")
  && notna (row_get r "fasting_weight")
  && (notna (row_get r "psu") && notna (row_get r "strata")).

(** The columns [create_rir_cohort] reads before it filters. *)
Definition cohort_inputs : list string :=
  [ "age"; "hscrp"; "statin_user"; "ldl_calc"; "fasting_weight"; "psu"; "strata" ].

(** The lowest bit of an int64 cell: what [&] with a 0/1 flag keeps of
    it.  Among the values 0 and 1 it singles out 1. *)
Definition lowest_bit (c : cell) : bool := Z.odd (int_of c).

(** The table a run returned, or the empty table. *)
Definition returned (m : result DataFrame) : DataFrame :=
  match m with
  | Ok df => df
  | Raise _ => empty_frame
  end.

(** ** Vocabulary of the run specifications *)

(** [df'] has as many rows as [df], the columns of [df] plus the
    columns [new], and in every other column the values of [df]. *)
Definition grows (new : list string) (df df' : DataFrame) : Prop :=
  len df' = len df
  /\ (forall c, has_col c df' = has_col c df || in_strings c new)
  /\ (forall c, in_strings c new = false -> column c df' = column c df).

(** The column [c] is float64 and holds a value. *)
Definition float_operand (c : string) (df : DataFrame) : bool :=
  is_float c df && existsb (fun r => notna (row_get r c)) (rows df).

(** The outcome [m] of a step on [df] that reads the columns [needs],
    uses the column [op] as an operand of [&] and assigns the columns
    [new]: [KeyError] for the first column of [needs] that [df] lacks;
    with all of them, [TypeError] when [op] is a float64 column that
    holds a value; otherwise [df] grown by [new].  A step without such
    an operand has [op = None]. *)
Definition outcome (needs : list string) (op : option string) (new : list string)
    (df : DataFrame) (m : result DataFrame) : Prop :=
  match List.filter (fun c => negb (has_col c df)) needs with
  | c :: _ => m = Raise (KeyError c)
  | [] =>
      if match op with Some c => float_operand c df | None => false end
      then exists msg, m = Raise (TypeError msg)
      else exists df', m = Ok df' /\ grows new df df'
  end.

(** No label of [a] is a label of [b]. *)
Definition disjoint (a b : list string) : bool :=
  forallb (fun c => negb (in_strings c b)) a.

(** The columns [build_analytic_cohort] reads with [df[...]], in the
    order in which it reads them, and the columns it assigns. *)
Definition build_inputs : list string :=
  [ "RIDAGEYR"; "RIAGENDR"; "SDMVPSU"; "SDMVSTRA"; "statin_use" ].

Definition build_outputs : list string :=
  [ "age"; "sex"; "female"; "race_eth"; "hscrp"; "tchol"; "hdl"; "trigly"; "ldl";
    "fasting_weight"; "in_fasting_subsample"; "mec_weight"; "psu"; "strata";
    "bmi"; "bmi_cat"; "obesity"; "hypertension"; "diabetes"; "hba1c";
    "fasting_glucose"; "smoking_status"; "current_smoker"; "cvd_history";
    "age_eligible"; "fasting_eligible"; "crp_available"; "ldl_available";
    "crp_valid"; "eligible"; "statin_eligible";
    "ldl_lt70"; "primary_cohort"; "crp_elevated"; "rir"; "rir_crp3"; "ldl_lt55";
    "cohort_ldl55"; "rir_ldl55" ].

(** The operand of a step is none of the columns [new]. *)
Definition operand_kept (op : option string) (new : list string) : bool :=
  match op with Some c => negb (in_strings c new) | None => true end.

(** The columns [harmonize_variables] assigns. *)
Definition harmonize_outputs : list string :=
  [ "hscrp"; "total_chol"; "hdl"; "trigly"; "ldl_calc"; "fasting_weight";
    "age"; "sex"; "race_eth"; "education"; "pir"; "sbp_mean"; "dbp_mean";
    "bmi"; "hba1c"; "fasting_glucose"; "psu"; "strata"; "mec_weight";
    "diabetes"; "prediabetes"; "glycemic_status"; "hypertension";
    "smoking_status"; "current_smoker"; "obese" ].

(** The part of [harmonize_variables] before the smoking block. *)
Definition before_smoking (df : DataFrame) : result DataFrame :=
  d ← ProcessData.harmonize_diabetes
         (ProcessData.harmonize_other (ProcessData.harmonize_bp
           (ProcessData.harmonize_demographics (ProcessData.harmonize_weight
             (ProcessData.harmonize_lipids (ProcessData.harmonize_hscrp df))))));
  ProcessData.harmonize_hypertension (ProcessData.harmonize_glycemia d).

(** * Sample tables *)

Module Samples.

(** One laboratory record with a low total cholesterol. *)
Definition lipid_low : DataFrame :=
  mkDF ["SEQN"; "LBXTC"; "LBDHDD"; "LBXTR"]
       [[("SEQN", Num 1); ("LBXTC", Num 100); ("LBDHDD", Num 90); ("LBXTR", Num 100)]].

(** Three harmonised records that meet the inclusion criteria: a statin
    user with LDL 62 and marker 3.5, a statin user with LDL exactly 70,
    and a participant without statin with LDL 150. *)
Definition cohort_three : DataFrame :=
  mkDF ["SEQN"; "age"; "hscrp"; "statin_user"; "ldl_calc"; "fasting_weight";
        "psu"; "strata"]
       [[("SEQN", Num 1); ("age", Num 64); ("hscrp", Num 3.5); ("statin_user", Num 1);
         ("ldl_calc", Num 62); ("fasting_weight", Num 25000); ("psu", Num 1);
         ("strata", Num 44)];
        [("SEQN", Num 2); ("age", Num 58); ("hscrp", Num 2.4); ("statin_user", Num 1);
         ("ldl_calc", Num 70); ("fasting_weight", Num 31000); ("psu", Num 2);
         ("strata", Num 44)];
        [("SEQN", Num 3); ("age", Num 47); ("hscrp", Num 1.1); ("statin_user", Num 0);
         ("ldl_calc", Num 150); ("fasting_weight", Num 18000); ("psu", Num 1);
         ("strata", Num 45)]].

(** A record whose only diabetes signal is insulin use. *)
Definition insulin_only : DataFrame :=
  mkDF ["SEQN"; "LBXGH"; "LBXGLU"; "DIQ010"; "DIQ050"; "BPQ040A"; "SMQ020"; "SMQ040"]
       [[("SEQN", Num 1); ("LBXGH", NaN); ("LBXGLU", NaN); ("DIQ010", NaN);
         ("DIQ050", Num 1); ("BPQ040A", Num 2); ("SMQ020", Num 2);
         ("SMQ040", NaN)]].

(** A record with every diabetes source missing. *)
Definition no_diabetes_data : DataFrame :=
  mkDF ["SEQN"; "LBXGH"; "LBXGLU"; "DIQ010"]
       [[("SEQN", Num 2); ("LBXGH", NaN); ("LBXGLU", NaN); ("DIQ010", NaN)]].

(** Two cycles after concatenation: the first has the older race coding
    only, the second has both. *)
Definition race_2005 : DataFrame :=
  mkDF ["SEQN"; "RIDRETH1"] [[("SEQN", Num 31130); ("RIDRETH1", Num 3)]].

Definition race_2015 : DataFrame :=
  mkDF ["SEQN"; "RIDRETH1"; "RIDRETH3"]
       [[("SEQN", Num 83732); ("RIDRETH1", Num 5); ("RIDRETH3", Num 6)]].

(** Medication records: one participant with a non-statin row and an
    upper-case statin row. *)
Definition rx_two_rows : DataFrame :=
  mkDF ["SEQN"; "RXDDRUG"]
       [[("SEQN", Num 1); ("RXDDRUG", Str "lisinopril")];
        [("SEQN", Num 1); ("RXDDRUG", Str "ATORVASTATIN CALCIUM 10MG")]].

(** A record that is a statin by its class code only. *)
Definition rx_class_only : DataFrame :=
  mkDF ["SEQN"; "RXDDRUG"; "RXDDCI1A"]
       [[("SEQN", Num 1); ("RXDDRUG", Str "99999"); ("RXDDCI1A", Str "CV350")];
        [("SEQN", Num 2); ("RXDDRUG", Str "99999"); ("RXDDCI1A", Str "358")]].

(** A brand name and a combination product. *)
Definition rx_brands : DataFrame :=
  mkDF ["SEQN"; "RXDDRUG"]
       [[("SEQN", Num 1); ("RXDDRUG", Str "LIPITOR")];
        [("SEQN", Num 2); ("RXDDRUG", Str "LIPTRUZET")]].

(** One cycle on disk: a 60-year-old statin user with LDL 60 mg/dL whose
    C-reactive protein is reported as 0.3 mg/dL, and a second participant
    with demographics only. *)
Definition demo_2005 : DataFrame :=
  mkDF ["SEQN"; "RIDAGEYR"; "RIAGENDR"; "RIDRETH1"; "WTMEC2YR"; "SDMVPSU"; "SDMVSTRA"]
       [[("SEQN", Num 1); ("RIDAGEYR", Num 60); ("RIAGENDR", Num 1);
         ("RIDRETH1", Num 3); ("WTMEC2YR", Num 1000); ("SDMVPSU", Num 1);
         ("SDMVSTRA", Num 44)];
        [("SEQN", Num 2); ("RIDAGEYR", Num 45); ("RIAGENDR", Num 2);
         ("RIDRETH1", Num 4); ("WTMEC2YR", Num 1200); ("SDMVPSU", Num 2);
         ("SDMVSTRA", Num 44)]].

Definition crp_2005 : DataFrame :=
  mkDF ["SEQN"; "LBXCRP"] [[("SEQN", Num 1); ("LBXCRP", Num 0.3)]].

Definition tchol_2005 : DataFrame :=
  mkDF ["SEQN"; "LBXTC"] [[("SEQN", Num 1); ("LBXTC", Num 130)]].

Definition hdl_2005 : DataFrame :=
  mkDF ["SEQN"; "LBDHDD"] [[("SEQN", Num 1); ("LBDHDD", Num 50)]].

Definition trigly_2005 : DataFrame :=
  mkDF ["SEQN"; "LBXTR"; "WTSAF2YR"]
       [[("SEQN", Num 1); ("LBXTR", Num 100); ("WTSAF2YR", Num 2000)]].

Definition diq_2005 : DataFrame :=
  mkDF ["SEQN"; "DIQ010"]
       [[("SEQN", Num 1); ("DIQ010", Num 2)]; [("SEQN", Num 2); ("DIQ010", Num 2)]].

Definition bpq_2005 : DataFrame :=
  mkDF ["SEQN"; "BPQ040A"]
       [[("SEQN", Num 1); ("BPQ040A", Num 2)]; [("SEQN", Num 2); ("BPQ040A", Num 2)]].

Definition smq_2005 : DataFrame :=
  mkDF ["SEQN"; "SMQ020"; "SMQ040"]
       [[("SEQN", Num 1); ("SMQ020", Num 2); ("SMQ040", NaN)];
        [("SEQN", Num 2); ("SMQ020", Num 1); ("SMQ040", Num 3)]].

Definition rx_2005 : DataFrame :=
  mkDF ["SEQN"; "RXDDRUG"]
       [[("SEQN", Num 1); ("RXDDRUG", Str "ATORVASTATIN CALCIUM")]].

Definition labs_2005 : directory :=
  [ ("CRP_D.XPT", Some crp_2005); ("TCHOL_D.XPT", Some tchol_2005);
    ("HDL_D.XPT", Some hdl_2005); ("TRIGLY_D.XPT", Some trigly_2005);
    ("DIQ_D.XPT", Some diq_2005); ("BPQ_D.XPT", Some bpq_2005);
    ("SMQ_D.XPT", Some smq_2005) ].

Definition dir_2005 : directory :=
  ("DEMO_D.XPT", Some demo_2005) :: labs_2005 ++ [("RXQ_RX_D.XPT", Some rx_2005)].

(** The same cycle without a prescription file, and with one that
    cannot be read. *)
Definition dir_no_rx : directory :=
  ("DEMO_D.XPT", Some demo_2005) :: labs_2005.

Definition dir_rx_unreadable : directory :=
  ("DEMO_D.XPT", Some demo_2005) :: labs_2005 ++ [("RXQ_RX_D.XPT", None)].

Definition only (cycle : string) (d : directory) (c : string) : option directory :=
  if String.eqb c cycle then Some d else None.

(** Two cycles: the first with an unreadable prescription file, the
    second without one. *)
Definition demo_2007 : DataFrame :=
  mkDF ["SEQN"; "RIDAGEYR"]
       [[("SEQN", Num 3); ("RIDAGEYR", Num 50)]].

Definition two_cycles (c : string) : option directory :=
  if String.eqb c "2005-2006" then Some dir_rx_unreadable
  else if String.eqb c "2007-2008" then Some [("DEMO_E.XPT", Some demo_2007)]
  else None.

(** Two harmonised records: one with prediabetic values and no
    diabetes, one with diabetes. *)
Definition glycemia_two : DataFrame :=
  mkDF ["SEQN"; "hba1c"; "fasting_glucose"; "diabetes"]
       [[("SEQN", Num 1); ("hba1c", Num 6.0); ("fasting_glucose", Num 95);
         ("diabetes", Num 0)];
        [("SEQN", Num 2); ("hba1c", Num 7.0); ("fasting_glucose", NaN);
         ("diabetes", Num 1)]].

(** Two examination records, the first with a body-mass index of
    exactly 30. *)
Definition bmi_thirty : DataFrame :=
  mkDF ["SEQN"; "BMXBMI"]
       [[("SEQN", Num 1); ("BMXBMI", Num 30)];
        [("SEQN", Num 2); ("BMXBMI", Num 32.5)]].

(** Two entries of the 2017-2020 cycle, under the names the download
    script gives them. *)
Definition dir_2017 : directory :=
  [ ("P_DEMO.xpt", None); ("P_BPXO.xpt", None) ].

End Samples.

(** * Properties *)

(** ** Rows and columns *)

Lemma row_get_set_eq (r : row) (c : string) (v : cell) :
  row_get (row_set r c v) c = v.
Proof.
  induction r as [| [k x] r IH]; simpl.
  - now rewrite String.eqb_refl.
  - destruct (String.eqb c k) eqn:E; simpl; rewrite E; [reflexivity | exact IH].
Qed.

Lemma row_get_set_ne (r : row) (c c' : string) (v : cell) :
  String.eqb c' c = false -> row_get (row_set r c v) c' = row_get r c'.
Proof.
  intros Hne. induction r as [| [k x] r IH]; simpl.
  - now rewrite Hne.
  - destruct (String.eqb c k) eqn:E; simpl.
    + apply String.eqb_eq in E. subst k. now rewrite Hne.
    + destruct (String.eqb c' k); [reflexivity | exact IH].
Qed.

Lemma rows_set_col (c : string) (f : row -> cell) (df : DataFrame) :
  rows (set_col c f df) = map (fun r => row_set r c (f r)) (rows df).
Proof. reflexivity. Qed.

Lemma in_strings_true (c : string) (l : list string) :
  in_strings c l = true <-> In c l.
Proof.
  unfold in_strings. rewrite existsb_exists. split.
  - intros (x & Hx & E). apply String.eqb_eq in E. now subst.
  - intros H. exists c. split; [exact H | apply String.eqb_refl].
Qed.

Lemma has_col_set_col_same (c : string) (f : row -> cell) (df : DataFrame) :
  has_col c (set_col c f df) = true.
Proof.
  unfold set_col, has_col at 1; simpl. unfold has_col.
  destruct (in_strings c (columns df)) eqn:E; [exact E |].
  apply in_strings_true, in_or_app. right. now left.
Qed.

Lemma has_col_set_col_other (c c' : string) (f : row -> cell) (df : DataFrame) :
  String.eqb c' c = false -> has_col c' (set_col c f df) = has_col c' df.
Proof.
  intros Hne. unfold set_col, has_col at 1; simpl. unfold has_col.
  destruct (in_strings c (columns df)); [reflexivity |].
  unfold in_strings. rewrite existsb_app. simpl. rewrite Hne.
  now rewrite !orb_false_r.
Qed.

(** ** Friedewald LDL *)

Lemma Qle_bool_false_lt (a b : Q) : Qle_bool a b = false <-> (b < a)%Q.
Proof.
  split.
  - intros H. apply Qnot_le_lt. intros Hle. apply Qle_bool_iff in Hle. congruence.
  - intros H. destruct (Qle_bool a b) eqn:E; [| reflexivity].
    apply Qle_bool_iff in E. exfalso. exact (Qlt_not_le _ _ H E).
Qed.

(** The cohort builder: the formula below the triglyceride threshold. *)
Lemma friedewald_formula (tc hdl tg : Q) :
  (tg < 400)%Q -> (0 <= tc - hdl - tg / 5)%Q ->
  BuildCohort.compute_ldl_friedewald (Num tc) (Num hdl) (Num tg)
  = Num (tc - hdl - tg / 5).
Proof.
  intros Htg Hpos. unfold BuildCohort.compute_ldl_friedewald; simpl.
  apply Qle_bool_false_lt in Htg. rewrite Htg. simpl.
  apply Qle_bool_iff in Hpos. now rewrite Hpos.
Qed.

(** The cohort builder: missing at or above the threshold, whatever the
    other two inputs are. *)
Lemma friedewald_high_trigly (tchol hdl trigly : cell) :
  cell_ge trigly 400 = true ->
  BuildCohort.compute_ldl_friedewald tchol hdl trigly = NaN.
Proof.
  intros H. unfold BuildCohort.compute_ldl_friedewald. now rewrite H.
Qed.

(** The cohort builder never yields a negative LDL. *)
Lemma friedewald_not_negative (tchol hdl trigly : cell) :
  cell_lt (BuildCohort.compute_ldl_friedewald tchol hdl trigly) 0 = false.
Proof.
  unfold BuildCohort.compute_ldl_friedewald.
  destruct (cell_ge trigly 400); [reflexivity |].
  destruct (cell_lt (cell_sub (cell_sub tchol hdl) (cell_div trigly 5)) 0) eqn:E;
    [reflexivity | exact E].
Qed.

(** The processing script: the formula below the threshold, missing at
    or above it when no direct measurement is passed. *)
Lemma calculate_ldl_formula (tc hdl tg : Q) :
  (tg < 400)%Q ->
  ProcessData.calculate_ldl (Num tc) (Num hdl) (Num tg) None
  = Num (tc - hdl - tg / 5).
Proof.
  intros Htg. unfold ProcessData.calculate_ldl; simpl.
  apply Qle_bool_false_lt in Htg. now rewrite Htg.
Qed.

Lemma calculate_ldl_high_trigly (tc hdl tg : cell) :
  cell_ge tg 400 = true -> ProcessData.calculate_ldl tc hdl tg None = NaN.
Proof.
  intros H. unfold ProcessData.calculate_ldl.
  destruct tg as [| x |]; simpl in *; try discriminate.
  now rewrite H.
Qed.

(** C3. The derived LDL-C of the processing script is not floored: for
    total cholesterol 100, HDL 90 and triglycerides 100 it is 100 - 90 -
    100/5, a negative number, where the cohort builder yields missing. *)
Theorem calculate_ldl_keeps_negative :
  column "ldl_calc" (ProcessData.harmonize_lipids Samples.lipid_low)
  = [Num (100 - 90 - 100 / 5)]
  /\ cell_lt (ProcessData.calculate_ldl (Num 100) (Num 90) (Num 100) None) 0 = true
  /\ BuildCohort.compute_ldl_friedewald (Num 100) (Num 90) (Num 100) = NaN.
Proof. repeat split; vm_compute; reflexivity. Qed.

(** ** Self-reported cardiovascular history *)

Lemma of_bool_cases (b : bool) : of_bool b = Num 0 \/ of_bool b = Num 1.
Proof. destruct b; [right | left]; reflexivity. Qed.

Lemma isna_of_bool (b : bool) : isna (of_bool b) = false.
Proof. reflexivity. Qed.

Lemma get_or_absent (df : DataFrame) (c : string) (d : cell) (r : row) :
  has_col c df = false -> get_or df c d r = d.
Proof. intros H. unfold get_or. now rewrite H. Qed.

Lemma get_or_missing_not_one (df : DataFrame) (c : string) (r : row) :
  has_col c df = false \/ isna (row_get r c) = true ->
  cell_eq_num (get_or df c (Num 2) r) 1 = false.
Proof.
  intros [H | H]; unfold get_or.
  - now rewrite H.
  - destruct (has_col c df); [| reflexivity].
    destruct (row_get r c); simpl in *; congruence.
Qed.

(** C10. The cohort builder's history flag is 0 or 1 at every row of
    every table; an absent source column reads as the answer 2; and a
    row whose five sources are each absent or missing is flagged 0. *)
Theorem cvd_history_is_definite (df : DataFrame) (r : row) :
  (BuildCohort.define_cvd_history df r = Num 0
   \/ BuildCohort.define_cvd_history df r = Num 1)
  /\ (forall c, In c cvd_sources -> has_col c df = false ->
                get_or df c (Num 2) r = Num 2)
  /\ ((forall c, In c cvd_sources ->
                 has_col c df = false \/ isna (row_get r c) = true) ->
      BuildCohort.define_cvd_history df r = Num 0)
  /\ (forall r', In r' (rows (BuildCohort.derive_clinical df)) ->
                 isna (row_get r' "cvd_history") = false).
Proof.
  split; [apply of_bool_cases |].
  split; [intros c _ H; now apply get_or_absent |].
  split.
  - intros H. unfold BuildCohort.define_cvd_history.
    rewrite !get_or_missing_not_one; [reflexivity | | | | |];
      apply H; unfold cvd_sources; simpl; tauto.
  - intros r' Hin. unfold BuildCohort.derive_clinical in Hin.
    rewrite rows_set_col in Hin. apply in_map_iff in Hin.
    destruct Hin as (r0 & <- & _). rewrite row_get_set_eq.
    unfold BuildCohort.define_cvd_history. apply isna_of_bool.
Qed.

Lemma cvd_history_is_definite_witness :
  BuildCohort.define_cvd_history Samples.race_2005
    [("SEQN", Num 31130); ("RIDRETH1", Num 3)] = Num 0.
Proof.
  apply (proj1 (proj2 (proj2 (cvd_history_is_definite Samples.race_2005
           [("SEQN", Num 31130); ("RIDRETH1", Num 3)])))).
  intros c Hc. left.
  simpl in Hc.
  destruct Hc as [<- | [<- | [<- | [<- | [<- | []]]]]]; reflexivity.
Defined.

(** ** Diabetes *)

(** The processing script: the flag is missing exactly when HbA1c,
    fasting glucose and the doctor-diagnosis answer are all missing. *)
Lemma diabetes_flag_missing_iff (df : DataFrame) (r : row) :
  ProcessData.diabetes_flag df r = NaN <->
  isna (row_get r "hba1c") = true /\ isna (row_get r "fasting_glucose") = true
  /\ isna (row_get r "DIQ010") = true.
Proof.
  unfold ProcessData.diabetes_flag. simpl.
  destruct (isna (row_get r "hba1c")), (isna (row_get r "fasting_glucose")),
    (isna (row_get r "DIQ010")); simpl; split; try tauto;
    try (intros H; discriminate H); intros (? & ? & ?); discriminate.
Qed.

(** The processing script: a laboratory value over its threshold flags 1. *)
Lemma diabetes_flag_hba1c (df : DataFrame) (r : row) :
  cell_ge (row_get r "hba1c") 6.5 = true -> ProcessData.diabetes_flag df r = Num 1.
Proof.
  intros H. unfold ProcessData.diabetes_flag. simpl. rewrite H. simpl.
  destruct (row_get r "hba1c"); simpl in *; try discriminate. reflexivity.
Qed.

(** C6. Insulin use alone does not flag diabetes.  The processing script
    masks the flag to missing when HbA1c, glucose and the diagnosis
    answer are missing, although insulin use is affirmative; the cohort
    builder never reads the medication answers and returns 0, and it
    returns 0, not missing, when every source is missing. *)
Theorem diabetes_misses_medication_signal :
  column "diabetes" <$> ProcessData.harmonize_variables Samples.insulin_only
  = Ok [NaN]
  /\ column "diabetes" (BuildCohort.derive_clinical Samples.insulin_only) = [Num 0]
  /\ column "diabetes" (BuildCohort.derive_clinical Samples.no_diabetes_data) = [Num 0].
Proof. repeat split; vm_compute; reflexivity. Qed.

(** ** Race and ethnicity *)

(** C5. On two concatenated cycles, the cohort builder leaves the record
    of the older cycle without a race value although its older coding is
    populated, and the processing script gives the record of the newer
    cycle its older-coding value 5 although its newer coding 6 is
    populated. *)
Theorem race_eth_no_record_fallback :
  column "race_eth"
    (BuildCohort.derive_race_eth (concat [Samples.race_2005; Samples.race_2015]))
  = [NaN; Num 6]
  /\ column "race_eth"
       (ProcessData.harmonize_demographics
          (concat [Samples.race_2005; Samples.race_2015]))
     = [Num 3; Num 5].
Proof. split; vm_compute; reflexivity. Qed.

(** ** Statin classification *)

(** The flag of participant [k] in the cohort builder's Series. *)
Lemma statin_two_rows :
  BuildCohort.identify_statin_users Samples.rx_two_rows = Ok [(Num 1, Num 1)]
  /\ rows (ProcessData.identify_statin_users Samples.rx_two_rows)
     = [[("SEQN", Num 1); ("statin_user", Num 1)]].
Proof. split; vm_compute; reflexivity. Qed.

(** C4. The cohort builder consults no class code: a participant whose
    only statin evidence is the class code CV350 of its own code list is
    flagged 0.  The processing script flags the participant with its
    class code 358. *)
Theorem class_code_is_not_consulted :
  BuildCohort.identify_statin_users Samples.rx_class_only
  = Ok [(Num 1, Num 0); (Num 2, Num 0)]
  /\ in_strings "CV350" BuildCohort.STATIN_CLASS_CODES = true
  /\ column "statin_user" (ProcessData.identify_statin_users Samples.rx_class_only)
     = [Num 0; Num 1].
Proof. repeat split; vm_compute; reflexivity. Qed.

(** ** Left join *)

Lemma append_empty_r (s : string) : s +:+ "" = s.
Proof.
  induction s as [| a s IH]; [reflexivity |].
  change (String a (s +:+ "") = String a s). now rewrite IH.
Qed.

Lemma row_get_app (a b : row) (c : string) :
  row_get (a ++ b) c
  = if in_strings c (map fst a) then row_get a c else row_get b c.
Proof.
  induction a as [| [k v] a IH]; simpl; [reflexivity |].
  destruct (String.eqb c k); simpl; [reflexivity | exact IH].
Qed.

Lemma row_get_absent (r : row) (c : string) :
  in_strings c (map fst r) = false -> row_get r c = NaN.
Proof.
  induction r as [| [k v] r IH]; simpl; [reflexivity |].
  destruct (String.eqb c k); simpl; [discriminate | exact IH].
Qed.

Lemma row_get_all_missing (g : string -> string) (cs : list string) (c : string) :
  row_get (map (fun x => (g x, NaN)) cs) c = NaN.
Proof.
  induction cs as [| x cs IH]; simpl; [reflexivity |].
  destruct (String.eqb c (g x)); [reflexivity | exact IH].
Qed.

Lemma rename_row_id (f : string -> string) (r : row) :
  (forall k, In k (map fst r) -> f k = k) -> rename_row f r = r.
Proof.
  induction r as [| [k v] r IH]; simpl; intros H; [reflexivity |].
  rewrite (H k) by now left. f_equal. apply IH. intros k' Hk'. apply H. now right.
Qed.

Lemma suffixed_left_id (suffixes : string * string) (left right : DataFrame)
    (c : string) :
  left_labels_kept suffixes left right ->
  suffixed left right (fst suffixes) c = c.
Proof.
  intros [H | H]; unfold suffixed.
  - rewrite H. destruct (overlap left right c); [apply append_empty_r | reflexivity].
  - now rewrite H.
Qed.

Lemma suffixed_new_label (left right : DataFrame) (sfx c : string) :
  in_strings c (columns left) = false -> suffixed left right sfx c = c.
Proof.
  intros H. unfold suffixed, overlap. rewrite H.
  now rewrite andb_false_r.
Qed.

Lemma join_row_nonempty (suffixes : string * string) (left right : DataFrame)
    (l : row) :
  join_row suffixes left right l <> [].
Proof.
  unfold join_row. destruct (matches l right); simpl; discriminate.
Qed.

Lemma matches_nil (l : row) (right : DataFrame) :
  (forall r, In r (rows right) ->
             cell_eqb (row_get l SEQN) (row_get r SEQN) = false) ->
  matches l right = [].
Proof.
  unfold matches. induction (rows right) as [| r rs IH]; simpl; intros H;
    [reflexivity |].
  rewrite (H r) by now left. apply IH. intros r' Hr'. apply H. now right.
Qed.

(** Every row a left row contributes carries the left row's values. *)
Lemma join_row_keeps_values (suffixes : string * string) (left right : DataFrame)
    (l j : row) (c : string) :
  left_labels_kept suffixes left right ->
  map fst l = columns left ->
  In j (join_row suffixes left right l) ->
  in_strings c (columns left) = true ->
  row_get j c = row_get l c.
Proof.
  intros Hk Hal Hj Hc.
  assert (Hren : rename_row (suffixed left right (fst suffixes)) l = l).
  { apply rename_row_id. intros k _. now apply suffixed_left_id. }
  unfold join_row in Hj. rewrite Hren in Hj.
  destruct (matches l right) as [| m ms].
  - destruct Hj as [<- | []]. rewrite row_get_app, Hal, Hc. reflexivity.
  - apply in_map_iff in Hj. destruct Hj as (r & <- & _).
    rewrite row_get_app, Hal, Hc. reflexivity.
Qed.

(** A left row whose participant the right table lacks contributes one
    row, with the right table's new variables missing. *)
Lemma join_row_absent (suffixes : string * string) (left right : DataFrame)
    (l : row) :
  left_labels_kept suffixes left right ->
  map fst l = columns left ->
  (forall r, In r (rows right) ->
             cell_eqb (row_get l SEQN) (row_get r SEQN) = false) ->
  exists j, join_row suffixes left right l = [j]
            /\ forall c, in_strings c (columns left) = false -> row_get j c = NaN.
Proof.
  intros Hk Hal Habs. unfold join_row. rewrite (matches_nil _ _ Habs).
  eexists. split; [reflexivity |].
  intros c Hc.
  rewrite rename_row_id by (intros k _; now apply suffixed_left_id).
  rewrite row_get_app, Hal, Hc. apply row_get_all_missing.
Qed.

Lemma merge_left_ok (suffixes : string * string) (left right res : DataFrame) :
  merge_left suffixes left right = Ok res ->
  has_col SEQN left = true /\ has_col SEQN right = true
  /\ rows res = flat_map (join_row suffixes left right) (rows left).
Proof.
  unfold merge_left.
  destruct (has_col SEQN left), (has_col SEQN right); simpl; try discriminate.
  intros [= <-]. auto.
Qed.

Lemma merge_left_total (suffixes : string * string) (left right : DataFrame) :
  has_col SEQN left = true -> has_col SEQN right = true ->
  exists res, merge_left suffixes left right = Ok res
              /\ has_col SEQN res = true.
Proof.
  intros Hl Hr. unfold merge_left. rewrite Hl, Hr. simpl.
  eexists. split; [reflexivity |].
  unfold has_col; simpl. unfold in_strings. rewrite existsb_app.
  apply orb_true_iff. left. apply existsb_exists.
  apply in_strings_true in Hl. exists SEQN. split; [| reflexivity].
  apply in_map_iff. exists SEQN. split; [| exact Hl].
  unfold suffixed, overlap. reflexivity.
Qed.

Lemma flat_map_groups {A B : Type} (f : A -> list B) (l : list A) :
  flat_map f l = List.concat (map f l).
Proof. induction l as [| a l IH]; simpl; [reflexivity | now rewrite IH]. Qed.

Lemma merge_left_groups (suffixes : string * string) (left right res : DataFrame) :
  merge_left suffixes left right = Ok res ->
  left_labels_kept suffixes left right ->
  aligned left ->
  exists groups, rows res = List.concat groups
                 /\ Forall2 (group_ok left right) (rows left) groups.
Proof.
  intros Hm Hk Hal. apply merge_left_ok in Hm. destruct Hm as (_ & _ & Hrows).
  exists (map (join_row suffixes left right) (rows left)).
  split; [rewrite Hrows; apply flat_map_groups |].
  clear Hrows. unfold aligned in Hal. induction Hal as [| l ls Hl _ IH]; simpl; constructor.
  - unfold group_ok. split; [apply join_row_nonempty |]. split.
    + intros j c Hj Hc. now apply (join_row_keeps_values suffixes left right l).
    + intros Habs. now apply join_row_absent.
  - exact IH.
Qed.

Lemma map_fst_rename (f : string -> string) (r : row) :
  map fst (rename_row f r) = map f (map fst r).
Proof. unfold rename_row. rewrite !map_map. reflexivity. Qed.

Lemma map_fst_drop_key (r : row) :
  map fst (drop_key r)
  = List.filter (fun c => negb (String.eqb c SEQN)) (map fst r).
Proof.
  unfold drop_key. induction r as [| [k v] r IH]; simpl; [reflexivity |].
  destruct (negb (String.eqb k SEQN)); simpl; now rewrite IH.
Qed.

Lemma merge_left_aligned (suffixes : string * string) (left right res : DataFrame) :
  merge_left suffixes left right = Ok res ->
  aligned left -> aligned right -> aligned res.
Proof.
  intros Hm Hl Hr. unfold merge_left in Hm.
  destruct (negb (has_col SEQN left && has_col SEQN right)); [discriminate |].
  injection Hm as <-. unfold aligned; simpl. apply List.Forall_forall.
  intros j Hj. apply in_flat_map in Hj. destruct Hj as (l & Hl' & Hj).
  unfold aligned in Hl, Hr. rewrite List.Forall_forall in Hl, Hr.
  unfold join_row in Hj. destruct (matches l right) as [| m ms] eqn:Em.
  - destruct Hj as [<- | []]. rewrite map_app, map_fst_rename, (Hl l Hl').
    f_equal. rewrite map_map. reflexivity.
  - apply in_map_iff in Hj. destruct Hj as (r & <- & Hr').
    assert (Hin : In r (rows right)).
    { rewrite <- Em in Hr'. unfold matches in Hr'.
      apply filter_In in Hr'. tauto. }
    rewrite map_app, !map_fst_rename, map_fst_drop_key, (Hl l Hl'), (Hr r Hin).
    reflexivity.
Qed.

Lemma length_flat_map_ge {A B : Type} (f : A -> list B) (l : list A) :
  (forall a, f a <> []) -> length l <= length (flat_map f l).
Proof.
  intros Hf. induction l as [| a l IH]; simpl; [lia |].
  rewrite length_app. specialize (Hf a). destruct (f a); [congruence | simpl; lia].
Qed.

Lemma carries_refl (df : DataFrame) :
  has_col SEQN df = true -> aligned df -> carries df df.
Proof.
  intros Hs Hal. unfold carries. repeat split; auto.
  intros l Hl. exists l. auto.
Qed.

(** One join keeps what the table carried before it. *)
Lemma carries_merge (sfx : string) (df0 df comp res : DataFrame) :
  carries df0 df -> aligned comp ->
  merge_left ("", sfx) df comp = Ok res ->
  carries df0 res.
Proof.
  intros (Hs & Hal & Hcols & Hrows & Hlen) Hcomp Hm.
  pose proof (merge_left_aligned _ _ _ _ Hm Hal Hcomp) as Hres.
  pose proof (merge_left_ok _ _ _ _ Hm) as (_ & Hsc & Hr).
  destruct (merge_left_total ("", sfx) df comp Hs Hsc) as (res' & Hm' & Hs').
  rewrite Hm in Hm'. injection Hm' as <-.
  assert (Hkeep : left_labels_kept ("", sfx) df comp) by now left.
  unfold carries. split; [exact Hs' |]. split; [exact Hres |]. split; [| split].
  - intros c Hc. specialize (Hcols c Hc).
    unfold merge_left in Hm. rewrite Hs, Hsc in Hm. simpl in Hm.
    injection Hm as <-. simpl. unfold in_strings. rewrite existsb_app.
    apply orb_true_iff. left. apply existsb_exists. exists c.
    split; [| apply String.eqb_refl].
    apply in_map_iff. exists c. split.
    + apply (suffixed_left_id ("", sfx) df comp c Hkeep).
    + now apply in_strings_true.
  - intros l Hl. destruct (Hrows l Hl) as (j & Hj & Hval).
    pose proof (join_row_nonempty ("", sfx) df comp j) as Hne.
    destruct (join_row ("", sfx) df comp j) as [| j' js] eqn:Ej; [congruence |].
    exists j'. split.
    + rewrite Hr. apply in_flat_map. exists j. split; [exact Hj |].
      rewrite Ej. now left.
    + intros c Hc. rewrite <- (Hval c Hc).
      apply (join_row_keeps_values ("", sfx) df comp j j' c Hkeep).
      * unfold aligned in Hal. rewrite List.Forall_forall in Hal. now apply Hal.
      * rewrite Ej. now left.
      * now apply Hcols.
  - rewrite Hr. etransitivity; [exact Hlen |].
    apply length_flat_map_ge. intros a. apply join_row_nonempty.
Qed.

Lemma head_filter_some {A : Type} (f : A -> bool) (l : list A) (x : A) :
  head (List.filter f l) = Some x -> In x l /\ f x = true.
Proof.
  intros H. assert (Hin : In x (List.filter f l)).
  { destruct (List.filter f l); simpl in H; [discriminate |].
    injection H as ->. now left. }
  now apply filter_In in Hin.
Qed.

Lemma build_find_file_in (fl : flavour) (d : directory) (p : string) (f : file) :
  BuildCohort.find_file fl d p = Some f -> In f d.
Proof. intros H. now apply head_filter_some in H. Qed.

(** One turn of the cohort builder's component loop succeeds and keeps
    what the table carried. *)
Lemma build_merge_component_carries (fl : flavour) (d : directory)
    (df0 df : DataFrame) (p : string) :
  (forall f, In f d -> aligned (load_xpt f)) ->
  carries df0 df ->
  exists df', BuildCohort.merge_component fl d df p = Ok df' /\ carries df0 df'.
Proof.
  intros Hd Hc. unfold BuildCohort.merge_component.
  destruct (BuildCohort.find_file fl d p) as [f |] eqn:Ef; [| eauto].
  destruct (has_col SEQN (load_xpt f) && (0 <? len (load_xpt f))%nat) eqn:Eg;
    [| eauto].
  apply andb_true_iff in Eg. destruct Eg as [Hs _].
  destruct Hc as (Hs0 & Hrest).
  destruct (merge_left_total ("", "_" +:+ p) df (load_xpt f) Hs0 Hs)
    as (res & Hm & _).
  exists res. split; [exact Hm |].
  apply (carries_merge ("_" +:+ p) df0 df (load_xpt f) res); auto.
  - split; assumption.
  - apply Hd. now apply (build_find_file_in fl d p).
Qed.

Lemma build_merge_loop_carries (fl : flavour) (d : directory)
    (ps : list string) (df0 df : DataFrame) :
  (forall f, In f d -> aligned (load_xpt f)) ->
  carries df0 df ->
  exists df',
    foldl (fun acc pattern => df' ← acc; BuildCohort.merge_component fl d df' pattern)
          (Ok df) ps = Ok df'
    /\ carries df0 df'.
Proof.
  intros Hd. revert df. induction ps as [| p ps IH]; intros df Hc; simpl.
  - eauto.
  - destruct (build_merge_component_carries fl d df0 df p Hd Hc) as (df1 & E & Hc1).
    rewrite E. now apply IH.
Qed.

Lemma distinct_map_inj (f : string -> string) (l : list string) (x y : string) :
  distinct (map f l) = true -> In x l -> In y l -> f x = f y -> x = y.
Proof.
  induction l as [| a l IH]; simpl; intros Hd Hx Hy E; [destruct Hx |].
  apply andb_true_iff in Hd. destruct Hd as [Ha Hd].
  apply negb_true_iff in Ha.
  assert (Hout : forall z, In z l -> f a <> f z).
  { intros z Hz Ez.
    assert (in_strings (f a) (map f l) = true)
      by (apply in_strings_true, in_map_iff; exists z; auto).
    congruence. }
  destruct Hx as [<- | Hx], Hy as [<- | Hy]; auto.
  - exfalso. now apply (Hout y).
  - exfalso. apply (Hout x); auto.
Qed.

Lemma row_get_rename_inj (f : string -> string) (r : row) (c : string) :
  (forall k, In k (map fst r) -> f k = f c -> k = c) ->
  row_get (rename_row f r) (f c) = row_get r c.
Proof.
  induction r as [| [k v] r IH]; simpl; intros H; [reflexivity |].
  destruct (String.eqb c k) eqn:E.
  - apply String.eqb_eq in E. subst k. now rewrite String.eqb_refl.
  - destruct (String.eqb (f c) (f k)) eqn:E'.
    + apply String.eqb_eq in E'. symmetry in E'.
      assert (Hk : k = c) by (apply H; auto).
      subst k. now rewrite String.eqb_refl in E.
    + apply IH. intros k' Hk'. apply H. now right.
Qed.

Lemma row_get_drop_key (r : row) (c : string) :
  String.eqb c SEQN = false -> row_get (drop_key r) c = row_get r c.
Proof.
  intros Hc. unfold drop_key. induction r as [| [k v] r IH]; simpl; [reflexivity |].
  destruct (String.eqb k SEQN) eqn:Ek; simpl.
  - apply String.eqb_eq in Ek. subst k. now rewrite Hc.
  - now rewrite IH.
Qed.

Lemma Forall2_map_in {A B : Type} (P : A -> B -> Prop) (g : A -> B) (l : list A) :
  (forall a, In a l -> P a (g a)) -> Forall2 P l (map g l).
Proof.
  induction l as [| a l IH]; simpl; intros H; constructor; auto.
Qed.

(** The rows a left row contributes hold its records' variables. *)
Lemma join_row_joined (suffixes : string * string) (left right : DataFrame)
    (l : row) :
  left_labels_kept suffixes left right ->
  map fst l = columns left ->
  aligned right ->
  labels_fresh suffixes left right = true ->
  group_joined suffixes left right l (join_row suffixes left right l).
Proof.
  intros Hk Hal Hr Hf Hne. unfold join_row.
  change (matches l right) with (records_of l right).
  destruct (records_of l right) as [| m ms] eqn:Em; [congruence |].
  rewrite <- Em. apply Forall2_map_in. intros r Hin c Hc.
  unfold records_of in Hin. apply filter_In in Hin. destruct Hin as [Hin _].
  unfold aligned in Hr. rewrite List.Forall_forall in Hr. specialize (Hr r Hin).
  apply andb_true_iff in Hf. destruct Hf as [Hd Hnew].
  rewrite forallb_forall in Hnew. specialize (Hnew c Hc).
  apply negb_true_iff in Hnew.
  rewrite rename_row_id by (intros k _; now apply suffixed_left_id).
  rewrite row_get_app, Hal, Hnew.
  assert (Hkey : String.eqb c SEQN = false).
  { unfold value_cols in Hc. apply filter_In in Hc. destruct Hc as [_ Hc].
    now apply negb_true_iff in Hc. }
  rewrite row_get_rename_inj; [now apply row_get_drop_key |].
  intros k Hk' E. rewrite map_fst_drop_key, Hr in Hk'.
  apply (distinct_map_inj _ _ k c Hd); auto.
Qed.

Lemma merge_left_joined (suffixes : string * string) (left right res : DataFrame) :
  merge_left suffixes left right = Ok res ->
  left_labels_kept suffixes left right ->
  aligned left -> aligned right ->
  labels_fresh suffixes left right = true ->
  columns res
  = (columns left ++ map (suffixed left right (snd suffixes)) (value_cols right))%list
  /\ exists groups, rows res = List.concat groups
                    /\ Forall2 (group_ok left right) (rows left) groups
                    /\ Forall2 (group_joined suffixes left right) (rows left) groups.
Proof.
  intros Hm Hk Hal Hr Hf.
  pose proof (merge_left_ok _ _ _ _ Hm) as (Hsl & Hsr & Hrows).
  split.
  - unfold merge_left in Hm. rewrite Hsl, Hsr in Hm. simpl in Hm.
    injection Hm as <-. simpl. f_equal.
    rewrite <- (map_id (columns left)) at 2. apply map_ext.
    intros c. now apply suffixed_left_id.
  - exists (map (join_row suffixes left right) (rows left)).
    split; [rewrite Hrows; apply flat_map_groups |].
    clear Hrows Hm. unfold aligned in Hal.
    split; induction Hal as [| l ls Hl _ IH]; simpl; constructor; auto.
    + unfold group_ok. split; [apply join_row_nonempty |]. split.
      * intros j c Hj Hc. now apply (join_row_keeps_values suffixes left right l).
      * intros Habs. now apply join_row_absent.
    + now apply join_row_joined.
Qed.

(** A component that is found, has the participant key and has rows is
    joined onto the table. *)
Lemma build_merge_component_joins (fl : flavour) (d : directory) (df : DataFrame)
    (p : string) (f : file) :
  BuildCohort.find_file fl d p = Some f ->
  has_col SEQN (load_xpt f) = true -> 0 < len (load_xpt f) ->
  BuildCohort.merge_component fl d df p
  = merge_left ("", "_" +:+ p) df (load_xpt f).
Proof.
  intros Hf Hs Hn. unfold BuildCohort.merge_component. rewrite Hf, Hs.
  apply Nat.ltb_lt in Hn. now rewrite Hn.
Qed.

(** The component loop joins each such component onto the table of the
    turns before it, and the table it returns still holds the joined
    table. *)
Lemma build_merge_loop_joins (fl : flavour) (d : directory) (df : DataFrame)
    (pre post : list string) (p : string) (f : file) :
  has_col SEQN df = true -> aligned df ->
  (forall g, In g d -> aligned (load_xpt g)) ->
  BuildCohort.components = (pre ++ p :: post)%list ->
  BuildCohort.find_file fl d p = Some f ->
  has_col SEQN (load_xpt f) = true -> 0 < len (load_xpt f) ->
  exists t t' df',
    foldl (fun acc pattern => x ← acc; BuildCohort.merge_component fl d x pattern)
          (Ok df) pre = Ok t
    /\ carries df t
    /\ merge_left ("", "_" +:+ p) t (load_xpt f) = Ok t'
    /\ BuildCohort.merge_components fl d df = Ok df'
    /\ carries t' df'.
Proof.
  intros Hs Hal Hd Hsplit Hf Hsf Hn.
  destruct (build_merge_loop_carries fl d pre df df Hd (carries_refl df Hs Hal))
    as (t & Et & Ct).
  destruct (build_merge_component_carries fl d df t p Hd Ct) as (t' & Et' & Ct').
  assert (Crefl : carries t' t').
  { destruct Ct' as (Hs' & Hal' & _). now apply carries_refl. }
  destruct (build_merge_loop_carries fl d post t' t' Hd Crefl) as (df' & Ef & Cf).
  exists t, t', df'. split; [exact Et |]. split; [exact Ct |].
  split; [now rewrite <- (build_merge_component_joins fl d t p f) |].
  split; [| exact Cf].
  unfold BuildCohort.merge_components. rewrite Hsplit, foldl_app. simpl.
  rewrite Et. simpl. rewrite Et'. exact Ef.
Qed.

Lemma filter_none_of_filter {A : Type} (p : A -> bool) (l : list A) :
  List.filter (fun x => negb (p x)) (List.filter p l) = [].
Proof.
  induction l as [| a l IH]; simpl; [reflexivity |].
  destruct (p a) eqn:E; simpl; [rewrite E; simpl |]; exact IH.
Qed.

(** A laboratory file of the processing script that is found, is not
    empty, and has the participant key and one of the listed variables
    is joined onto the table, on those columns. *)
Lemma process_merge_lab_joins (fl : flavour) (d : directory) (df : DataFrame)
    (e : string * list string) (f : file) :
  ProcessData.find_file fl d (fst e) = Some f ->
  df_empty (load_xpt f) = false ->
  has_col SEQN (upper_columns (load_xpt f)) = true ->
  ProcessData.present (snd e) (upper_columns (load_xpt f)) <> [] ->
  ProcessData.merge_lab fl d df e
  = merge_left ProcessData.default_suffixes df
      (select (SEQN :: ProcessData.present (snd e) (upper_columns (load_xpt f)))
              (upper_columns (load_xpt f))).
Proof.
  intros Hf He Hs Hp. unfold ProcessData.merge_lab. rewrite Hf, He. simpl negb.
  cbv zeta.
  set (x := upper_columns (load_xpt f)) in *.
  set (ps := ProcessData.present (snd e) x) in *.
  assert (HL : (1 <? length (SEQN :: ps))%nat = true)
    by (destruct ps; [congruence | reflexivity]).
  rewrite HL.
  assert (HS : ProcessData.select_cols (SEQN :: ps) x = Ok (select (SEQN :: ps) x)).
  { unfold ProcessData.select_cols.
    assert (E : List.filter (fun c => negb (has_col c x)) (SEQN :: ps) = []).
    { simpl. rewrite Hs. simpl. unfold ps, ProcessData.present.
      apply filter_none_of_filter. }
    now rewrite E. }
  rewrite HS. reflexivity.
Qed.



(** ** Inflammation marker *)

Lemma column_set_col_same (c : string) (f : row -> cell) (df : DataFrame) :
  column c (set_col c f df) = map f (rows df).
Proof.
  unfold column. rewrite rows_set_col, map_map.
  apply map_ext. intros r. apply row_get_set_eq.
Qed.

Lemma column_set_col_other (c c' : string) (f : row -> cell) (df : DataFrame) :
  String.eqb c' c = false -> column c' (set_col c f df) = column c' df.
Proof.
  intros H. unfold column. rewrite rows_set_col, map_map.
  apply map_ext. intros r. now apply row_get_set_ne.
Qed.

Lemma column_alias_other (new old c : string) (f : cell -> cell) (df : DataFrame) :
  String.eqb c new = false ->
  column c (BuildCohort.alias_col new old f df) = column c df.
Proof.
  intros H. unfold BuildCohort.alias_col.
  destruct (has_col old df && negb (has_col new df)); [| reflexivity].
  now apply column_set_col_other.
Qed.

(** The cohort builder rescales within the cycle: a cycle table that
    has the older marker and not the newer one gets the newer column as
    ten times the older value, row by row. *)
Lemma old_marker_rescaled_per_cycle (df : DataFrame) :
  has_col "LBXCRP" df = true -> has_col "LBXHSCRP" df = false ->
  column "LBXHSCRP" (BuildCohort.harmonize_names df)
  = map (fun r => cell_mul (row_get r "LBXCRP") 10) (rows df).
Proof.
  intros Hold Hnew. unfold BuildCohort.harmonize_names.
  rewrite !column_alias_other by reflexivity.
  unfold BuildCohort.alias_col. rewrite Hold, Hnew. simpl.
  apply column_set_col_same.
Qed.

(** C1. The processing script never rescales the older marker.  For a
    2005-2006 participant reported at 0.3 (older unit), its pipeline
    ends with the canonical value 0.3 and no elevated-marker or residual
    risk flag; the cohort builder ends with 0.3 * 10 and both flags. *)
Theorem old_marker_not_rescaled :
  final_column "hscrp"
    (ProcessData.main Posix (Samples.only "2005-2006" Samples.dir_2005))
  = Ok [Num 0.3]
  /\ final_column "hscrp_high"
       (ProcessData.main Posix (Samples.only "2005-2006" Samples.dir_2005))
     = Ok [Num 0]
  /\ final_column "rir"
       (ProcessData.main Posix (Samples.only "2005-2006" Samples.dir_2005))
     = Ok [Num 0]
  /\ final_column "hscrp"
       (BuildCohort.main Posix (Samples.only "2005-2006" Samples.dir_2005))
     = Ok [Num (0.3 * 10); NaN]
  /\ final_column "rir"
       (BuildCohort.main Posix (Samples.only "2005-2006" Samples.dir_2005))
     = Ok [Num 1; Num 0].
Proof. repeat split; vm_compute; reflexivity. Qed.

(** ** The two scripts side by side *)

(** C9. The scripts disagree.  (a) When the prescription file of a cycle
    cannot be read, the cohort builder sets statin use to 0 for the
    cycle's participants, while the processing script leaves the status
    missing and its statin step removes them.  (b) The classifiers
    disagree on a brand name and on a combination product.  (c) With a
    direct measurement supplied, the processing script's calculator
    returns it above the triglyceride threshold, where the cohort
    builder's calculator, which takes no such argument, returns missing. *)
Theorem scripts_disagree :
  (final_column "statin_use" (BuildCohort.main Posix Samples.two_cycles)
   = Ok [Num 0; Num 0; Num 0]
   /\ column "statin_user" <$> combined Posix Samples.two_cycles
      = Ok [NaN; NaN; Num 0]
   /\ column "SEQN" <$> (df ← combined Posix Samples.two_cycles;
                          ProcessData.step_statin_info df)
      = Ok [Num 3])
  /\ (BuildCohort.identify_statin_users Samples.rx_brands
      = Ok [(Num 1, Num 0); (Num 2, Num 1)]
      /\ column "statin_user" (ProcessData.identify_statin_users Samples.rx_brands)
         = [Num 1; Num 0]
      /\ BuildCohort.STATIN_CLASS_CODES <> ProcessData.STATIN_THERAPEUTIC_CLASSES)
  /\ (ProcessData.calculate_ldl (Num 200) (Num 50) (Num 450) (Some (Num 95)) = Num 95
      /\ BuildCohort.compute_ldl_friedewald (Num 200) (Num 50) (Num 450) = NaN).
Proof.
  repeat split; try (vm_compute; reflexivity).
  discriminate.
Qed.

(** ** Statin use of participants without a medication record *)

Lemma in_unique (l : list cell) (x : cell) : In x (unique l) -> In x l.
Proof.
  induction l as [| c l IH]; simpl; [tauto |].
  intros [-> | H]; [now left |]. right. apply IH.
  apply filter_In in H. tauto.
Qed.

Lemma unique_nonempty (l : list cell) : l <> [] -> unique l <> [].
Proof. destruct l; simpl; [congruence | discriminate]. Qed.

Lemma series_lookup_absent (s : Series) (k : cell) :
  (forall kv, In kv s -> cell_eqb k (fst kv) = false) ->
  series_lookup s k = NaN.
Proof.
  induction s as [| [k' v] s IH]; simpl; intros H; [reflexivity |].
  pose proof (H (k', v) (or_introl eq_refl)) as E. simpl in E. rewrite E.
  apply IH. intros kv Hkv. apply H. now right.
Qed.

Lemma in_insert_key (k x : cell) (l : list cell) :
  In x (insert_key k l) -> x = k \/ In x l.
Proof.
  induction l as [| y l IH]; simpl.
  - intros [<- | []]. now left.
  - destruct (key_leb k y); simpl.
    + intros [<- | H]; auto.
    + intros [<- | H]; [auto |]. destruct (IH H); auto.
Qed.

Lemma in_sort_keys (x : cell) (l : list cell) : In x (sort_keys l) -> In x l.
Proof.
  induction l as [| k l IH]; simpl; [tauto |].
  intros H. apply in_insert_key in H. destruct H as [-> | H]; auto.
Qed.

Lemma groupby_any_keys (key : string) (flag : row -> bool) (df : DataFrame)
    (kv : cell * cell) :
  In kv (groupby_any key flag df) ->
  exists m, In m (rows df) /\ fst kv = row_get m key.
Proof.
  unfold groupby_any. intros H. apply in_map_iff in H.
  destruct H as (k & <- & Hk). simpl.
  apply in_sort_keys, in_unique, filter_In in Hk. destruct Hk as [Hk _].
  apply in_map_iff in Hk. destruct Hk as (m & <- & Hm). eauto.
Qed.

Lemma build_statin_series_keys (rx : DataFrame) (s : Series) (kv : cell * cell) :
  BuildCohort.identify_statin_users rx = Ok s -> In kv s ->
  exists m, In m (rows rx) /\ fst kv = row_get m SEQN.
Proof.
  unfold BuildCohort.identify_statin_users.
  destruct (df_empty rx); [intros [= <-] [] |].
  destruct (BuildCohort.drug_col rx); [| intros [= <-] []].
  destruct (has_col SEQN rx); [| discriminate].
  intros [= <-]. apply groupby_any_keys.
Qed.

(** The cohort builder imputes 0 to a participant without a record. *)
Lemma build_no_record_is_zero (fl : flavour) (d : directory) (df df' : DataFrame)
    (rx : file) (l : row) :
  BuildCohort.find_file fl d "RXQ_RX" = Some rx ->
  BuildCohort.attach_statin_use fl d df = Ok df' ->
  In l (rows df) -> no_record l (load_xpt rx) ->
  In (row_set l "statin_use" (Num 0)) (rows df').
Proof.
  intros Hf Ha Hl Hno. unfold BuildCohort.attach_statin_use in Ha.
  rewrite Hf in Ha.
  destruct (BuildCohort.identify_statin_users (load_xpt rx)) as [s | e] eqn:Es;
    simpl in Ha; [| discriminate].
  destruct (has_col SEQN df); [| discriminate].
  injection Ha as <-. rewrite rows_set_col. apply in_map_iff.
  exists l. split; [| exact Hl]. f_equal.
  rewrite series_lookup_absent; [reflexivity |].
  intros kv Hkv. destruct (build_statin_series_keys _ _ _ Es Hkv) as (m & Hm & ->).
  now apply Hno.
Qed.

Lemma build_no_file_is_zero (fl : flavour) (d : directory) (df : DataFrame) :
  BuildCohort.find_file fl d "RXQ_RX" = None ->
  exists df', BuildCohort.attach_statin_use fl d df = Ok df'
              /\ column "statin_use" df' = map (fun _ => Num 0) (rows df).
Proof.
  intros Hf. unfold BuildCohort.attach_statin_use. rewrite Hf.
  eexists. split; [reflexivity |]. apply column_set_col_same.
Qed.

Lemma process_no_file_is_zero (fl : flavour) (d : directory) (df : DataFrame) :
  ProcessData.find_file fl d "RXQ_RX" = None ->
  exists df', ProcessData.attach_statin_user fl d df = Ok df'
              /\ column "statin_user" df' = map (fun _ => Num 0) (rows df).
Proof.
  intros Hf. unfold ProcessData.attach_statin_user. rewrite Hf.
  eexists. split; [reflexivity |]. apply column_set_col_same.
Qed.

Lemma df_empty_false_rows (df : DataFrame) :
  df_empty df = false -> rows df <> [].
Proof.
  unfold df_empty. destruct (columns df), (rows df); congruence.
Qed.

(** The table the processing script's classifier returns for a
    non-empty medication table with a participant key. *)
Lemma process_statin_table (rx : DataFrame) :
  df_empty rx = false -> has_col SEQN rx = true ->
  let t := ProcessData.identify_statin_users rx in
  columns t = [SEQN; "statin_user"]
  /\ df_empty t = false
  /\ forall r, In r (rows t) ->
               exists m, In m (rows (upper_columns rx))
                         /\ row_get r SEQN = row_get m SEQN.
Proof.
  intros He Hs. unfold ProcessData.identify_statin_users. rewrite He, Hs. simpl.
  split; [reflexivity |]. split.
  - unfold df_empty; simpl.
    apply df_empty_false_rows in He.
    destruct (rows rx) as [| m ms]; [congruence |]. reflexivity.
  - intros r Hr. apply in_map_iff in Hr. destruct Hr as (k & <- & Hk).
    apply in_unique, in_map_iff in Hk. destruct Hk as (m & <- & Hm).
    exists m. split; [exact Hm | reflexivity].
Qed.

(** The processing script imputes 0 to a participant without a record
    in a readable, non-empty medication table, and keeps the
    participant's other values. *)
Lemma process_no_record_is_zero (fl : flavour) (d : directory) (df : DataFrame)
    (rx : file) (l : row) :
  ProcessData.find_file fl d "RXQ_RX" = Some rx ->
  df_empty (load_xpt rx) = false -> has_col SEQN (load_xpt rx) = true ->
  has_col SEQN df = true -> has_col "statin_user" df = false -> aligned df ->
  In l (rows df) -> no_record l (upper_columns (load_xpt rx)) ->
  exists df' j,
    ProcessData.attach_statin_user fl d df = Ok df'
    /\ In j (rows df')
    /\ row_get j "statin_user" = Num 0
    /\ forall c, in_strings c (columns df) = true -> row_get j c = row_get l c.
Proof.
  intros Hf He Hs Hsd Hnew Hal Hl Hno.
  destruct (process_statin_table (load_xpt rx) He Hs) as (Hcols & Hne & Hkeys).
  set (t := ProcessData.identify_statin_users (load_xpt rx)) in *.
  assert (Hst : has_col SEQN t = true) by (unfold has_col; now rewrite Hcols).
  assert (Hkeep : left_labels_kept ProcessData.default_suffixes df t).
  { right. intros c. unfold overlap. rewrite Hcols. simpl.
    destruct (String.eqb c SEQN) eqn:E1; [reflexivity |]. simpl.
    destruct (String.eqb c "statin_user") eqn:E2;
      [| now rewrite andb_false_r].
    apply String.eqb_eq in E2. subst c. unfold has_col in Hnew. now rewrite Hnew. }
  destruct (merge_left_total ProcessData.default_suffixes df t Hsd Hst)
    as (res & Hm & _).
  pose proof (merge_left_ok _ _ _ _ Hm) as (_ & _ & Hrows).
  assert (Hcol : has_col "statin_user" res = true).
  { unfold merge_left in Hm. rewrite Hsd, Hst in Hm. simpl in Hm.
    injection Hm as <-. unfold has_col; simpl. unfold in_strings.
    rewrite existsb_app. apply orb_true_iff. right.
    unfold value_cols. rewrite Hcols. simpl.
    rewrite suffixed_new_label by exact Hnew. reflexivity. }
  assert (Habs : forall r, In r (rows t) ->
                 cell_eqb (row_get l SEQN) (row_get r SEQN) = false).
  { intros r Hr. destruct (Hkeys r Hr) as (m & Hm' & ->). now apply Hno. }
  assert (Hlal : map fst l = columns df).
  { unfold aligned in Hal. rewrite List.Forall_forall in Hal. now apply Hal. }
  destruct (join_row_absent ProcessData.default_suffixes df t l Hkeep Hlal Habs)
    as (j0 & Ej & Hmiss).
  exists (set_col "statin_user"
            (fun r => fillna (row_get r "statin_user") (Num 0)) res),
         (row_set j0 "statin_user" (Num 0)).
  split.
  - unfold ProcessData.attach_statin_user. rewrite Hf, He. simpl.
    fold t. rewrite Hne. simpl. rewrite Hm. simpl.
    unfold require. rewrite Hcol. reflexivity.
  - split; [| split].
    + rewrite rows_set_col. apply in_map_iff. exists j0. split.
      * now rewrite (Hmiss "statin_user" Hnew).
      * rewrite Hrows. apply in_flat_map. exists l. split; [exact Hl |].
        rewrite Ej. now left.
    + apply row_get_set_eq.
    + intros c Hc. rewrite row_get_set_ne.
      * apply (join_row_keeps_values ProcessData.default_suffixes df t l j0 c);
          auto. rewrite Ej. now left.
      * destruct (String.eqb c "statin_user") eqn:E; [| reflexivity].
        apply String.eqb_eq in E. subst c. unfold has_col in Hnew. congruence.
Qed.

(** The statin step of the processing script keeps a participant whose
    status is 0. *)
Lemma statin_step_keeps_zero (df df' : DataFrame) (r : row) :
  ProcessData.step_statin_info df = Ok df' ->
  In r (rows df) -> row_get r "statin_user" = Num 0 -> In r (rows df').
Proof.
  unfold ProcessData.step_statin_info, require.
  destruct (has_col "statin_user" df); simpl; [| discriminate].
  intros [= <-] Hr Hz. simpl. apply filter_In. split; [exact Hr |].
  now rewrite Hz.
Qed.

(** The statin step removes exactly the rows with a missing status. *)
Lemma statin_step_rows (df df' : DataFrame) (r : row) :
  ProcessData.step_statin_info df = Ok df' ->
  (In r (rows df') <-> In r (rows df) /\ isna (row_get r "statin_user") = false).
Proof.
  unfold ProcessData.step_statin_info, require.
  destruct (has_col "statin_user" df); simpl; [| discriminate].
  intros [= <-]. simpl. rewrite filter_In. unfold notna.
  destruct (isna (row_get r "statin_user")); simpl; intuition congruence.
Qed.

(** C2, as the spec states it, fails: participant 2 has no row in the
    medication table of the cycle, and both scripts give the participant
    the status 0; the statin step of the processing script keeps the
    participant.  Without a prescription file both scripts give every
    participant the status 0. *)
Lemma missing_statin_is_imputed :
  final_column "statin_use"
    (BuildCohort.main Posix (Samples.only "2005-2006" Samples.dir_2005))
  = Ok [Num 1; Num 0]
  /\ column "statin_user" <$> combined Posix (Samples.only "2005-2006" Samples.dir_2005)
     = Ok [Num 1; Num 0]
  /\ column "SEQN" <$> (df ← combined Posix (Samples.only "2005-2006" Samples.dir_2005);
                         ProcessData.step_statin_info df)
     = Ok [Num 1; Num 2]
  /\ final_column "statin_use"
       (BuildCohort.main Posix (Samples.only "2005-2006" Samples.dir_no_rx))
     = Ok [Num 0; Num 0]
  /\ column "statin_user" <$> combined Posix (Samples.only "2005-2006" Samples.dir_no_rx)
     = Ok [Num 0; Num 0].
Proof. repeat split; vm_compute; reflexivity. Qed.

(** C2, amended.  In both scripts a participant gets the statin status 0
    when the cycle has no prescription file, and when the cycle's
    medication table has no row for the participant (for the processing
    script: a readable, non-empty table with a participant key).  The
    statin step of the processing script removes exactly the rows whose
    status is missing, so it keeps these participants; the cohort
    builder's statin-eligible flag of such a participant is 0. *)
Theorem no_record_defaults_to_zero :
  (forall fl d df,
      BuildCohort.find_file fl d "RXQ_RX" = None ->
      exists df', BuildCohort.attach_statin_use fl d df = Ok df'
                  /\ column "statin_use" df' = map (fun _ => Num 0) (rows df))
  /\ (forall fl d df df' rx l,
        BuildCohort.find_file fl d "RXQ_RX" = Some rx ->
        BuildCohort.attach_statin_use fl d df = Ok df' ->
        In l (rows df) -> no_record l (load_xpt rx) ->
        In (row_set l "statin_use" (Num 0)) (rows df'))
  /\ (forall r, row_get r "statin_use" = Num 0 ->
                BuildCohort.flags_and ["eligible"; "statin_use"] r = Num 0)
  /\ (forall fl d df,
        ProcessData.find_file fl d "RXQ_RX" = None ->
        exists df', ProcessData.attach_statin_user fl d df = Ok df'
                    /\ column "statin_user" df' = map (fun _ => Num 0) (rows df))
  /\ (forall fl d df rx l,
        ProcessData.find_file fl d "RXQ_RX" = Some rx ->
        df_empty (load_xpt rx) = false -> has_col SEQN (load_xpt rx) = true ->
        has_col SEQN df = true -> has_col "statin_user" df = false -> aligned df ->
        In l (rows df) -> no_record l (upper_columns (load_xpt rx)) ->
        exists df' j,
          ProcessData.attach_statin_user fl d df = Ok df'
          /\ In j (rows df')
          /\ row_get j "statin_user" = Num 0
          /\ forall c, in_strings c (columns df) = true -> row_get j c = row_get l c)
  /\ (forall df df' r,
        ProcessData.step_statin_info df = Ok df' ->
        (In r (rows df') <-> In r (rows df) /\ isna (row_get r "statin_user") = false)).
Proof.
  split; [exact build_no_file_is_zero |].
  split; [exact build_no_record_is_zero |].
  split.
  { intros r H. unfold BuildCohort.flags_and, cell_and. simpl. rewrite H.
    simpl. now rewrite Z.land_0_r. }
  split; [exact process_no_file_is_zero |].
  split; [exact process_no_record_is_zero |].
  exact statin_step_rows.
Qed.

Lemma no_record_defaults_to_zero_witness :
  exists df',
    BuildCohort.attach_statin_use Posix Samples.dir_no_rx Samples.demo_2005 = Ok df'
    /\ column "statin_use" df' = map (fun _ => Num 0) (rows Samples.demo_2005).
Proof.
  apply (proj1 no_record_defaults_to_zero Posix Samples.dir_no_rx Samples.demo_2005).
  reflexivity.
Defined.

(** ** File resolution *)

Lemma append_cons (a : ascii) (s t : string) :
  String a s +:+ t = String a (s +:+ t).
Proof. reflexivity. Qed.

Lemma length_append (a b : string) :
  String.length (a +:+ b) = String.length a + String.length b.
Proof.
  induction a as [| x a IH]; [reflexivity |].
  rewrite append_cons. simpl. now rewrite IH.
Qed.

Lemma prefix_spec (p s : string) :
  String.prefix p s = true <-> exists b, s = p +:+ b.
Proof.
  revert s. induction p as [| x p IH]; intros s.
  - split; [intros _; exists s; reflexivity | intros _; destruct s; reflexivity].
  - destruct s as [| y s]; simpl.
    + split; [discriminate | intros (b & H); discriminate H].
    + destruct (ascii_dec x y) as [-> | Hne].
      * rewrite IH. split; intros (b & H); exists b.
        -- rewrite append_cons. now rewrite H.
        -- rewrite append_cons in H. now injection H.
      * split; [discriminate |]. intros (b & H). rewrite append_cons in H.
        injection H as H1 _. congruence.
Qed.

Lemma contains_nil (pat : string) :
  contains pat "" = String.prefix pat "".
Proof. unfold contains. apply orb_false_r. Qed.

Lemma contains_cons (pat : string) (c : ascii) (s : string) :
  contains pat (String c s) = String.prefix pat (String c s) || contains pat s.
Proof. reflexivity. Qed.

Lemma contains_spec (pat s : string) :
  contains pat s = true <-> exists a b, s = a +:+ (pat +:+ b).
Proof.
  split.
  - induction s as [| c s IH]; intros H.
    + rewrite contains_nil in H. apply prefix_spec in H.
      destruct H as (b & ->). exists "", b. reflexivity.
    + rewrite contains_cons in H. apply orb_true_iff in H. destruct H as [H | H].
      * apply prefix_spec in H. destruct H as (b & ->). exists "", b. reflexivity.
      * destruct (IH H) as (a & b & ->). exists (String c a), b. reflexivity.
  - intros (a & b & ->). induction a as [| c a IH].
    + assert (Hp : String.prefix pat (pat +:+ b) = true)
        by (apply prefix_spec; eauto).
      change ("" +:+ (pat +:+ b)) with (pat +:+ b).
      destruct (pat +:+ b) as [| y t].
      * rewrite contains_nil. exact Hp.
      * rewrite contains_cons, Hp. reflexivity.
    + rewrite append_cons, contains_cons, IH. apply orb_true_r.
Qed.

Lemma substring_whole_prefix (a b : string) :
  String.substring 0 (String.length a) (a +:+ b) = a.
Proof.
  induction a as [| x a IH].
  - change ("" +:+ b) with b. destruct b; reflexivity.
  - rewrite append_cons. simpl. now rewrite IH.
Qed.

Lemma substring_all (b : string) :
  String.substring 0 (String.length b) b = b.
Proof. induction b as [| y b IH]; simpl; [reflexivity | now rewrite IH]. Qed.

Lemma substring_skip_prefix (a b : string) :
  String.substring (String.length a) (String.length b) (a +:+ b) = b.
Proof.
  induction a as [| x a IH].
  - change ("" +:+ b) with b. apply substring_all.
  - rewrite append_cons. simpl. exact IH.
Qed.

Lemma substring_split (s : string) (n : nat) :
  n <= String.length s ->
  s = String.substring 0 n s +:+ String.substring n (String.length s - n) s.
Proof.
  revert n. induction s as [| c s IH]; intros n Hn; simpl in Hn.
  - assert (n = 0) by lia. subst. reflexivity.
  - destruct n as [| n].
    + rewrite Nat.sub_0_r, substring_all. reflexivity.
    + simpl. rewrite append_cons. f_equal. apply IH. lia.
Qed.

Lemma ends_with_spec (suf s : string) :
  ends_with suf s = true <-> exists a, s = a +:+ suf.
Proof.
  unfold ends_with. split.
  - intros H. apply andb_true_iff in H. destruct H as [Hlen Heq].
    apply Nat.leb_le in Hlen. apply String.eqb_eq in Heq.
    exists (String.substring 0 (String.length s - String.length suf) s).
    pose proof (substring_split s (String.length s - String.length suf)
                  ltac:(lia)) as Hsplit.
    replace (String.length s - (String.length s - String.length suf))
      with (String.length suf) in Hsplit by lia.
    rewrite Heq in Hsplit. exact Hsplit.
  - intros (a & ->). rewrite length_append. apply andb_true_iff. split.
    + apply Nat.leb_le. lia.
    + replace (String.length a + String.length suf - String.length suf)
        with (String.length a) by lia.
      rewrite substring_skip_prefix. apply String.eqb_refl.
Qed.

Lemma glob_contains_spec (fl : flavour) (tok : string) (f : file) :
  glob_contains fl tok (fst f) = true <-> name_has fl tok f.
Proof. unfold glob_contains, name_has. apply contains_spec. Qed.

Lemma glob_contains_ext_spec (fl : flavour) (tok ext : string) (f : file) :
  glob_contains_ext fl tok ext (fst f) = true <-> name_has_ext fl tok ext f.
Proof.
  unfold glob_contains_ext, name_has_ext. split.
  - intros H. apply andb_true_iff in H. destruct H as [He Hc].
    apply ends_with_spec in He. destruct He as (x & Hx).
    rewrite Hx in Hc. rewrite length_append in Hc.
    replace (String.length x + String.length (normcase fl ext)
             - String.length (normcase fl ext)) with (String.length x) in Hc by lia.
    rewrite substring_whole_prefix in Hc. apply contains_spec in Hc.
    destruct Hc as (a & b & ->). exists a, b. exact Hx.
  - intros (a & b & H). rewrite H. apply andb_true_iff. split.
    + apply ends_with_spec. eauto.
    + rewrite length_append.
      replace (String.length (a +:+ (normcase fl tok +:+ b))
               + String.length (normcase fl ext)
               - String.length (normcase fl ext))
        with (String.length (a +:+ (normcase fl tok +:+ b))) by lia.
      rewrite substring_whole_prefix. apply contains_spec. eauto.
Qed.

Lemma head_filter_first_match (p : file -> bool) (P : file -> Prop) (d : directory) :
  (forall f, p f = true <-> P f) ->
  first_match P d (head (List.filter p d)).
Proof.
  intros Hspec. induction d as [| g d IH]; simpl.
  - intros g [].
  - destruct (p g) eqn:Eg; simpl.
    + exists [], d. split; [reflexivity |]. split; [now apply Hspec |].
      intros g' [].
    + assert (Hng : ~ P g) by (intros HP; apply Hspec in HP; congruence).
      destruct (head (List.filter p d)) as [f |]; simpl in *.
      * destruct IH as (pre & post & -> & HP & Hpre).
        exists (g :: pre), post. split; [reflexivity |]. split; [exact HP |].
        intros g' [<- | Hg']; [exact Hng | now apply Hpre].
      * intros g' [<- | Hg']; [exact Hng | now apply IH].
Qed.

Lemma process_find_file_head (fl : flavour) (d : directory) (tok : string) :
  ProcessData.find_file fl d tok
  = match head (ProcessData.glob_ext fl d tok ".XPT") with
    | Some f => Some f
    | None => head (ProcessData.glob_ext fl d tok ".xpt")
    end.
Proof.
  unfold ProcessData.find_file.
  destruct (ProcessData.glob_ext fl d tok ".XPT"); simpl; [| reflexivity].
  destruct (ProcessData.glob_ext fl d tok ".xpt"); reflexivity.
Qed.

(** C7.  The resolvers do not match the token case-insensitively,
    although the processing script documents its resolver as
    case-insensitive.  On POSIX an entry whose name contains the token
    in another letter case is not found by either script, though the
    lower-cased name contains the lower-cased token; only the extension
    is tried in two casings.  Nor is the result always the first entry
    that contains the token: the processing script passes over an
    earlier entry with the lower-case extension for a later one with
    the upper-case extension, and on either platform it does not return
    an entry whose name contains the token but ends with another
    extension. *)
Lemma resolver_is_not_case_insensitive :
  BuildCohort.find_file Posix [("demo_d.xpt", None)] "DEMO" = None
  /\ ProcessData.find_file Posix [("demo_d.xpt", None)] "DEMO" = None
  /\ contains (lower "DEMO") (lower "demo_d.xpt") = true
  /\ ProcessData.find_file Posix
       [("DEMO_D.xpt", Some Samples.demo_2005); ("DEMO_E.XPT", Some Samples.demo_2007)]
       "DEMO"
     = Some ("DEMO_E.XPT", Some Samples.demo_2007)
  /\ ProcessData.find_file Posix [("DEMO_D.txt", None)] "DEMO" = None
  /\ ProcessData.find_file Windows [("DEMO_D.txt", None)] "DEMO" = None.
Proof. repeat split; vm_compute; reflexivity. Qed.

(** What the resolvers do return.  For a literal token, the cohort
    builder's resolver returns the first entry, in scan order, whose
    name contains the token as the platform compares names, and the
    processing script's resolver returns the first entry whose name
    contains the token and ends with ".XPT", or, when there is none, the
    first whose name contains the token and ends with ".xpt".  Each
    returns [None], without an exception, when no entry qualifies. *)
Theorem resolver_returns_first_match (fl : flavour) (d : directory) (tok : string) :
  literal tok = true ->
  first_match (name_has fl tok) d (BuildCohort.find_file fl d tok)
  /\ ((exists f, ProcessData.find_file fl d tok = Some f
                 /\ first_match (name_has_ext fl tok ".XPT") d (Some f))
      \/ (first_match (name_has_ext fl tok ".XPT") d None
          /\ first_match (name_has_ext fl tok ".xpt") d
               (ProcessData.find_file fl d tok))).
Proof.
  intros _. split.
  - unfold BuildCohort.find_file. apply head_filter_first_match.
    intros f. apply glob_contains_spec.
  - rewrite process_find_file_head. unfold ProcessData.glob_ext.
    match goal with
    | |- context [match ?h with Some _ => _ | None => ?h2 end] =>
        assert (HX : first_match (name_has_ext fl tok ".XPT") d h)
          by (apply head_filter_first_match; intros f;
              apply glob_contains_ext_spec);
        assert (Hx : first_match (name_has_ext fl tok ".xpt") d h2)
          by (apply head_filter_first_match; intros f;
              apply glob_contains_ext_spec);
        destruct h as [f |]
    end.
    + left. exists f. split; [reflexivity | exact HX].
    + right. split; [exact HX | exact Hx].
Qed.

Lemma resolver_returns_first_match_witness :
  first_match (name_has Posix "CRP") Samples.dir_2005
    (BuildCohort.find_file Posix Samples.dir_2005 "CRP").
Proof.
  apply (proj1 (resolver_returns_first_match Posix Samples.dir_2005 "CRP" eq_refl)).
Defined.

(** ** The processing script's classifier *)

Lemma cell_eqb_refl (a : cell) : cell_eqb a a = true.
Proof.
  destruct a as [| q | s]; simpl; [reflexivity | | apply String.eqb_refl].
  apply Qeq_bool_iff. reflexivity.
Qed.

Lemma cell_eqb_trans (a b c : cell) :
  cell_eqb a b = true -> cell_eqb b c = true -> cell_eqb a c = true.
Proof.
  destruct a as [| x | s], b as [| y | t], c as [| z | u]; simpl;
    try discriminate; try reflexivity.
  - rewrite !Qeq_bool_iff. intros H1 H2. now rewrite H1.
  - rewrite !String.eqb_eq. congruence.
Qed.

Lemma unique_covers (l : list cell) (x : cell) :
  In x l -> exists y, In y (unique l) /\ cell_eqb x y = true.
Proof.
  induction l as [| c l IH]; simpl; [tauto |].
  intros [-> | H].
  - exists x. split; [now left | apply cell_eqb_refl].
  - destruct (IH H) as (y & Hy & Exy).
    destruct (cell_eqb y c) eqn:Eyc.
    + exists c. split; [now left | now apply (cell_eqb_trans x y c)].
    + exists y. split; [| exact Exy]. right. apply filter_In.
      split; [exact Hy | now rewrite Eyc].
Qed.

Lemma isin_scan (cols : list string) (hit : string -> row -> bool)
    (df : DataFrame) (k : cell) :
  isin k (ProcessData.scan cols hit df) = true <->
  exists m, In m (rows df) /\ cell_eqb k (row_get m SEQN) = true
            /\ existsb (fun col => has_col col df && hit col m) cols = true.
Proof.
  unfold isin, ProcessData.scan. rewrite existsb_exists. split.
  - intros (x & Hx & Ek). apply in_flat_map in Hx. destruct Hx as (col & Hcol & Hx).
    destruct (has_col col df) eqn:Ec; [| destruct Hx].
    apply in_map_iff in Hx. destruct Hx as (m & <- & Hm).
    apply filter_In in Hm. destruct Hm as [Hm Hhit].
    exists m. split; [exact Hm |]. split; [exact Ek |].
    apply existsb_exists. exists col. split; [exact Hcol |]. now rewrite Ec, Hhit.
  - intros (m & Hm & Ek & Hex). apply existsb_exists in Hex.
    destruct Hex as (col & Hcol & Hh). apply andb_true_iff in Hh.
    destruct Hh as [Ec Hhit]. exists (row_get m SEQN). split; [| exact Ek].
    apply in_flat_map. exists col. split; [exact Hcol |]. rewrite Ec.
    apply in_map_iff. exists m. split; [reflexivity |].
    apply filter_In. now split.
Qed.

Lemma process_identify_unfold (rx : DataFrame) :
  df_empty rx = false -> has_col SEQN rx = true ->
  ProcessData.identify_statin_users rx
  = mkDF [SEQN; "statin_user"]
      (map (fun k =>
              [(SEQN, k);
               ("statin_user",
                of_bool (isin k
                  (ProcessData.scan ProcessData.drug_name_cols ProcessData.name_match
                     (upper_columns rx)
                   ++ ProcessData.scan ProcessData.class_cols ProcessData.class_match
                        (upper_columns rx))%list))])
           (unique (map (fun r => row_get r SEQN) (rows (upper_columns rx))))).
Proof.
  intros He Hs. unfold ProcessData.identify_statin_users. now rewrite He, Hs.
Qed.

Lemma isin_app (k : cell) (l1 l2 : list cell) :
  isin k (l1 ++ l2) = isin k l1 || isin k l2.
Proof. unfold isin. apply existsb_app. Qed.

Lemma of_bool_one (b : bool) : of_bool b = Num 1 <-> b = true.
Proof. destruct b; simpl; split; intros H; try reflexivity; discriminate H. Qed.

(** The processing script's classifier, on a readable, non-empty table
    with a participant key: every participant of the table has an output
    row, and an output row is flagged 1 exactly when some medication row
    of that participant matches by name or by class code. *)
Lemma process_statin_flag_iff (rx : DataFrame) :
  df_empty rx = false -> has_col SEQN rx = true ->
  let u := upper_columns rx in
  let t := ProcessData.identify_statin_users rx in
  (forall m, In m (rows u) ->
             exists r, In r (rows t)
                       /\ cell_eqb (row_get m SEQN) (row_get r SEQN) = true)
  /\ (forall r, In r (rows t) ->
        (row_get r "statin_user" = Num 0 \/ row_get r "statin_user" = Num 1)
        /\ (row_get r "statin_user" = Num 1 <->
            exists m, In m (rows u)
                      /\ cell_eqb (row_get r SEQN) (row_get m SEQN) = true
                      /\ statin_row u m = true)).
Proof.
  intros He Hs u t. subst t. rewrite (process_identify_unfold rx He Hs).
  fold u. cbn [rows]. split.
  - intros m Hm.
    destruct (unique_covers (map (fun r => row_get r SEQN) (rows u))
                (row_get m SEQN)) as (y & Hy & Ey).
    { apply in_map_iff. eauto. }
    eexists. split; [apply in_map_iff; exists y; split; [reflexivity | exact Hy] |].
    exact Ey.
  - intros r Hr. apply in_map_iff in Hr. destruct Hr as (k & <- & _).
    change (row_get [(SEQN, k); ("statin_user", ?v)] "statin_user") with v.
    change (row_get [(SEQN, k); ("statin_user", ?v)] SEQN) with k.
    split; [apply of_bool_cases |].
    rewrite of_bool_one, isin_app, orb_true_iff, !isin_scan.
    unfold statin_row. split.
    + intros [(m & Hm & Ek & Hex) | (m & Hm & Ek & Hex)];
        exists m; rewrite Hex; repeat split; auto. apply orb_true_r.
    + intros (m & Hm & Ek & Hrow). apply orb_true_iff in Hrow.
      destruct Hrow as [Hrow | Hrow]; [left | right]; eauto.
Qed.

(** ** The rescaled marker after concatenation *)

Lemma in_strings_filter_ne (c x : string) (l : list string) :
  String.eqb c x = false ->
  in_strings c (List.filter (fun y => negb (String.eqb y x)) l) = in_strings c l.
Proof.
  intros Hne. unfold in_strings. induction l as [| y l IH]; simpl; [reflexivity |].
  destruct (String.eqb y x) eqn:Eyx; simpl.
  - apply String.eqb_eq in Eyx. subst y. now rewrite Hne.
  - now rewrite IH.
Qed.

Lemma in_strings_dedup (c : string) (l : list string) :
  in_strings c (dedup_labels l) = in_strings c l.
Proof.
  induction l as [| x l IH]; simpl; [reflexivity |].
  unfold in_strings in *. simpl.
  destruct (String.eqb c x) eqn:E; simpl; [reflexivity |].
  fold (in_strings c (List.filter (fun y => negb (String.eqb y x)) (dedup_labels l))).
  rewrite in_strings_filter_ne by exact E. exact IH.
Qed.

Lemma row_get_relaid (g : string -> cell) (cols : list string) (c : string) :
  in_strings c cols = true ->
  row_get (map (fun x => (x, g x)) cols) c = g c.
Proof.
  unfold in_strings. induction cols as [| x cols IH]; simpl; [discriminate |].
  destruct (String.eqb c x) eqn:E; simpl.
  - intros _. apply String.eqb_eq in E. now subst.
  - exact IH.
Qed.

Lemma column_relaid (c : string) (cols : list string) (frames : list DataFrame) :
  in_strings c cols = true ->
  map (fun r => row_get r c)
      (flat_map (fun df =>
         map (fun r => map (fun x => (x, get_or df x NaN r)) cols) (rows df))
         frames)
  = flat_map (fun df => map (get_or df c NaN) (rows df)) frames.
Proof.
  intros Hc. induction frames as [| df frames IH]; [reflexivity |].
  simpl. rewrite List.map_app. f_equal; [| exact IH].
  rewrite List.map_map. apply map_ext. intros r.
  now apply (row_get_relaid (fun x => get_or df x NaN r)).
Qed.

(** A column of the concatenation is the column of each table in turn,
    missing for the tables that lack it. *)
Lemma column_concat (c : string) (frames : list DataFrame) :
  in_strings c (flat_map columns frames) = true ->
  column c (concat frames)
  = flat_map (fun df => map (get_or df c NaN) (rows df)) frames.
Proof.
  intros Hc. unfold column, concat. cbn [rows].
  apply column_relaid. now rewrite in_strings_dedup.
Qed.

Lemma has_col_alias_other (new old c : string) (f : cell -> cell) (df : DataFrame) :
  String.eqb c new = false ->
  has_col c (BuildCohort.alias_col new old f df) = has_col c df.
Proof.
  intros H. unfold BuildCohort.alias_col.
  destruct (has_col old df && negb (has_col new df)); [| reflexivity].
  now apply has_col_set_col_other.
Qed.

Lemma harmonize_names_has_marker (df : DataFrame) :
  has_col "LBXCRP" df = true -> has_col "LBXHSCRP" df = false ->
  has_col "LBXHSCRP" (BuildCohort.harmonize_names df) = true.
Proof.
  intros Hold Hnew. unfold BuildCohort.harmonize_names.
  rewrite !has_col_alias_other by reflexivity.
  unfold BuildCohort.alias_col. rewrite Hold, Hnew. simpl.
  apply has_col_set_col_same.
Qed.

(** The cohort builder: whatever cycles surround it, a cycle that has
    the older marker only contributes ten times its raw values to the
    canonical column of the combined table. *)
Lemma old_marker_rescaled_in_combined (pre post : list DataFrame) (df : DataFrame) :
  has_col "LBXCRP" df = true -> has_col "LBXHSCRP" df = false ->
  let marker := fun d => map (get_or d "LBXHSCRP" NaN) (rows d) in
  column "hscrp"
    (BuildCohort.derive_hscrp
       (concat (pre ++ BuildCohort.harmonize_names df :: post)))
  = (flat_map marker pre
     ++ map (fun r => cell_mul (row_get r "LBXCRP") 10) (rows df)
     ++ flat_map marker post)%list.
Proof.
  intros Hold Hnew marker.
  pose proof (harmonize_names_has_marker df Hold Hnew) as Hhas.
  set (frames := (pre ++ BuildCohort.harmonize_names df :: post)%list).
  assert (Hin : in_strings "LBXHSCRP" (flat_map columns frames) = true).
  { apply in_strings_true. apply in_flat_map.
    exists (BuildCohort.harmonize_names df). split.
    - unfold frames. apply in_or_app. right. now left.
    - now apply in_strings_true. }
  unfold BuildCohort.derive_hscrp. rewrite column_set_col_same.
  assert (Hc : has_col "LBXHSCRP" (concat frames) = true).
  { unfold has_col, concat. cbn [columns]. now rewrite in_strings_dedup. }
  transitivity (column "LBXHSCRP" (concat frames)).
  { unfold column. apply map_ext. intros r. unfold get_or. now rewrite Hc. }
  rewrite (column_concat _ _ Hin). unfold frames.
  rewrite flat_map_app. cbn [flat_map]. f_equal. f_equal.
  rewrite <- (old_marker_rescaled_per_cycle df Hold Hnew).
  unfold column. apply map_ext. intros r. unfold get_or. now rewrite Hhas.
Qed.

(** * Further properties of the two scripts *)

(** A row of [set_col c f df] comes from a row of [df]: it holds [f] of
    that row under [c] and that row's cells everywhere else. *)
Lemma in_rows_set_col (c : string) (f : row -> cell) (df : DataFrame) (r' : row) :
  In r' (rows (set_col c f df)) ->
  exists r, In r (rows df)
            /\ row_get r' c = f r
            /\ forall c', String.eqb c' c = false -> row_get r' c' = row_get r c'.
Proof.
  rewrite rows_set_col. intros H. apply in_map_iff in H.
  destruct H as (r & <- & Hr). exists r. split; [exact Hr |]. split.
  - apply row_get_set_eq.
  - intros c' Hc'. now apply row_get_set_ne.
Qed.

(** Steps back through the last column assignment of a table. *)
Ltac step_back H :=
  apply in_rows_set_col in H;
  let r := fresh "r" in
  let Hv := fresh "Hv" in
  let Ho := fresh "Ho" in
  destruct H as (r & H & Hv & Ho); cbv beta in Hv.

(** Reads every cell at the row the assignments started from. *)
Ltac read_back :=
  repeat match goal with
         | Hv : row_get ?r ?c = _ |- context [row_get ?r ?c] => rewrite Hv
         | Ho : forall c', String.eqb c' ?c = false -> row_get ?r c' = _
           |- context [row_get ?r ?c'] => rewrite (Ho c' eq_refl)
         end.

Lemma truthy_of_bool (b : bool) : truthy (of_bool b) = b.
Proof. destruct b; reflexivity. Qed.

Lemma int_of_of_bool (b : bool) : int_of (of_bool b) = Z.b2z b.
Proof. destruct b; reflexivity. Qed.

Lemma of_bool_b2z (b : bool) : Num (inject_Z (Z.b2z b)) = of_bool b.
Proof. destruct b; reflexivity. Qed.

(** A 0/1 flag [&] an int64 value keeps the value's lowest bit. *)
Lemma cell_and_of_bool_l (a : bool) (c : cell) :
  cell_and (of_bool a) c = of_bool (a && lowest_bit c).
Proof.
  unfold cell_and, lowest_bit. rewrite int_of_of_bool, <- of_bool_b2z.
  do 2 f_equal. destruct a; simpl Z.b2z.
  - rewrite Z.land_comm. change 1%Z with (Z.ones 1).
    rewrite Z.land_ones by lia. change (2 ^ 1)%Z with 2%Z.
    now rewrite <- Z.bit0_mod, Z.bit0_odd.
  - now rewrite Z.land_0_l.
Qed.

Lemma lowest_bit_of_bool (b : bool) : lowest_bit (of_bool b) = b.
Proof. destruct b; reflexivity. Qed.

Lemma cell_and_of_bool (a b : bool) :
  cell_and (of_bool a) (of_bool b) = of_bool (a && b).
Proof. now rewrite cell_and_of_bool_l, lowest_bit_of_bool. Qed.

(** Outside the columns assigned since, a row holds what it held. *)
Ltac keep_outside :=
  let c := fresh "c" in
  let Hc := fresh "Hc" in
  intros c Hc; unfold in_strings in Hc; cbn [existsb] in Hc;
  repeat (apply orb_false_iff in Hc;
          let Hne := fresh "Hne" in destruct Hc as [Hne Hc]);
  repeat match goal with
         | Ho : forall c', String.eqb c' ?k = false -> row_get ?r c' = _
           |- context [row_get ?r c] => rewrite (Ho c) by assumption
         end;
  reflexivity.

Ltac flatten_and :=
  repeat match goal with H : _ /\ _ |- _ => destruct H end.

(** ** Friedewald LDL in the cohort builder *)

(** Whenever [compute_ldl_friedewald] yields a value, the three inputs
    were present, triglycerides were below 400, and the value is the
    Friedewald estimate, which is not negative. *)
Theorem friedewald_value_sound (tchol hdl trigly : cell) (v : Q) :
  BuildCohort.compute_ldl_friedewald tchol hdl trigly = Num v ->
  exists tc h tg,
    tchol = Num tc /\ hdl = Num h /\ trigly = Num tg
    /\ (tg < 400)%Q /\ v = (tc - h - tg / 5)%Q /\ (0 <= v)%Q.
Proof.
  unfold BuildCohort.compute_ldl_friedewald.
  destruct tchol as [| tc |], hdl as [| h |], trigly as [| tg |]; simpl;
    try discriminate;
    try (destruct (Qle_bool 400 _); discriminate).
  destruct (Qle_bool 400 tg) eqn:Etg; simpl; [discriminate |].
  destruct (Qle_bool 0 (tc - h - tg / 5)) eqn:Epos; simpl; [| discriminate].
  intros [= <-]. exists tc, h, tg. repeat split.
  - now apply Qle_bool_false_lt.
  - now apply Qle_bool_iff.
Qed.

Lemma friedewald_value_sound_witness :
  exists tc h tg,
    Num 200 = Num tc /\ Num 50 = Num h /\ Num 150 = Num tg
    /\ (tg < 400)%Q /\ (200 - 50 - 150 / 5 = tc - h - tg / 5)%Q
    /\ (0 <= 200 - 50 - 150 / 5)%Q.
Proof.
  apply (friedewald_value_sound (Num 200) (Num 50) (Num 150)
           (200 - 50 - 150 / 5)%Q).
  reflexivity.
Defined.

(** ** Smoking status *)

(** On a table that has both smoking answers, the two scripts classify
    every record alike: the processing script's status is the cohort
    builder's status in the other coding, missing where that is missing. *)
Theorem smoking_status_agrees (df : DataFrame) (r : row) :
  has_col "SMQ020" df = true -> has_col "SMQ040" df = true ->
  ProcessData.smoking_status r
  = smoking_recode (BuildCohort.define_smoking_status df r).
Proof.
  intros H1 H2.
  unfold ProcessData.smoking_status, BuildCohort.define_smoking_status, get_or.
  rewrite H1, H2.
  destruct (cell_eq_num (row_get r "SMQ020") 2),
    (cell_eq_num (row_get r "SMQ020") 1),
    (cell_eq_num (row_get r "SMQ040") 1),
    (cell_eq_num (row_get r "SMQ040") 2),
    (cell_eq_num (row_get r "SMQ040") 3); reflexivity.
Qed.

Lemma smoking_status_agrees_witness :
  ProcessData.smoking_status [("SEQN", Num 2); ("SMQ020", Num 1); ("SMQ040", Num 3)]
  = smoking_recode
      (BuildCohort.define_smoking_status Samples.smq_2005
         [("SEQN", Num 2); ("SMQ020", Num 1); ("SMQ040", Num 3)]).
Proof.
  apply (smoking_status_agrees Samples.smq_2005); reflexivity.
Defined.

(** ** Sequencing *)

Lemma bind_ok {A B : Type} (m : result A) (k : A -> result B) (b : B) :
  m ≫= k = Ok b -> exists a, m = Ok a /\ k a = Ok b.
Proof. destruct m as [a | e]; simpl; [eauto | discriminate]. Qed.

Lemma require_ok (c : string) (df d : DataFrame) :
  require c df = Ok d -> d = df /\ has_col c df = true.
Proof.
  unfold require. destruct (has_col c df); [| discriminate].
  intros [= <-]. auto.
Qed.

Lemma int_operand_ok (c : string) (df d : DataFrame) :
  int_operand c df = Ok d -> d = df.
Proof.
  unfold int_operand.
  destruct (is_float c df && existsb (fun r => notna (row_get r c)) (rows df));
    [discriminate | now intros [= <-]].
Qed.

(** Splits a successful run into its successful steps. *)
Ltac run_steps H :=
  repeat (apply bind_ok in H;
          let a := fresh "a" in
          let E := fresh "E" in
          destruct H as (a & E & H);
          try (apply require_ok in E; destruct E as [-> E]);
          try (apply int_operand_ok in E; subst a)).

(** ** Cohort flags of the cohort builder *)

Lemma build_analytic_cohort_shape (df df' : DataFrame) :
  BuildCohort.build_analytic_cohort df = Ok df' ->
  exists w x y, BuildCohort.derive_design w = Ok x
                /\ BuildCohort.derive_eligibility (BuildCohort.derive_clinical x) = Ok y
                /\ df' = BuildCohort.derive_rir y.
Proof.
  unfold BuildCohort.build_analytic_cohort. intros H. run_steps H.
  injection H as <-. eauto 6.
Qed.

Lemma cell_lt_present (c : cell) (q : Q) : cell_lt c q = true -> notna c = true.
Proof. destruct c; simpl; intros H; try discriminate H; reflexivity. Qed.

Lemma cell_le_present (c : cell) (q : Q) : cell_le c q = true -> notna c = true.
Proof. destruct c; simpl; intros H; try discriminate H; reflexivity. Qed.

Lemma cell_ge_weaken (c : cell) (p q : Q) :
  (q <= p)%Q -> cell_ge c p = true -> cell_ge c q = true.
Proof.
  intros Hqp. destruct c as [| x |]; simpl; try discriminate.
  rewrite !Qle_bool_iff. intros H. now apply (Qle_trans _ p).
Qed.

Lemma cell_lt_weaken (c : cell) (p q : Q) :
  (p <= q)%Q -> cell_lt c p = true -> cell_lt c q = true.
Proof.
  intros Hpq. destruct c as [| x |]; simpl; try discriminate.
  rewrite !negb_true_iff, !Qle_bool_false_lt. intros H.
  now apply (Qlt_le_trans _ p).
Qed.

(** *** The blocks of [build_analytic_cohort], row by row *)

Lemma derive_design_row (w x : DataFrame) (r' : row) :
  BuildCohort.derive_design w = Ok x -> In r' (rows x) ->
  row_get r' "in_fasting_subsample"
  = of_bool (notna (row_get r' "fasting_weight")).
Proof.
  intros Hx Hin. unfold BuildCohort.derive_design in Hx. cbv zeta in Hx.
  run_steps Hx. injection Hx as <-.
  repeat (lazymatch type of Hin with
          | In _ (rows (set_col "fasting_weight" _ _)) => fail
          | _ => step_back Hin
          end).
  read_back. reflexivity.
Qed.

Lemma derive_clinical_row (x : DataFrame) (r' : row) :
  In r' (rows (BuildCohort.derive_clinical x)) ->
  exists r, In r (rows x)
            /\ forall c,
                in_strings c ["bmi"; "bmi_cat"; "obesity"; "hypertension";
                              "diabetes"; "hba1c"; "fasting_glucose";
                              "smoking_status"; "current_smoker"; "cvd_history"]
                = false ->
                row_get r' c = row_get r c.
Proof.
  intros Hin. unfold BuildCohort.derive_clinical in Hin. cbv zeta in Hin.
  repeat step_back Hin.
  eexists. split; [exact Hin | keep_outside].
Qed.

Lemma derive_eligibility_row (z y : DataFrame) (r' : row) :
  BuildCohort.derive_eligibility z = Ok y -> In r' (rows y) ->
  exists r, In r (rows z)
    /\ row_get r' "eligible"
        = cell_and (cell_and (cell_and (cell_and
            (of_bool (cell_ge (row_get r "age") 20))
            (row_get r "in_fasting_subsample"))
            (of_bool (notna (row_get r "hscrp"))))
            (of_bool (notna (row_get r "ldl"))))
            (of_bool (cell_le (row_get r "hscrp") 10))
    /\ row_get r' "statin_eligible"
        = cell_and (row_get r' "eligible") (row_get r "statin_use")
    /\ forall c,
        in_strings c ["age_eligible"; "fasting_eligible"; "crp_available";
                      "ldl_available"; "crp_valid"; "eligible"; "statin_eligible"]
        = false ->
        row_get r' c = row_get r c.
Proof.
  intros Hy Hin. unfold BuildCohort.derive_eligibility in Hy. cbv zeta in Hy.
  run_steps Hy. injection Hy as <-.
  repeat step_back Hin.
  unfold BuildCohort.flags_and in *. cbn [map fold_left] in *.
  eexists. split; [exact Hin |]. split; [| split].
  - read_back. reflexivity.
  - read_back. reflexivity.
  - keep_outside.
Qed.

Lemma derive_rir_row (y : DataFrame) (r' : row) :
  In r' (rows (BuildCohort.derive_rir y)) ->
  exists r, In r (rows y)
    /\ row_get r' "primary_cohort"
        = cell_and (row_get r "statin_eligible")
                   (of_bool (cell_lt (row_get r "ldl") 70))
    /\ row_get r' "rir"
        = cell_and (row_get r' "primary_cohort")
                   (of_bool (cell_ge (row_get r "hscrp") 2))
    /\ row_get r' "rir_crp3"
        = of_bool (truthy (cell_and (row_get r' "primary_cohort")
                                    (of_bool (cell_ge (row_get r "hscrp") 3))))
    /\ row_get r' "rir_ldl55"
        = cell_and (cell_and (row_get r "statin_eligible")
                             (of_bool (cell_lt (row_get r "ldl") 55)))
                   (of_bool (cell_ge (row_get r "hscrp") 2))
    /\ forall c,
        in_strings c ["ldl_lt70"; "primary_cohort"; "crp_elevated"; "rir";
                      "rir_crp3"; "ldl_lt55"; "cohort_ldl55"; "rir_ldl55"]
        = false ->
        row_get r' c = row_get r c.
Proof.
  intros Hin. unfold BuildCohort.derive_rir in Hin. cbv zeta in Hin.
  repeat step_back Hin.
  unfold BuildCohort.flags_and in *. cbn [map fold_left] in *.
  eexists. split; [exact Hin |]. repeat split.
  - read_back. reflexivity.
  - read_back. reflexivity.
  - read_back. reflexivity.
  - read_back. reflexivity.
  - keep_outside.
Qed.

(** The flags of the cohort builder, read at a row of the table it
    returns.  The residual-risk flag is 1 exactly for an adult with a
    fasting weight, a statin flag whose lowest bit is set (the flags are
    combined bit by bit), LDL below 70 and a marker from 2 to 10; the
    two sensitivity outcomes imply it; and the flags are nested:
    residual risk within the primary cohort, within the eligible statin
    users, within the eligible. *)
Theorem build_rir_flag_characterised (df df' : DataFrame) (r' : row) :
  BuildCohort.build_analytic_cohort df = Ok df' ->
  In r' (rows df') ->
  (row_get r' "rir" = Num 1 <->
   cell_ge (row_get r' "age") 20 = true
   /\ notna (row_get r' "fasting_weight") = true
   /\ lowest_bit (row_get r' "statin_use") = true
   /\ cell_lt (row_get r' "ldl") 70 = true
   /\ cell_ge (row_get r' "hscrp") 2 = true
   /\ cell_le (row_get r' "hscrp") 10 = true)
  /\ (row_get r' "rir_crp3" = Num 1 -> row_get r' "rir" = Num 1)
  /\ (row_get r' "rir_ldl55" = Num 1 -> row_get r' "rir" = Num 1)
  /\ (row_get r' "rir" = Num 1 -> row_get r' "primary_cohort" = Num 1)
  /\ (row_get r' "primary_cohort" = Num 1 -> row_get r' "statin_eligible" = Num 1)
  /\ (row_get r' "statin_eligible" = Num 1 -> row_get r' "eligible" = Num 1).
Proof.
  intros Hb Hin.
  destruct (build_analytic_cohort_shape df df' Hb) as (w & x & y & Hx & Hy & ->).
  destruct (derive_rir_row y r' Hin) as (r1 & H1 & Epc & Erir & Er3 & Er55 & K1).
  destruct (derive_eligibility_row _ y r1 Hy H1) as (r2 & H2 & Eel & Ese & K2).
  destruct (derive_clinical_row x r2 H2) as (r3 & H3 & K3).
  pose proof (derive_design_row w x r3 Hx H3) as Efs.
  rewrite Erir, Er3, Er55, Epc.
  rewrite (K1 "statin_eligible" eq_refl), (K1 "eligible" eq_refl), Ese, Eel.
  rewrite (K3 "in_fasting_subsample" eq_refl), Efs.
  rewrite ?(K1 "age" eq_refl), ?(K1 "fasting_weight" eq_refl),
    ?(K1 "statin_use" eq_refl), ?(K1 "ldl" eq_refl), ?(K1 "hscrp" eq_refl).
  rewrite ?(K2 "age" eq_refl), ?(K2 "fasting_weight" eq_refl),
    ?(K2 "statin_use" eq_refl), ?(K2 "ldl" eq_refl), ?(K2 "hscrp" eq_refl).
  rewrite ?(K3 "age" eq_refl), ?(K3 "fasting_weight" eq_refl),
    ?(K3 "statin_use" eq_refl), ?(K3 "ldl" eq_refl), ?(K3 "hscrp" eq_refl).
  clear. rename r3 into old.
  repeat (rewrite cell_and_of_bool || rewrite cell_and_of_bool_l).
  rewrite ?truthy_of_bool, !of_bool_one, !andb_true_iff.
  pose proof (cell_lt_present (row_get old "ldl") 70) as HL.
  pose proof (cell_le_present (row_get old "hscrp") 10) as HC.
  pose proof (cell_ge_weaken (row_get old "hscrp") 3 2 ltac:(discriminate)) as H32.
  pose proof (cell_lt_weaken (row_get old "ldl") 55 70 ltac:(discriminate)) as H57.
  repeat split; intros; flatten_and; repeat split; auto.
Qed.

Lemma build_rir_flag_characterised_witness :
  row_get (hd [] (rows (returned (BuildCohort.build_analytic_cohort
     (returned (BuildCohort.process_cycle Posix "2005-2006"
                  (Some Samples.dir_2005))))))) "rir" = Num 1
  <-> row_get (hd [] (rows (returned (BuildCohort.build_analytic_cohort
     (returned (BuildCohort.process_cycle Posix "2005-2006"
                  (Some Samples.dir_2005))))))) "primary_cohort" = Num 1.
Proof.
  set (df := returned (BuildCohort.process_cycle Posix "2005-2006"
                         (Some Samples.dir_2005))).
  set (df' := returned (BuildCohort.build_analytic_cohort df)).
  assert (Hb : BuildCohort.build_analytic_cohort df = Ok df')
    by (vm_compute; reflexivity).
  assert (Hin : In (hd [] (rows df')) (rows df'))
    by (vm_compute; left; reflexivity).
  split.
  - exact (proj1 (proj2 (proj2 (proj2
             (build_rir_flag_characterised df df' (hd [] (rows df')) Hb Hin))))).
  - intros _. vm_compute. reflexivity.
Defined.

(** ** The cohort of the processing script *)

Lemma summary_ok (b : bool) (df df' : DataFrame) :
  ProcessData.summary b df = Ok df' -> df' = df.
Proof.
  unfold ProcessData.summary.
  destruct (b && (0 <? len df)%nat); [discriminate | now intros [= <-]].
Qed.

Lemma filter_rows_twice (p q : row -> bool) (df : DataFrame) :
  ProcessData.filter_rows q (ProcessData.filter_rows p df)
  = ProcessData.filter_rows (fun r => p r && q r) df.
Proof.
  unfold ProcessData.filter_rows. simpl. f_equal.
  induction (rows df) as [| r rs IH]; simpl; [reflexivity |].
  destruct (p r); simpl; [destruct (q r); simpl; now rewrite IH | exact IH].
Qed.

Lemma has_col_filter_rows (c : string) (p : row -> bool) (df : DataFrame) :
  has_col c (ProcessData.filter_rows p df) = has_col c df.
Proof. reflexivity. Qed.

(** The seven steps of [create_rir_cohort] are one conjunctive filter:
    when the function returns, its table is the flagged table of the
    rows that meet every criterion, in their order, the seven input
    columns existed, and no step let the table grow. *)
Theorem cohort_is_one_filter (df df' : DataFrame) :
  ProcessData.create_rir_cohort df = Ok df' ->
  df' = ProcessData.rir_flags (ProcessData.filter_rows meets_criteria df)
  /\ (forall c, In c cohort_inputs -> has_col c df = true)
  /\ len df' <= len df.
Proof.
  intros H. unfold ProcessData.create_rir_cohort in H. cbv zeta in H.
  unfold ProcessData.step_statin_info in H. run_steps H.
  apply summary_ok in H. subst df'.
  match goal with
  | E : require "statin_user" _ ≫= _ = Ok _ |- _ => run_steps E; injection E as <-
  end.
  unfold ProcessData.step_design, ProcessData.step_fasting_weight,
    ProcessData.step_ldl, ProcessData.step_crp_le10,
    ProcessData.step_crp_present, ProcessData.step_age in *.
  rewrite !has_col_filter_rows in *.
  rewrite !filter_rows_twice.
  split; [| split].
  - f_equal. unfold ProcessData.filter_rows. f_equal.
    apply filter_ext. intros r. unfold meets_criteria.
    now rewrite !andb_assoc.
  - intros c Hc. simpl in Hc.
    repeat (destruct Hc as [<- | Hc]; [assumption |]). destruct Hc.
  - unfold len, ProcessData.rir_flags. rewrite !rows_set_col, !length_map.
    unfold ProcessData.filter_rows. simpl. apply filter_length_le.
Qed.

Lemma cohort_is_one_filter_witness :
  returned (ProcessData.create_rir_cohort
              (returned (ProcessData.harmonize_variables
                 (returned (combined Posix (Samples.only "2005-2006" Samples.dir_2005))))))
  = ProcessData.rir_flags
      (ProcessData.filter_rows meets_criteria
         (returned (ProcessData.harmonize_variables
            (returned (combined Posix (Samples.only "2005-2006" Samples.dir_2005)))))).
Proof.
  apply (cohort_is_one_filter
           (returned (ProcessData.harmonize_variables
              (returned (combined Posix (Samples.only "2005-2006" Samples.dir_2005)))))).
  vm_compute. reflexivity.
Defined.

Lemma eq_one_of_bool (b : bool) : cell_eq_num (of_bool b) 1 = b.
Proof. destruct b; reflexivity. Qed.

Lemma cell_lt_le (c : cell) (q : Q) : cell_lt c q = true -> cell_le c q = true.
Proof.
  destruct c as [| x |]; simpl; try discriminate.
  rewrite negb_true_iff, Qle_bool_false_lt, Qle_bool_iff. apply Qlt_le_weak.
Qed.

Lemma cell_le_not_lt_eq (c : cell) (q : Q) :
  cell_le c q = true -> cell_lt c q = false -> cell_eq_num c q = true.
Proof.
  destruct c as [| x |]; simpl; try discriminate.
  rewrite negb_false_iff, !Qle_bool_iff, Qeq_bool_iff.
  intros H1 H2. now apply Qle_antisym.
Qed.

Lemma ldl_category_below_70 (c : cell) :
  cell_lt c 70 = true -> ProcessData.ldl_category c = Num 1.
Proof.
  intros H. unfold ProcessData.ldl_category.
  pose proof (cell_lt_present c 70 H) as Hp. unfold notna in Hp.
  apply negb_true_iff in Hp. rewrite Hp.
  now rewrite (cell_lt_le c 70 H).
Qed.

Lemma ldl_category_lowest (c : cell) :
  ProcessData.ldl_category c = Num 1 -> cell_le c 70 = true.
Proof.
  unfold ProcessData.ldl_category.
  destruct (isna c); [discriminate |].
  destruct (cell_le c 70); [reflexivity |].
  destruct (cell_le c 130); discriminate.
Qed.

Lemma of_bool_zero (b : bool) : of_bool b = Num 0 -> b = false.
Proof. destruct b; [discriminate | reflexivity]. Qed.

(** The outcome flags of the processing script, read at a row of the
    flagged table.  The residual-risk flag is 1 exactly for a statin
    user with LDL below 70 and a marker of at least 2; the stricter
    marker threshold and the lower LDL threshold each imply it; LDL
    below 70 lies in the lowest LDL category, and the only record of
    that category not flagged as below 70 has an LDL of exactly 70. *)
Theorem process_rir_flag_characterised (df : DataFrame) (r' : row) :
  In r' (rows (ProcessData.rir_flags df)) ->
  (row_get r' "rir" = Num 1 <->
   cell_eq_num (row_get r' "statin_user") 1 = true
   /\ cell_lt (row_get r' "ldl_calc") 70 = true
   /\ cell_ge (row_get r' "hscrp") 2 = true)
  /\ (row_get r' "rir_strict" = Num 1 -> row_get r' "rir" = Num 1)
  /\ (row_get r' "rir_ldl55" = Num 1 -> row_get r' "rir" = Num 1)
  /\ (row_get r' "ldl_under_70" = Num 1 -> row_get r' "ldl_cat" = Num 1)
  /\ (row_get r' "ldl_cat" = Num 1 -> row_get r' "ldl_under_70" = Num 0 ->
      cell_eq_num (row_get r' "ldl_calc") 70 = true).
Proof.
  intros Hin. unfold ProcessData.rir_flags in Hin. repeat step_back Hin.
  read_back. rewrite ?eq_one_of_bool, !of_bool_one.
  match goal with H : In ?r (rows df) |- _ => set (old := r) in * end.
  clearbody old. clear.
  pose proof (cell_ge_weaken (row_get old "hscrp") 3 2 ltac:(discriminate)) as H32.
  pose proof (cell_lt_weaken (row_get old "ldl_calc") 55 70 ltac:(discriminate)) as H57.
  rewrite !andb_true_iff.
  repeat split; try tauto.
  - apply ldl_category_below_70.
  - intros H1 H0. apply cell_le_not_lt_eq.
    + now apply ldl_category_lowest.
    + now apply of_bool_zero.
Qed.

Lemma process_rir_flag_characterised_witness :
  row_get (nth 0 (rows (ProcessData.rir_flags Samples.cohort_three)) []) "rir" = Num 1
  /\ row_get (nth 0 (rows (ProcessData.rir_flags Samples.cohort_three)) []) "ldl_cat"
     = Num 1
  /\ cell_eq_num
       (row_get (nth 1 (rows (ProcessData.rir_flags Samples.cohort_three)) []) "ldl_calc")
       70 = true.
Proof.
  assert (H0 : In (nth 0 (rows (ProcessData.rir_flags Samples.cohort_three)) [])
                  (rows (ProcessData.rir_flags Samples.cohort_three)))
    by (vm_compute; auto).
  assert (H1 : In (nth 1 (rows (ProcessData.rir_flags Samples.cohort_three)) [])
                  (rows (ProcessData.rir_flags Samples.cohort_three)))
    by (vm_compute; auto).
  destruct (process_rir_flag_characterised Samples.cohort_three _ H0)
    as (Hrir & Hstrict & _ & Hcat & _).
  destruct (process_rir_flag_characterised Samples.cohort_three _ H1)
    as (_ & _ & _ & _ & Hedge).
  split; [| split].
  - apply Hstrict. vm_compute. reflexivity.
  - apply Hcat. vm_compute. reflexivity.
  - apply Hedge; vm_compute; reflexivity.
Defined.

(** * The outcome of the derivation functions *)

(** ** The outcome of [create_rir_cohort] *)

Lemma len_set_col (c : string) (f : row -> cell) (df : DataFrame) :
  len (set_col c f df) = len df.
Proof. unfold len. rewrite rows_set_col. apply length_map. Qed.

Lemma len_rir_flags (df : DataFrame) : len (ProcessData.rir_flags df) = len df.
Proof. unfold ProcessData.rir_flags. cbv zeta. now rewrite !len_set_col. Qed.

(** Splits on whether the table has a column the run reads next. *)
Ltac need_col df c :=
  rewrite ?has_col_filter_rows;
  destruct (has_col c df); cbn [mbind result_bind negb]; [| reflexivity].


(** ** Steps that need columns and add columns *)

Lemma has_col_set_col (c k : string) (f : row -> cell) (df : DataFrame) :
  has_col c (set_col k f df) = has_col c df || String.eqb c k.
Proof.
  destruct (String.eqb c k) eqn:E.
  - apply String.eqb_eq in E. subst. now rewrite has_col_set_col_same, orb_true_r.
  - now rewrite has_col_set_col_other, orb_false_r.
Qed.

Lemma in_strings_app (c : string) (a b : list string) :
  in_strings c (a ++ b) = in_strings c a || in_strings c b.
Proof. unfold in_strings. apply existsb_app. Qed.

Lemma grows_nil (df : DataFrame) : grows [] df df.
Proof.
  split; [reflexivity |]. split; [| reflexivity].
  intros c. simpl. now rewrite orb_false_r.
Qed.

Lemma grows_trans (n1 n2 : list string) (a b c : DataFrame) :
  grows n1 a b -> grows n2 b c -> grows (n1 ++ n2) a c.
Proof.
  intros (L1 & C1 & V1) (L2 & C2 & V2). split; [congruence |]. split.
  - intros x. now rewrite C2, C1, in_strings_app, orb_assoc.
  - intros x Hx. rewrite in_strings_app in Hx. apply orb_false_iff in Hx.
    destruct Hx as [H1 H2]. now rewrite V2, V1.
Qed.

Lemma grows_set_col (k : string) (f : row -> cell) (df : DataFrame) :
  grows [k] df (set_col k f df).
Proof.
  split; [apply len_set_col |]. split.
  - intros c. rewrite has_col_set_col. simpl. now rewrite orb_false_r.
  - intros c Hc. simpl in Hc. rewrite orb_false_r in Hc.
    now apply column_set_col_other.
Qed.

(** One more assignment at the end of a chain. *)
Lemma grows_step (n : list string) (k : string) (f : row -> cell) (a x : DataFrame) :
  n <> [] -> List.last n "" = k ->
  grows (List.removelast n) a x -> grows n a (set_col k f x).
Proof.
  intros Hn Hk H. rewrite (List.app_removelast_last "" Hn), Hk.
  eapply grows_trans; [exact H | apply grows_set_col].
Qed.

Ltac grows_chain :=
  repeat (apply grows_step; [discriminate | reflexivity | cbn [List.removelast]]);
  try apply grows_nil.

Lemma grows_derive_race_eth (df : DataFrame) :
  grows ["race_eth"] df (BuildCohort.derive_race_eth df).
Proof.
  unfold BuildCohort.derive_race_eth.
  destruct (has_col "RIDRETH3" df); apply grows_set_col.
Qed.

Lemma grows_derive_hscrp (df : DataFrame) :
  grows ["hscrp"] df (BuildCohort.derive_hscrp df).
Proof. apply grows_set_col. Qed.

Lemma grows_derive_lipids (df : DataFrame) :
  grows ["tchol"; "hdl"; "trigly"; "ldl"] df (BuildCohort.derive_lipids df).
Proof. unfold BuildCohort.derive_lipids. cbv zeta. grows_chain. Qed.

Lemma grows_derive_clinical (df : DataFrame) :
  grows ["bmi"; "bmi_cat"; "obesity"; "hypertension"; "diabetes"; "hba1c";
         "fasting_glucose"; "smoking_status"; "current_smoker"; "cvd_history"]
        df (BuildCohort.derive_clinical df).
Proof. unfold BuildCohort.derive_clinical. cbv zeta. grows_chain. Qed.

Lemma grows_derive_rir (df : DataFrame) :
  grows ["ldl_lt70"; "primary_cohort"; "crp_elevated"; "rir"; "rir_crp3";
         "ldl_lt55"; "cohort_ldl55"; "rir_ldl55"]
        df (BuildCohort.derive_rir df).
Proof. unfold BuildCohort.derive_rir. cbv zeta. grows_chain. Qed.

(** *** Composition of steps *)

Lemma is_float_column (c : string) (df : DataFrame) :
  is_float c df = existsb isna (column c df).
Proof.
  unfold is_float, column. induction (rows df) as [| r rs IH]; simpl;
    [reflexivity | now rewrite IH].
Qed.

Lemma float_operand_column (c : string) (df df' : DataFrame) :
  column c df' = column c df -> float_operand c df' = float_operand c df.
Proof.
  intros H. unfold float_operand. rewrite !is_float_column, H. f_equal.
  assert (E : forall d, existsb (fun r => notna (row_get r c)) (rows d)
                        = existsb notna (column c d)).
  { intros d. unfold column. induction (rows d) as [| r rs IH]; simpl;
      [reflexivity | now rewrite IH]. }
  now rewrite !E, H.
Qed.

Lemma operand_grown (op : option string) (new : list string) (df df' : DataFrame) :
  grows new df df' -> operand_kept op new = true ->
  match op with Some c => float_operand c df' | None => false end
  = match op with Some c => float_operand c df | None => false end.
Proof.
  intros (_ & _ & HV) Hk. destruct op as [c |]; [| reflexivity].
  apply float_operand_column, HV. now apply negb_true_iff in Hk.
Qed.

Lemma filter_missing_grown (new needs : list string) (df df' : DataFrame) :
  grows new df df' -> disjoint needs new = true ->
  List.filter (fun c => negb (has_col c df')) needs
  = List.filter (fun c => negb (has_col c df)) needs.
Proof.
  intros (_ & HC & _) Hd. apply filter_ext_in. intros c Hc.
  unfold disjoint in Hd. rewrite forallb_forall in Hd. specialize (Hd c Hc).
  apply negb_true_iff in Hd. now rewrite HC, Hd, orb_false_r.
Qed.

Lemma outcome_pure (new : list string) (df df' : DataFrame) :
  grows new df df' -> outcome [] None new df (Ok df').
Proof. intros H. exists df'. auto. Qed.

Lemma outcome_require (c : string) (df : DataFrame) :
  outcome [c] None [] df (require c df).
Proof.
  unfold outcome, require. simpl. destruct (has_col c df); simpl; [| reflexivity].
  exists df. split; [reflexivity | apply grows_nil].
Qed.

Lemma outcome_int_operand (c : string) (df : DataFrame) :
  outcome [] (Some c) [] df (int_operand c df).
Proof.
  unfold outcome, int_operand, float_operand. simpl.
  destruct (is_float c df && existsb (fun r => notna (row_get r c)) (rows df));
    [eauto |].
  exists df. split; [reflexivity | apply grows_nil].
Qed.

(** A step without operand, then a step. *)
Lemma outcome_bind (needs1 new1 needs2 new2 : list string) (op : option string)
    (df : DataFrame) (m : result DataFrame) (k : DataFrame -> result DataFrame) :
  outcome needs1 None new1 df m ->
  (forall df', outcome needs2 op new2 df' (k df')) ->
  disjoint needs2 new1 = true -> operand_kept op new1 = true ->
  outcome (needs1 ++ needs2) op (new1 ++ new2) df (m ≫= k).
Proof.
  intros H1 H2 Hd Hop. unfold outcome in *. rewrite List.filter_app.
  destruct (List.filter (fun c => negb (has_col c df)) needs1) as [| c cs].
  - destruct H1 as (df1 & -> & Hg). simpl. specialize (H2 df1).
    rewrite (filter_missing_grown new1 needs2 df df1 Hg Hd) in H2.
    destruct (List.filter (fun c => negb (has_col c df)) needs2); [| exact H2].
    rewrite (operand_grown op new1 df df1 Hg Hop) in H2.
    destruct (match op with Some c => float_operand c df | None => false end);
      [exact H2 |].
    destruct H2 as (df2 & E & Hg2). exists df2. split; [exact E |].
    now apply (grows_trans new1 new2 df df1 df2).
  - rewrite H1. reflexivity.
Qed.

(** Assignments, then a step. *)
Lemma outcome_from (needs new newg : list string) (op : option string)
    (df x : DataFrame) (m : result DataFrame) :
  grows newg df x ->
  outcome needs op new x m ->
  disjoint needs newg = true -> operand_kept op newg = true ->
  outcome needs op (newg ++ new) df m.
Proof.
  intros Hg H Hd Hop. unfold outcome in *.
  rewrite (filter_missing_grown newg needs df x Hg Hd) in H.
  destruct (List.filter (fun c => negb (has_col c df)) needs); [| exact H].
  rewrite (operand_grown op newg df x Hg Hop) in H.
  destruct (match op with Some c => float_operand c df | None => false end);
    [exact H |].
  destruct H as (df2 & E & Hg2). exists df2. split; [exact E |].
  now apply (grows_trans newg new df x df2).
Qed.

(** A step, then assignments. *)
Lemma outcome_then (needs new new2 : list string) (op : option string)
    (df : DataFrame) (m : result DataFrame) (g : DataFrame -> DataFrame) :
  outcome needs op new df m ->
  (forall x, grows new2 x (g x)) ->
  outcome needs op (new ++ new2) df (m ≫= fun x => Ok (g x)).
Proof.
  intros H Hg. unfold outcome in *.
  destruct (List.filter (fun c => negb (has_col c df)) needs);
    [| now rewrite H].
  destruct (match op with Some c => float_operand c df | None => false end).
  - destruct H as (msg & ->). eauto.
  - destruct H as (df1 & -> & Hg1). simpl. exists (g df1).
    split; [reflexivity |]. now apply (grows_trans new new2 df df1 (g df1)).
Qed.

(** The step reads column [c] of the table it has. *)
Ltac run_need c :=
  eapply (outcome_bind [c] []);
  [apply outcome_require | intros ? | reflexivity | reflexivity].

(** The step first assigns the columns [l]. *)
Ltac run_after l :=
  eapply (outcome_from _ _ l); [| | reflexivity | reflexivity].

Lemma outcome_derive_design (df : DataFrame) :
  outcome ["SDMVPSU"; "SDMVSTRA"] None
       ["fasting_weight"; "in_fasting_subsample"; "mec_weight"; "psu"; "strata"]
       df (BuildCohort.derive_design df).
Proof.
  unfold BuildCohort.derive_design. cbv zeta.
  run_after ["fasting_weight"; "in_fasting_subsample"; "mec_weight"]; [grows_chain |].
  run_need "SDMVPSU".
  run_after ["psu"]; [apply grows_set_col |].
  run_need "SDMVSTRA".
  apply outcome_pure, grows_set_col.
Qed.

Lemma outcome_derive_eligibility (df : DataFrame) :
  outcome ["statin_use"] (Some "statin_use")
       ["age_eligible"; "fasting_eligible"; "crp_available"; "ldl_available";
        "crp_valid"; "eligible"; "statin_eligible"]
       df (BuildCohort.derive_eligibility df).
Proof.
  unfold BuildCohort.derive_eligibility. cbv zeta.
  run_after ["age_eligible"; "fasting_eligible"; "crp_available"; "ldl_available";
             "crp_valid"; "eligible"]; [grows_chain |].
  run_need "statin_use".
  apply (outcome_then [] [] ["statin_eligible"] (Some "statin_use") _ _
           (set_col "statin_eligible"
              (BuildCohort.flags_and ["eligible"; "statin_use"])));
    [apply outcome_int_operand | intros x; apply grows_set_col].
Qed.

Lemma build_analytic_cohort_steps (df : DataFrame) :
  outcome build_inputs (Some "statin_use") build_outputs df
          (BuildCohort.build_analytic_cohort df).
Proof.
  unfold BuildCohort.build_analytic_cohort, build_inputs, build_outputs. cbv zeta.
  run_need "RIDAGEYR".
  run_after ["age"]; [apply grows_set_col |].
  run_need "RIAGENDR".
  run_after ["sex"; "female"]; [grows_chain |].
  run_after ["race_eth"]; [apply grows_derive_race_eth |].
  run_after ["hscrp"]; [apply grows_derive_hscrp |].
  run_after ["tchol"; "hdl"; "trigly"; "ldl"]; [apply grows_derive_lipids |].
  eapply (outcome_bind ["SDMVPSU"; "SDMVSTRA"]
            ["fasting_weight"; "in_fasting_subsample"; "mec_weight"; "psu"; "strata"]);
    [apply outcome_derive_design | intros ? | reflexivity | reflexivity].
  run_after ["bmi"; "bmi_cat"; "obesity"; "hypertension"; "diabetes"; "hba1c";
             "fasting_glucose"; "smoking_status"; "current_smoker"; "cvd_history"];
    [apply grows_derive_clinical |].
  apply (outcome_then ["statin_use"]
           ["age_eligible"; "fasting_eligible"; "crp_available"; "ldl_available";
            "crp_valid"; "eligible"; "statin_eligible"]
           ["ldl_lt70"; "primary_cohort"; "crp_elevated"; "rir"; "rir_crp3";
            "ldl_lt55"; "cohort_ldl55"; "rir_ldl55"]
           (Some "statin_use") _ _ BuildCohort.derive_rir);
    [apply outcome_derive_eligibility | apply grows_derive_rir].
Qed.


(** ** The outcome of [harmonize_variables] *)

Lemma grows_harmonize_hscrp (df : DataFrame) :
  grows ["hscrp"] df (ProcessData.harmonize_hscrp df).
Proof. unfold ProcessData.harmonize_hscrp. apply grows_set_col. Qed.

Lemma grows_harmonize_weight (df : DataFrame) :
  grows ["fasting_weight"] df (ProcessData.harmonize_weight df).
Proof. unfold ProcessData.harmonize_weight. apply grows_set_col. Qed.

Lemma grows_harmonize_obesity (df : DataFrame) :
  grows ["obese"] df (ProcessData.harmonize_obesity df).
Proof. unfold ProcessData.harmonize_obesity. apply grows_set_col. Qed.

Lemma grows_harmonize_lipids (df : DataFrame) :
  grows ["total_chol"; "hdl"; "trigly"; "ldl_calc"] df (ProcessData.harmonize_lipids df).
Proof.
  unfold ProcessData.harmonize_lipids. cbv zeta.
  do 2 (apply grows_step; [discriminate | reflexivity | cbn [List.removelast]]).
  destruct (has_col "LBDHDD" _); [| destruct (has_col "LBXHDD" _)]; grows_chain.
Qed.

Lemma grows_harmonize_demographics (df : DataFrame) :
  grows ["age"; "sex"; "race_eth"; "education"; "pir"] df
        (ProcessData.harmonize_demographics df).
Proof. unfold ProcessData.harmonize_demographics. cbv zeta. grows_chain. Qed.

Lemma grows_harmonize_bp (df : DataFrame) :
  grows ["sbp_mean"; "dbp_mean"] df (ProcessData.harmonize_bp df).
Proof. unfold ProcessData.harmonize_bp. cbv zeta. grows_chain. Qed.

Lemma grows_harmonize_other (df : DataFrame) :
  grows ["bmi"; "hba1c"; "fasting_glucose"; "psu"; "strata"; "mec_weight"] df
        (ProcessData.harmonize_other df).
Proof. unfold ProcessData.harmonize_other. cbv zeta. grows_chain. Qed.

Lemma grows_harmonize_glycemia (df : DataFrame) :
  grows ["prediabetes"; "glycemic_status"] df (ProcessData.harmonize_glycemia df).
Proof. unfold ProcessData.harmonize_glycemia. cbv zeta. grows_chain. Qed.

Lemma outcome_harmonize_diabetes (df : DataFrame) :
  outcome ["DIQ010"] None ["diabetes"] df (ProcessData.harmonize_diabetes df).
Proof.
  unfold outcome, ProcessData.harmonize_diabetes. simpl.
  destruct (has_col "DIQ010" df); simpl; [| reflexivity].
  eexists. split; [reflexivity | apply grows_set_col].
Qed.

Lemma outcome_harmonize_hypertension (df : DataFrame) :
  outcome ["BPQ040A"] None ["hypertension"] df
          (ProcessData.harmonize_hypertension df).
Proof.
  unfold outcome, ProcessData.harmonize_hypertension. simpl.
  destruct (has_col "BPQ040A" df); simpl; [| reflexivity].
  eexists. split; [reflexivity | apply grows_set_col].
Qed.

Lemma outcome_before_smoking (df : DataFrame) :
  outcome ["DIQ010"; "BPQ040A"] None
       [ "hscrp"; "total_chol"; "hdl"; "trigly"; "ldl_calc"; "fasting_weight";
         "age"; "sex"; "race_eth"; "education"; "pir"; "sbp_mean"; "dbp_mean";
         "bmi"; "hba1c"; "fasting_glucose"; "psu"; "strata"; "mec_weight";
         "diabetes"; "prediabetes"; "glycemic_status"; "hypertension" ]
       df (before_smoking df).
Proof.
  unfold before_smoking.
  run_after ["hscrp"]; [apply grows_harmonize_hscrp |].
  run_after ["total_chol"; "hdl"; "trigly"; "ldl_calc"]; [apply grows_harmonize_lipids |].
  run_after ["fasting_weight"]; [apply grows_harmonize_weight |].
  run_after ["age"; "sex"; "race_eth"; "education"; "pir"];
    [apply grows_harmonize_demographics |].
  run_after ["sbp_mean"; "dbp_mean"]; [apply grows_harmonize_bp |].
  run_after ["bmi"; "hba1c"; "fasting_glucose"; "psu"; "strata"; "mec_weight"];
    [apply grows_harmonize_other |].
  eapply (outcome_bind ["DIQ010"] ["diabetes"]);
    [apply outcome_harmonize_diabetes | intros ? | reflexivity | reflexivity].
  run_after ["prediabetes"; "glycemic_status"]; [apply grows_harmonize_glycemia |].
  apply outcome_harmonize_hypertension.
Qed.

Lemma harmonize_variables_split (df : DataFrame) :
  ProcessData.harmonize_variables df
  = h ← before_smoking df;
    s ← ProcessData.harmonize_smoking h;
    Ok (ProcessData.harmonize_obesity s).
Proof.
  unfold ProcessData.harmonize_variables, before_smoking. cbv zeta.
  destruct (ProcessData.harmonize_diabetes _); reflexivity.
Qed.

(** [harmonize_variables] raises [KeyError] when the table lacks
    [DIQ010], or has it and lacks [BPQ040A]; with both, it raises
    [KeyError] when the table lacks [SMQ020], and [AttributeError] when
    it has [SMQ020] and lacks [SMQ040]; with all four columns it
    returns a table with as many rows, whose columns are those of the
    input and the 26 harmonised ones, and in which every other column
    holds what it held. *)
Theorem harmonize_variables_outcome (df : DataFrame) :
  match List.filter (fun c => negb (has_col c df)) ["DIQ010"; "BPQ040A"] with
  | c :: _ => ProcessData.harmonize_variables df = Raise (KeyError c)
  | [] =>
      if negb (has_col "SMQ020" df)
      then exists msg, ProcessData.harmonize_variables df = Raise (KeyError msg)
      else if negb (has_col "SMQ040" df)
      then exists msg, ProcessData.harmonize_variables df = Raise (AttributeError msg)
      else exists df', ProcessData.harmonize_variables df = Ok df'
                       /\ grows harmonize_outputs df df'
  end.
Proof.
  rewrite harmonize_variables_split.
  pose proof (outcome_before_smoking df) as H. unfold outcome in H.
  destruct (List.filter (fun c => negb (has_col c df)) ["DIQ010"; "BPQ040A"]);
    [| now rewrite H].
  destruct H as (h & -> & Hg). simpl.
  pose proof Hg as (_ & HC & _).
  unfold ProcessData.harmonize_smoking.
  rewrite (HC "SMQ020"), (HC "SMQ040"). simpl in_strings. rewrite !orb_false_r.
  destruct (has_col "SMQ020" df); simpl; [| eauto].
  destruct (has_col "SMQ040" df); simpl; [| eauto].
  eexists. split; [reflexivity |].
  apply (grows_trans _ ["smoking_status"; "current_smoker"; "obese"] df h _ Hg).
  grows_chain.
Qed.

(** ** Tokens that contain another token *)

Lemma append_assoc (a b c : string) : (a +:+ b) +:+ c = a +:+ (b +:+ c).
Proof.
  induction a as [| x a IH]; [reflexivity |].
  rewrite !append_cons. now rewrite IH.
Qed.

(** A name that contains a token contains every part of the token. *)
Lemma name_has_part (fl : flavour) (tok part pre rest : string) (f : file) :
  normcase fl tok = pre +:+ (normcase fl part +:+ rest) ->
  name_has fl tok f -> name_has fl part f.
Proof.
  intros E (a & b & H). exists (a +:+ pre), (rest +:+ b).
  rewrite H, E. now rewrite !append_assoc.
Qed.

Lemma name_has_ext_part (fl : flavour) (tok part pre rest ext : string) (f : file) :
  normcase fl tok = pre +:+ (normcase fl part +:+ rest) ->
  name_has_ext fl tok ext f -> name_has_ext fl part ext f.
Proof.
  intros E (a & b & H). exists (a +:+ pre), (rest +:+ b).
  rewrite H, E. now rewrite !append_assoc.
Qed.

Lemma filter_nil_all {A : Type} (p : A -> bool) (l : list A) :
  List.filter p l = [] -> forall x, In x l -> p x = false.
Proof.
  intros H x Hx. destruct (p x) eqn:E; [| reflexivity].
  assert (Hin : In x (List.filter p l)) by (apply filter_In; auto).
  rewrite H in Hin. destruct Hin.
Qed.

Lemma filter_all_nil {A : Type} (p : A -> bool) (l : list A) :
  (forall x, In x l -> p x = false) -> List.filter p l = [].
Proof.
  induction l as [| a l IH]; simpl; intros H; [reflexivity |].
  rewrite (H a) by now left. apply IH. intros x Hx. apply H. now right.
Qed.

Lemma process_glob_part (fl : flavour) (d : directory)
    (tok part pre rest ext : string) :
  normcase fl tok = pre +:+ (normcase fl part +:+ rest) ->
  ProcessData.glob_ext fl d part ext = [] ->
  ProcessData.glob_ext fl d tok ext = [].
Proof.
  intros E H. unfold ProcessData.glob_ext in *. apply filter_all_nil.
  intros f Hf. pose proof (filter_nil_all _ _ H f Hf) as Hp.
  destruct (glob_contains_ext fl tok ext (fst f)) eqn:Et; [| reflexivity].
  apply glob_contains_ext_spec in Et.
  apply (name_has_ext_part fl tok part pre rest ext f E) in Et.
  apply glob_contains_ext_spec in Et. congruence.
Qed.

Lemma process_find_file_part (fl : flavour) (d : directory)
    (tok part pre rest : string) :
  normcase fl tok = pre +:+ (normcase fl part +:+ rest) ->
  ProcessData.find_file fl d part = None ->
  ProcessData.find_file fl d tok = None.
Proof.
  intros E. unfold ProcessData.find_file.
  destruct (ProcessData.glob_ext fl d part ".XPT") eqn:E1; [| discriminate].
  destruct (ProcessData.glob_ext fl d part ".xpt") eqn:E2; [| discriminate].
  intros _.
  rewrite (process_glob_part fl d tok part pre rest ".XPT" E E1).
  now rewrite (process_glob_part fl d tok part pre rest ".xpt" E E2).
Qed.

Lemma build_find_file_part (fl : flavour) (d : directory)
    (tok part pre rest : string) :
  normcase fl tok = pre +:+ (normcase fl part +:+ rest) ->
  BuildCohort.find_file fl d part = None ->
  BuildCohort.find_file fl d tok = None.
Proof.
  intros E. unfold BuildCohort.find_file. intros H.
  assert (Hn : List.filter (fun f => glob_contains fl part (fst f)) d = [])
    by (destruct (List.filter (fun f => glob_contains fl part (fst f)) d);
        [reflexivity | discriminate]).
  rewrite (filter_all_nil (fun f => glob_contains fl tok (fst f)) d); [reflexivity |].
  intros f Hf. pose proof (filter_nil_all _ _ Hn f Hf) as Hp. simpl in Hp.
  destruct (glob_contains fl tok (fst f)) eqn:Et; [| reflexivity].
  apply glob_contains_spec in Et.
  apply (name_has_part fl tok part pre rest f E) in Et.
  apply glob_contains_spec in Et. congruence.
Qed.

Lemma normcase_bpxo (fl : flavour) :
  normcase fl "BPXO" = "" +:+ (normcase fl "BPX" +:+ normcase fl "O").
Proof. destruct fl; reflexivity. Qed.

Lemma normcase_hscrp (fl : flavour) :
  normcase fl "HSCRP" = normcase fl "HS" +:+ (normcase fl "CRP" +:+ "").
Proof. destruct fl; reflexivity. Qed.

(** The token "BPXO" contains "BPX" and the token "HSCRP" contains
    "CRP".  So the processing script's fallback from "BPX" to "BPXO"
    never yields a file, and in the cohort builder's component loop a
    file found for "BPXO" or "HSCRP" has a name that "BPX" or "CRP"
    matches too: when the shorter token finds nothing, neither does the
    longer. *)
Theorem longer_token_is_shadowed (fl : flavour) (d : directory) :
  match ProcessData.find_file fl d "BPX" with
  | Some f => Some f
  | None => ProcessData.find_file fl d "BPXO"
  end = ProcessData.find_file fl d "BPX"
  /\ (forall f, BuildCohort.find_file fl d "BPXO" = Some f ->
                glob_contains fl "BPX" (fst f) = true
                /\ exists g, BuildCohort.find_file fl d "BPX" = Some g)
  /\ (forall f, BuildCohort.find_file fl d "HSCRP" = Some f ->
                glob_contains fl "CRP" (fst f) = true
                /\ exists g, BuildCohort.find_file fl d "CRP" = Some g).
Proof.
  split; [| split].
  - destruct (ProcessData.find_file fl d "BPX") eqn:E; [reflexivity |].
    apply (process_find_file_part fl d "BPXO" "BPX" "" (normcase fl "O"));
      [apply normcase_bpxo | exact E].
  - intros f Hf. split.
    + apply head_filter_some in Hf. destruct Hf as [_ Hf].
      apply glob_contains_spec. apply glob_contains_spec in Hf.
      apply (name_has_part fl "BPXO" "BPX" "" (normcase fl "O") f);
        [apply normcase_bpxo | exact Hf].
    + destruct (BuildCohort.find_file fl d "BPX") as [g |] eqn:E; [eauto |].
      rewrite (build_find_file_part fl d "BPXO" "BPX" "" (normcase fl "O")) in Hf;
        [discriminate | apply normcase_bpxo | exact E].
  - intros f Hf. split.
    + apply head_filter_some in Hf. destruct Hf as [_ Hf].
      apply glob_contains_spec. apply glob_contains_spec in Hf.
      apply (name_has_part fl "HSCRP" "CRP" (normcase fl "HS") "" f);
        [apply normcase_hscrp | exact Hf].
    + destruct (BuildCohort.find_file fl d "CRP") as [g |] eqn:E; [eauto |].
      rewrite (build_find_file_part fl d "HSCRP" "CRP" (normcase fl "HS") "") in Hf;
        [discriminate | apply normcase_hscrp | exact E].
Qed.

Lemma longer_token_is_shadowed_witness :
  glob_contains Posix "BPX" "P_BPXO.xpt" = true
  /\ exists g, BuildCohort.find_file Posix Samples.dir_2017 "BPX" = Some g.
Proof.
  apply (proj1 (proj2 (longer_token_is_shadowed Posix Samples.dir_2017))
           ("P_BPXO.xpt", None)).
  reflexivity.
Defined.

(** ** Glycemic status in the processing script *)

Lemma prediabetes_flag_one (r : row) :
  ProcessData.prediabetes_flag r = Num 1 ->
  cell_eq_num (row_get r "diabetes") 1 = false.
Proof.
  unfold ProcessData.prediabetes_flag.
  destruct (isna (row_get r "hba1c") && isna (row_get r "fasting_glucose"));
    [discriminate |].
  destruct (cell_eq_num (row_get r "diabetes") 1); [discriminate | reflexivity].
Qed.

Lemma cell_eq_num_one (c : cell) : c = Num 1 -> cell_eq_num c 1 = true.
Proof. intros ->. reflexivity. Qed.

Lemma prediabetes_flag_values (r : row) :
  ProcessData.prediabetes_flag r = NaN
  \/ ProcessData.prediabetes_flag r = Num 0
  \/ ProcessData.prediabetes_flag r = Num 1.
Proof.
  unfold ProcessData.prediabetes_flag.
  destruct (isna (row_get r "hba1c") && isna (row_get r "fasting_glucose")); [auto |].
  destruct (cell_eq_num (row_get r "diabetes") 1); [auto |].
  match goal with |- context [of_bool ?b] => destruct b end; auto.
Qed.

(** The glycemic status of a row of the harmonised table: 2 exactly for
    diabetes, 1 exactly for prediabetes, which excludes diabetes, and
    missing exactly when both flags are missing. *)
Theorem glycemic_status_characterised (df : DataFrame) (r' : row) :
  In r' (rows (ProcessData.harmonize_glycemia df)) ->
  (row_get r' "glycemic_status" = Num 2
   <-> cell_eq_num (row_get r' "diabetes") 1 = true)
  /\ (row_get r' "glycemic_status" = Num 1 <-> row_get r' "prediabetes" = Num 1)
  /\ (row_get r' "prediabetes" = Num 1 ->
      cell_eq_num (row_get r' "diabetes") 1 = false)
  /\ (row_get r' "glycemic_status" = NaN
      <-> isna (row_get r' "diabetes") = true
          /\ isna (row_get r' "prediabetes") = true).
Proof.
  intros Hin. unfold ProcessData.harmonize_glycemia in Hin. cbv zeta in Hin.
  step_back Hin. step_back Hin.
  assert (Hd : row_get r' "diabetes" = row_get r0 "diabetes")
    by now rewrite (Ho "diabetes" eq_refl), (Ho0 "diabetes" eq_refl).
  assert (Hp : row_get r' "prediabetes" = ProcessData.prediabetes_flag r0)
    by now rewrite (Ho "prediabetes" eq_refl).
  assert (Hrd : row_get r "diabetes" = row_get r0 "diabetes")
    by now rewrite (Ho0 "diabetes" eq_refl).
  rewrite Hv, Hd, Hp. unfold ProcessData.glycemic_status. rewrite Hv0, Hrd.
  clear - r0.
  pose proof (prediabetes_flag_one r0) as H1.
  destruct (prediabetes_flag_values r0) as [E | [E | E]]; rewrite E in *;
    destruct (row_get r0 "diabetes") as [| q |] eqn:Ed; simpl;
    try destruct (Qeq_bool q 1) eqn:Eq; simpl;
    repeat split; intros; flatten_and;
    try discriminate; try reflexivity; try congruence; auto;
    specialize (H1 eq_refl); simpl in H1; congruence.
Qed.

Lemma glycemic_status_characterised_witness :
  row_get (nth 0 (rows (ProcessData.harmonize_glycemia Samples.glycemia_two)) [])
          "glycemic_status" = Num 1
  /\ row_get (nth 1 (rows (ProcessData.harmonize_glycemia Samples.glycemia_two)) [])
             "glycemic_status" = Num 2.
Proof.
  assert (H0 : In (nth 0 (rows (ProcessData.harmonize_glycemia Samples.glycemia_two)) [])
                  (rows (ProcessData.harmonize_glycemia Samples.glycemia_two)))
    by (vm_compute; auto).
  assert (H1 : In (nth 1 (rows (ProcessData.harmonize_glycemia Samples.glycemia_two)) [])
                  (rows (ProcessData.harmonize_glycemia Samples.glycemia_two)))
    by (vm_compute; auto).
  destruct (glycemic_status_characterised Samples.glycemia_two _ H0)
    as (_ & Hpre & _).
  destruct (glycemic_status_characterised Samples.glycemia_two _ H1)
    as (Hdia & _).
  split.
  - apply Hpre. vm_compute. reflexivity.
  - apply Hdia. vm_compute. reflexivity.
Defined.

(** ** Body-mass category and obesity flag of the cohort builder *)

Lemma bmi_cat_obese (bmi : cell) :
  BuildCohort.bmi_cat bmi = Str "Obese" -> cell_ge bmi 30 = true.
Proof.
  unfold BuildCohort.bmi_cat.
  destruct (cell_le bmi 0); [discriminate |].
  destruct (cell_le bmi 18.5); [discriminate |].
  destruct (cell_le bmi 25); [discriminate |].
  destruct (cell_le bmi 30) eqn:E30; [discriminate |].
  destruct (cell_le bmi 100) eqn:E100; [| discriminate]. intros _.
  destruct bmi as [| x |]; simpl in *; try discriminate.
  apply Qle_bool_iff. apply Qle_bool_iff in E100.
  apply Qle_bool_false_lt in E30. lra.
Qed.

Lemma bmi_cat_at_30 (bmi : cell) :
  cell_eq_num bmi 30 = true ->
  BuildCohort.bmi_cat bmi = Str "Overweight" /\ cell_ge bmi 30 = true.
Proof.
  destruct bmi as [| x |]; simpl; try discriminate.
  intros H. apply Qeq_bool_iff in H. unfold BuildCohort.bmi_cat. simpl.
  assert (E0 : Qle_bool x 0 = false) by (apply Qle_bool_false_lt; lra).
  assert (E1 : Qle_bool x 18.5 = false) by (apply Qle_bool_false_lt; lra).
  assert (E2 : Qle_bool x 25 = false) by (apply Qle_bool_false_lt; lra).
  assert (E3 : Qle_bool x 30 = true) by (apply Qle_bool_iff; lra).
  assert (E4 : Qle_bool 30 x = true) by (apply Qle_bool_iff; lra).
  now rewrite E0, E1, E2, E3, E4.
Qed.

Lemma obese_flag_not_category (bmi : cell) :
  cell_ge bmi 30 = true ->
  BuildCohort.bmi_cat bmi = Str "Obese"
  \/ cell_eq_num bmi 30 = true
  \/ cell_le bmi 100 = false.
Proof.
  destruct bmi as [| x |]; simpl; try discriminate.
  intros H. apply Qle_bool_iff in H. unfold BuildCohort.bmi_cat. simpl.
  destruct (Qeq_bool x 30) eqn:E; [auto |].
  destruct (Qle_bool x 100) eqn:E100; [| auto]. left.
  assert (Hne : ~ x == 30) by (intros Hx; apply Qeq_bool_iff in Hx; congruence).
  assert (E0 : Qle_bool x 0 = false) by (apply Qle_bool_false_lt; lra).
  assert (E1 : Qle_bool x 18.5 = false) by (apply Qle_bool_false_lt; lra).
  assert (E2 : Qle_bool x 25 = false) by (apply Qle_bool_false_lt; lra).
  assert (E3 : Qle_bool x 30 = false).
  { apply Qle_bool_false_lt. destruct (Qlt_le_dec 30 x) as [Hl | Hl]; [exact Hl |].
    exfalso. apply Hne. lra. }
  now rewrite E0, E1, E2, E3.
Qed.

(** The obesity flag and the body-mass category of the cohort builder,
    read at a row of the table with the clinical variables.  The
    category "Obese" implies the flag.  The flag does not imply the
    category: at a body-mass index of exactly 30 the flag is 1 and the
    category is "Overweight", the category intervals being closed on
    the right and the flag's threshold inclusive; the only other rows
    with the flag and without the category have an index above 100. *)
Theorem obesity_flag_and_category (df : DataFrame) (r' : row) :
  In r' (rows (BuildCohort.derive_clinical df)) ->
  (row_get r' "bmi_cat" = Str "Obese" -> row_get r' "obesity" = Num 1)
  /\ (cell_eq_num (row_get r' "bmi") 30 = true ->
      row_get r' "bmi_cat" = Str "Overweight" /\ row_get r' "obesity" = Num 1)
  /\ (row_get r' "obesity" = Num 1 ->
      row_get r' "bmi_cat" = Str "Obese"
      \/ cell_eq_num (row_get r' "bmi") 30 = true
      \/ cell_le (row_get r' "bmi") 100 = false).
Proof.
  intros Hin. unfold BuildCohort.derive_clinical in Hin. cbv zeta in Hin.
  repeat (lazymatch type of Hin with
          | In _ (rows (set_col "bmi" _ _)) => fail
          | _ => step_back Hin
          end).
  match goal with H : In ?r (rows _) |- _ => set (old := r) in * end.
  assert (Hb : row_get r' "bmi" = row_get old "bmi") by (read_back; reflexivity).
  assert (Hc : row_get r' "bmi_cat" = BuildCohort.bmi_cat (row_get old "bmi"))
    by (read_back; reflexivity).
  assert (Ho' : row_get r' "obesity" = of_bool (cell_ge (row_get old "bmi") 30))
    by (read_back; reflexivity).
  rewrite Hb, Hc, Ho', !of_bool_one. clearbody old. clear.
  split; [apply bmi_cat_obese |]. split; [apply bmi_cat_at_30 |].
  apply obese_flag_not_category.
Qed.

Lemma obesity_flag_and_category_witness :
  row_get (nth 0 (rows (BuildCohort.derive_clinical Samples.bmi_thirty)) []) "bmi_cat"
  = Str "Overweight"
  /\ row_get (nth 0 (rows (BuildCohort.derive_clinical Samples.bmi_thirty)) [])
             "obesity" = Num 1.
Proof.
  assert (H0 : In (nth 0 (rows (BuildCohort.derive_clinical Samples.bmi_thirty)) [])
                  (rows (BuildCohort.derive_clinical Samples.bmi_thirty)))
    by (vm_compute; auto).
  destruct (obesity_flag_and_category Samples.bmi_thirty _ H0) as (_ & Hedge & _).
  apply Hedge. vm_compute. reflexivity.
Defined.
